(** * Ziyavoice: the browser voice handler and its tool execution service

    A shallow embedding of [BrowserVoiceHandler] (session handling, audio
    segmentation, WAV framing, the LLM dialog turn with its tool calls) and of
    [ToolExecutionService] (data extraction, webhook and spreadsheet tools),
    followed by the properties proved about them.

    JavaScript strings are modelled as byte strings (UTF-8), exceptions as an
    explicit [Throw] result, and every external collaborator (LLM provider,
    HTTP endpoints of the webhooks and of the speech providers, spreadsheet
    service, transcription, the browser's socket, the clock) as a script of
    answers indexed by the number of calls made so far; the calls themselves
    are recorded in a trace. *)

From Stdlib Require Import ZArith List Lia Bool.
From Stdlib.Strings Require Import Ascii String Byte.
From stdpp Require Import base option list strings gmap pretty.

Set Warnings "-register-all".

Open Scope list_scope.
Open Scope string_scope.
Open Scope Z_scope.

(* ================================================================== *)
(** * Runtime values: exceptions, results, JSON                        *)
(* ================================================================== *)

(** A thrown JavaScript error: its constructor name and its message. *)
Record exn := Exn { exn_name : string; exn_message : string }.

Definition Error (msg : string) : exn := Exn "Error" msg.
Definition TypeError (msg : string) : exn := Exn "TypeError" msg.
Definition RangeError (msg : string) : exn := Exn "RangeError" msg.
Definition SyntaxError (msg : string) : exn := Exn "SyntaxError" msg.

(** What an external call answers: a value, or a raised error. *)
Inductive answer (A : Type) : Type :=
| Answers (a : A)
| Raises (e : exn).
Arguments Answers {A} a.
Arguments Raises {A} e.

(** The double quote character, and string literals written with an
    apostrophe wherever the text has a double quote. *)
Definition dquote : ascii := "034"%char.

Fixpoint js (s : string) : string :=
  match s with
  | EmptyString => EmptyString
  | String c r => String (if (c =? "'")%char then dquote else c) (js r)
  end.

Module JSON.

(** JSON values.  A number is kept as the exact decimal [m * 10^e] that its
    literal denotes; the double that the runtime makes of it is computed
    where the number is read ([truthy]) or written ([number_to_string]). *)
Inductive json : Type :=
| JNull
| JBool (b : bool)
| JNumber (m e : Z)
| JString (s : string)
| JArray (xs : list json)
| JObject (kvs : list (string * json)).

(** ** Property order of a parsed object

    A repeated key keeps its first position and takes its last value; keys
    that are array indices come first, in increasing order. *)

Definition is_digit (c : ascii) : bool :=
  (48 <=? Z.of_N (N_of_ascii c)) && (Z.of_N (N_of_ascii c) <=? 57).

Definition digit_val (c : ascii) : Z := Z.of_N (N_of_ascii c) - 48.

Fixpoint all_digits (s : string) : bool :=
  match s with
  | EmptyString => true
  | String c r => is_digit c && all_digits r
  end.

Fixpoint digits_val (acc : Z) (s : string) : Z :=
  match s with
  | EmptyString => acc
  | String c r => digits_val (10 * acc + digit_val c) r
  end.

(** The array index a property key denotes, if it is one: a canonical
    decimal numeral below [2^32 - 1]. *)
Definition array_index (k : string) : option Z :=
  match k with
  | EmptyString => None
  | String c r =>
      if all_digits k
         && (negb (c =? "0")%char || (String.length r =? 0)%nat)
         && (String.length k <=? 10)%nat
         && (digits_val 0 k <? 4294967295)
      then Some (digits_val 0 k) else None
  end.

Fixpoint obj_replace (k : string) (v : json) (kvs : list (string * json))
  : option (list (string * json)) :=
  match kvs with
  | [] => None
  | (k', v') :: r =>
      if String.eqb k k' then Some ((k', v) :: r)
      else match obj_replace k v r with
           | Some r' => Some ((k', v') :: r')
           | None => None
           end
  end.

(** Insert a fresh key: an index goes before the first key that is not a
    smaller index, any other key goes last. *)
Fixpoint obj_insert (k : string) (v : json) (kvs : list (string * json))
  : list (string * json) :=
  match kvs with
  | [] => [(k, v)]
  | (k', v') :: r =>
      match array_index k, array_index k' with
      | Some i, Some i' =>
          if i <? i' then (k, v) :: kvs else (k', v') :: obj_insert k v r
      | Some _, None => (k, v) :: kvs
      | None, _ => (k', v') :: obj_insert k v r
      end
  end.

Definition obj_set (k : string) (v : json) (kvs : list (string * json))
  : list (string * json) :=
  match obj_replace k v kvs with
  | Some kvs' => kvs'
  | None => obj_insert k v kvs
  end.

Fixpoint obj_get (k : string) (kvs : list (string * json)) : option json :=
  match kvs with
  | [] => None
  | (k', v) :: r => if String.eqb k k' then Some v else obj_get k r
  end.

(** ** [JSON.parse] *)

Definition is_json_ws (c : ascii) : bool :=
  (c =? " ")%char || (c =? "009")%char || (c =? "010")%char
  || (c =? "013")%char.

Fixpoint skip_ws (s : string) : string :=
  match s with
  | String c r => if is_json_ws c then skip_ws r else s
  | EmptyString => s
  end.

Fixpoint string_drop (n : nat) (s : string) : string :=
  match n, s with
  | S n', String _ r => string_drop n' r
  | _, _ => s
  end.

Definition hex_val (c : ascii) : option Z :=
  let n := Z.of_N (N_of_ascii c) in
  if (48 <=? n) && (n <=? 57) then Some (n - 48)
  else if (65 <=? n) && (n <=? 70) then Some (n - 55)
  else if (97 <=? n) && (n <=? 102) then Some (n - 87)
  else None.

Definition hex4 (a b c d : ascii) : option Z :=
  match hex_val a, hex_val b, hex_val c, hex_val d with
  | Some x, Some y, Some z, Some w => Some (((x * 16 + y) * 16 + z) * 16 + w)
  | _, _, _, _ => None
  end.

Definition byte_char (z : Z) : ascii := ascii_of_N (Z.to_N z).

(** The UTF-8 bytes of a code point. *)
Definition utf8 (cp : Z) : string :=
  if cp <? 128 then String (byte_char cp) ""
  else if cp <? 2048 then
    String (byte_char (192 + cp / 64)) (String (byte_char (128 + cp mod 64)) "")
  else if cp <? 65536 then
    String (byte_char (224 + cp / 4096))
      (String (byte_char (128 + (cp / 64) mod 64))
         (String (byte_char (128 + cp mod 64)) ""))
  else
    String (byte_char (240 + cp / 262144))
      (String (byte_char (128 + (cp / 4096) mod 64))
         (String (byte_char (128 + (cp / 64) mod 64))
            (String (byte_char (128 + cp mod 64)) ""))).

Definition simple_escape (c : ascii) : option ascii :=
  if (c =? dquote)%char then Some dquote
  else if (c =? "\")%char then Some "\"%char
  else if (c =? "/")%char then Some "/"%char
  else if (c =? "b")%char then Some "008"%char
  else if (c =? "f")%char then Some "012"%char
  else if (c =? "n")%char then Some "010"%char
  else if (c =? "r")%char then Some "013"%char
  else if (c =? "t")%char then Some "009"%char
  else None.

(** The body of a string literal after its opening quote: plain bytes and
    the code units written as [\uXXXX], up to the closing quote. *)
Fixpoint read_string (s : string) : option (list (ascii + Z) * string) :=
  match s with
  | EmptyString => None
  | String c r =>
      if (c =? dquote)%char then Some ([], r)
      else if (c =? "\")%char then
        match r with
        | String e r' =>
            if (e =? "u")%char then
              match r' with
              | String a (String b (String c' (String d r''))) =>
                  match hex4 a b c' d, read_string r'' with
                  | Some u, Some (l, rest) => Some (inr u :: l, rest)
                  | _, _ => None
                  end
              | _ => None
              end
            else
              match simple_escape e, read_string r' with
              | Some x, Some (l, rest) => Some (inl x :: l, rest)
              | _, _ => None
              end
        | EmptyString => None
        end
      else if Z.of_N (N_of_ascii c) <? 32 then None
      else
        match read_string r with
        | Some (l, rest) => Some (inl c :: l, rest)
        | None => None
        end
  end.

(** Strings are kept as UTF-8 bytes.  Escaped surrogate pairs are joined
    into one code point; an escaped surrogate without its partner is kept as
    the three bytes [ED A0..BF 80..BF] that [utf8] gives its code unit,
    which no well-formed text contains, and [escape_string] writes it back
    as an escape. *)
Fixpoint decode_units (l : list (ascii + Z)) : string :=
  match l with
  | [] => ""
  | inl c :: r => String c (decode_units r)
  | inr hi :: r =>
      match r with
      | inr lo :: r' =>
          if (55296 <=? hi) && (hi <? 56320) && (56320 <=? lo) && (lo <? 57344)
          then utf8 (65536 + (hi - 55296) * 1024 + (lo - 56320))
                 ++ decode_units r'
          else utf8 hi ++ decode_units r
      | _ => utf8 hi ++ decode_units r
      end
  end.

Definition parse_string (s : string) : option (string * string) :=
  match read_string s with
  | Some (l, rest) => Some (decode_units l, rest)
  | None => None
  end.

(** Digits read from the front of [s]: the accumulated value, how many
    digits were read, and what follows them. *)
Fixpoint read_digits (acc : Z) (n : Z) (s : string) : Z * Z * string :=
  match s with
  | String c r =>
      if is_digit c then read_digits (10 * acc + digit_val c) (n + 1) r
      else (acc, n, s)
  | EmptyString => (acc, n, s)
  end.

Definition parse_exponent (s : string) : option (Z * string) :=
  match s with
  | String c r =>
      if (c =? "e")%char || (c =? "E")%char then
        let '(neg, r1) :=
          match r with
          | String sg r' =>
              if (sg =? "-")%char then (true, r')
              else if (sg =? "+")%char then (false, r')
              else (false, r)
          | EmptyString => (false, r)
          end in
        let '(ev, ec, rest) := read_digits 0 0 r1 in
        if ec =? 0 then None
        else Some (if neg then - ev else ev, rest)
      else Some (0, s)
  | EmptyString => Some (0, s)
  end.

Definition parse_fraction (ip : Z) (s : string) : option (Z * Z * string) :=
  match s with
  | String c r =>
      if (c =? ".")%char then
        let '(m, fc, rest) := read_digits ip 0 r in
        if fc =? 0 then None else Some (m, fc, rest)
      else Some (ip, 0, s)
  | EmptyString => Some (ip, 0, s)
  end.

Definition parse_number (s : string) : option (json * string) :=
  let '(neg, s1) :=
    match s with
    | String c r => if (c =? "-")%char then (true, r) else (false, s)
    | EmptyString => (false, s)
    end in
  match s1 with
  | String c r1 =>
      if is_digit c then
        let '(ip, _, s2) :=
          if (c =? "0")%char then (0, 1, r1) else read_digits 0 0 s1 in
        match parse_fraction ip s2 with
        | Some (m, fc, s3) =>
            match parse_exponent s3 with
            | Some (ev, s4) =>
                Some (JNumber (if neg then - m else m) (ev - fc), s4)
            | None => None
            end
        | None => None
        end
      else None
  | EmptyString => None
  end.

Fixpoint parse_value (fuel : nat) (s : string) : option (json * string) :=
  match fuel with
  | O => None
  | S f =>
      match s with
      | EmptyString => None
      | String c r =>
          if (c =? "{")%char then
            match skip_ws r with
            | String c1 r1 =>
                if (c1 =? "}")%char then Some (JObject [], r1)
                else parse_members f [] (String c1 r1)
            | EmptyString => None
            end
          else if (c =? "[")%char then
            match skip_ws r with
            | String c1 r1 =>
                if (c1 =? "]")%char then Some (JArray [], r1)
                else parse_elements f [] (String c1 r1)
            | EmptyString => None
            end
          else if (c =? dquote)%char then
            match parse_string r with
            | Some (str, rest) => Some (JString str, rest)
            | None => None
            end
          else if String.prefix "true" s then Some (JBool true, string_drop 4 s)
          else if String.prefix "false" s then Some (JBool false, string_drop 5 s)
          else if String.prefix "null" s then Some (JNull, string_drop 4 s)
          else parse_number s
      end
  end
with parse_members (fuel : nat) (acc : list (string * json)) (s : string)
  : option (json * string) :=
  match fuel with
  | O => None
  | S f =>
      match s with
      | String c r =>
          if (c =? dquote)%char then
            match parse_string r with
            | Some (k, r1) =>
                match skip_ws r1 with
                | String c2 r2 =>
                    if (c2 =? ":")%char then
                      match parse_value f (skip_ws r2) with
                      | Some (v, r3) =>
                          match skip_ws r3 with
                          | String c4 r4 =>
                              if (c4 =? ",")%char
                              then parse_members f (obj_set k v acc) (skip_ws r4)
                              else if (c4 =? "}")%char
                              then Some (JObject (obj_set k v acc), r4)
                              else None
                          | EmptyString => None
                          end
                      | None => None
                      end
                    else None
                | EmptyString => None
                end
            | None => None
            end
          else None
      | EmptyString => None
      end
  end
with parse_elements (fuel : nat) (acc : list json) (s : string)
  : option (json * string) :=
  match fuel with
  | O => None
  | S f =>
      match parse_value f s with
      | Some (v, r1) =>
          match skip_ws r1 with
          | String c2 r2 =>
              if (c2 =? ",")%char
              then parse_elements f (acc ++ [v]) (skip_ws r2)
              else if (c2 =? "]")%char
              then Some (JArray (acc ++ [v]), r2)
              else None
          | EmptyString => None
          end
      | None => None
      end
  end.

(** [JSON.parse(text)]: the value, or a thrown [SyntaxError]. *)
Definition JSON_parse (text : string) : answer json :=
  let s := skip_ws text in
  match parse_value (2 * String.length s + 2) s with
  | Some (v, rest) =>
      match skip_ws rest with
      | EmptyString => Answers v
      | String _ _ => Raises (SyntaxError "Unexpected non-whitespace character after JSON")
      end
  | None => Raises (SyntaxError "Unexpected token in JSON")
  end.

(** ** [JSON.stringify] *)

Definition hex_digit (z : Z) : ascii :=
  if z <? 10 then byte_char (48 + z) else byte_char (87 + z).

Definition escape_char (c : ascii) : string :=
  let n := Z.of_N (N_of_ascii c) in
  if (c =? dquote)%char then String "\" (String dquote "")
  else if (c =? "\")%char then "\\"
  else if n =? 8 then "\b"
  else if n =? 12 then "\f"
  else if n =? 10 then "\n"
  else if n =? 13 then "\r"
  else if n =? 9 then "\t"
  else if n <? 32 then
    "\u00" ++ String (hex_digit (n / 16)) (String (hex_digit (n mod 16)) "")
  else String c "".

(** The code unit of a surrogate kept as three bytes, if the bytes are
    one. *)
Definition lone_surrogate (a b c : ascii) : option Z :=
  let x := Z.of_N (N_of_ascii a) in
  let y := Z.of_N (N_of_ascii b) in
  let z := Z.of_N (N_of_ascii c) in
  if (x =? 237) && (160 <=? y) && (y <=? 191) && (128 <=? z) && (z <=? 191)
  then Some (55296 + (y - 160) * 64 + (z - 128)) else None.

Definition unicode_escape (u : Z) : string :=
  "\u" ++ String (hex_digit (u / 4096))
            (String (hex_digit ((u / 256) mod 16))
               (String (hex_digit ((u / 16) mod 16))
                  (String (hex_digit (u mod 16)) ""))).

(** A surrogate without its partner is written as its escape, in lower
    case; every other character above the controls is written as it is. *)
Fixpoint escape_string (s : string) : string :=
  match s with
  | EmptyString => ""
  | String a r =>
      match r with
      | String b (String c r') =>
          match lone_surrogate a b c with
          | Some u => unicode_escape u ++ escape_string r'
          | None => escape_char a ++ escape_string r
          end
      | _ => escape_char a ++ escape_string r
      end
  end.

Definition quote (s : string) : string :=
  String dquote (escape_string s) ++ String dquote "".

(** ** Numbers

    [JSON.parse] makes of a numeral the double nearest to it, ties going to
    the even significand; [JSON.stringify] writes a double with the fewest
    digits that read back as the same double.  Both are computed here on
    exact integers. *)

(** A double rounds to zero at or below [2^-1075], and to infinity from
    [2^1024 - 2^970] on. *)
Definition number_is_zero (m e : Z) : bool :=
  (m =? 0) || ((e <? 0) && (Z.abs m * 2 ^ 1075 <=? 10 ^ (- e))).

Definition number_is_infinite (m e : Z) : bool :=
  let t := 2 ^ 1024 - 2 ^ 970 in
  negb (m =? 0)
  && (if e <? 0 then t * 10 ^ (- e) <=? Z.abs m else t <=? Z.abs m * 10 ^ e).

Definition digits_of (z : Z) : list ascii :=
  list_ascii_of_string (pretty (Z.to_N (Z.abs z))).

(** [floor (log2 (n / d))], for positive [n] and [d]. *)
Definition log2_ratio (n d : Z) : Z :=
  let b := Z.log2 n - Z.log2 d in
  if (if 0 <=? b then d * 2 ^ b <=? n else d <=? n * 2 ^ (- b))
  then b else b - 1.

(** [floor (log10 (n / d))], for positive [n] and [d] whose quotient is not
    a negative power of ten. *)
Definition log10_ratio (n d : Z) : Z :=
  if d <=? n then Z.of_nat (length (digits_of (n / d))) - 1
  else - Z.of_nat (length (digits_of (d / n))).

(** The integer nearest to [n / d], the even one of two equally near. *)
Definition div_nearest_even (n d : Z) : Z :=
  let q := n / d in
  let r := n mod d in
  if 2 * r <? d then q
  else if d <? 2 * r then q + 1
  else if Z.even q then q else q + 1.

(** The double nearest to the positive decimal [m * 10^e] that rounds
    neither to zero nor to infinity: [f * 2^p] with [f < 2^53], and with
    [2^52 <= f] unless [p = -1074]. *)
Definition to_double (m e : Z) : Z * Z :=
  let n := if 0 <=? e then m * 10 ^ e else m in
  let d := if 0 <=? e then 1 else 10 ^ (- e) in
  let p := Z.max (log2_ratio n d - 52) (-1074) in
  let f := if 0 <=? p then div_nearest_even n (d * 2 ^ p)
           else div_nearest_even (n * 2 ^ (- p)) d in
  if f =? 2 ^ 53 then (2 ^ 52, p + 1) else (f, p).

(** Whether the decimal [s * 10^x] reads back as the double [f * 2^p]: it
    lies between the midpoints to the neighbouring doubles, a midpoint
    counting when [f] is even.  The lower neighbour of a power of two is
    half as far as the upper one.  All values are scaled to integers by
    [2^-B * 10^-C]. *)
Definition reads_back (f p s x : Z) : bool :=
  let B := Z.min (p - 2) 0 in
  let C := Z.min x 0 in
  let unit := 2 ^ (p - 2 - B) * 10 ^ (- C) in
  let below := if (f =? 2 ^ 52) && (-1074 <? p) then 1 else 2 in
  let lo := (4 * f - below) * unit in
  let hi := (4 * f + 2) * unit in
  let c := s * 2 ^ (- B) * 10 ^ (x - C) in
  if Z.even f then (lo <=? c) && (c <=? hi) else (lo <? c) && (c <? hi).

(** The distance of [s * 10^x] from [f * 2^p], on the same scale. *)
Definition distance (f p s x : Z) : Z :=
  let B := Z.min (p - 2) 0 in
  let C := Z.min x 0 in
  Z.abs (s * 2 ^ (- B) * 10 ^ (x - C) - 4 * f * 2 ^ (p - 2 - B) * 10 ^ (- C)).

(** The decimal of [k] digits that reads back as [f * 2^p], if there is
    one: the nearer of the two decimals around the double, the even one of
    two equally near.  [D] is [floor (log10 (f * 2^p))]. *)
Definition decimal_of_length (f p D k : Z) : option (Z * Z) :=
  let x := D - k + 1 in
  let s := if 0 <=? p
           then (if 0 <=? x then f * 2 ^ p / 10 ^ x else f * 2 ^ p * 10 ^ (- x))
           else (if 0 <=? x then f / (2 ^ (- p) * 10 ^ x)
                 else f * 10 ^ (- x) / 2 ^ (- p)) in
  let down := reads_back f p s x in
  let up := reads_back f p (s + 1) x in
  if down && up then
    (if distance f p s x <? distance f p (s + 1) x then Some (s, x)
     else if distance f p (s + 1) x <? distance f p s x then Some (s + 1, x)
     else if Z.even s then Some (s, x) else Some (s + 1, x))
  else if down then Some (s, x)
  else if up then Some (s + 1, x)
  else None.

Fixpoint shortest_from (fuel : nat) (f p D k : Z) : option (Z * Z) :=
  match fuel with
  | O => None
  | S fuel' =>
      match decimal_of_length f p D k with
      | Some sx => Some sx
      | None => shortest_from fuel' f p D (k + 1)
      end
  end.

(** The shortest decimal that reads back as the double of [m * 10^e];
    seventeen digits always suffice. *)
Definition shortest_decimal (m e : Z) : Z * Z :=
  let '(f, p) := to_double (Z.abs m) e in
  let D := if 0 <=? p then log10_ratio (f * 2 ^ p) 1
           else log10_ratio f (2 ^ (- p)) in
  match shortest_from 17 f p D 1 with
  | Some sx => sx
  | None => (Z.abs m, e)
  end.

Fixpoint drop_zeros (l : list ascii) : list ascii * Z :=
  match l with
  | c :: r =>
      if (c =? "0")%char
      then let '(l', n) := drop_zeros r in (l', n + 1)
      else (l, 0)
  | [] => (l, 0)
  end.

Definition zeros (n : Z) : list ascii := repeat "0"%char (Z.to_nat n).

(** [Number::toString] of the double of [m * 10^e]: the digits [ds] of its
    shortest decimal, with the decimal point after the first [n] of them. *)
Definition number_to_string (m e : Z) : string :=
  if number_is_zero m e then "0"
  else if number_is_infinite m e then "null"
  else
    let '(s, x) := shortest_decimal m e in
    let '(rds, z) := drop_zeros (rev (digits_of s)) in
    let ds := rev rds in
    let k := Z.of_nat (length ds) in
    let n := k + x + z in
    let body :=
      (if (k <=? n) && (n <=? 21) then ds ++ zeros (n - k)
      else if (0 <? n) && (n <=? 21) then
        take (Z.to_nat n) ds ++ "."%char :: drop (Z.to_nat n) ds
      else if (-6 <? n) && (n <=? 0) then
        "0"%char :: "."%char :: zeros (- n) ++ ds
      else
        let ex := (if n - 1 <? 0 then "-"%char else "+"%char)
                    :: digits_of (n - 1) in
        match ds with
        | [] => []
        | [d] => d :: "e"%char :: ex
        | d :: r => d :: "."%char :: r ++ "e"%char :: ex
        end)%list in
    string_of_list_ascii ((if m <? 0 then ["-"%char] else []) ++ body)%list.

Fixpoint join (sep : string) (l : list string) : string :=
  match l with
  | [] => ""
  | [x] => x
  | x :: r => x ++ sep ++ join sep r
  end.

Fixpoint JSON_stringify (j : json) : string :=
  match j with
  | JNull => "null"
  | JBool b => if b then "true" else "false"
  | JNumber m e => number_to_string m e
  | JString s => quote s
  | JArray xs => "[" ++ join "," (map JSON_stringify xs) ++ "]"
  | JObject kvs =>
      "{" ++ join "," (map (fun kv => quote (fst kv) ++ ":" ++ JSON_stringify (snd kv)) kvs)
          ++ "}"
  end.

(** ** Truthiness and property reads *)

Definition truthy (j : json) : bool :=
  match j with
  | JNull => false
  | JBool b => b
  | JNumber m e => negb (number_is_zero m e)
  | JString s => negb (String.eqb s "")
  | JArray _ | JObject _ => true
  end.

Definition truthy_opt (o : option json) : bool :=
  match o with
  | Some j => truthy j
  | None => false
  end.

(** The properties every object inherits from [Object.prototype]; each
    reads as a truthy value. *)
Definition object_prototype_keys : list string :=
  [ "constructor"; "__defineGetter__"; "__defineSetter__"; "hasOwnProperty";
    "__lookupGetter__"; "__lookupSetter__"; "isPrototypeOf";
    "propertyIsEnumerable"; "toString"; "valueOf"; "__proto__";
    "toLocaleString" ].

Definition inherited (k : string) : bool :=
  existsb (String.eqb k) object_prototype_keys.

(** [o.k] for a name [k] that no prototype defines: the own property of an
    object, [undefined] ([None]) on any other value, a [TypeError] on
    [null].  The handler reads [tool] and [data] this way. *)
Definition get_property (o : json) (k : string) : answer (option json) :=
  match o with
  | JNull => Raises (TypeError ("Cannot read properties of null (reading '" ++ k ++ "')"))
  | JObject kvs => Answers (obj_get k kvs)
  | _ => Answers None
  end.

(** Whether [o[k]] is truthy, for an object [o] and any name [k]: the own
    property if there is one, else what [Object.prototype] provides. *)
Definition property_truthy (o : json) (k : string) : bool :=
  match o with
  | JObject kvs =>
      match obj_get k kvs with
      | Some v => truthy v
      | None => inherited k
      end
  | _ => false
  end.

End JSON.
Export JSON.

(* ================================================================== *)
(** * String operations of the runtime                                 *)
(* ================================================================== *)

Module Str.

Definition startsWith (p s : string) : bool := String.prefix p s.

Definition string_rev (s : string) : string :=
  string_of_list_ascii (rev (list_ascii_of_string s)).

Definition endsWith (p s : string) : bool :=
  String.prefix (string_rev p) (string_rev s).

(** [s.replace(/pat/g, '')] for a literal pattern: every occurrence, left to
    right, without overlap.  [skip] counts the bytes of the current
    occurrence still to drop. *)
Fixpoint remove_from (pat : string) (skip : nat) (s : string) : string :=
  match s with
  | EmptyString => EmptyString
  | String c r =>
      match skip with
      | S k => remove_from pat k r
      | O =>
          if negb (String.length pat =? 0)%nat && String.prefix pat s
          then remove_from pat (String.length pat - 1) r
          else String c (remove_from pat 0 r)
      end
  end.

Definition remove_all (pat s : string) : string := remove_from pat 0 s.

(** The white space and line terminators that [trim] strips, as UTF-8. *)
Definition bytes (l : list Z) : list ascii := map byte_char l.

Definition white_space : list (list ascii) :=
  map bytes
    ([ [9]; [10]; [11]; [12]; [13]; [32]; [194; 160]; [225; 154; 128] ]
     ++ map (fun b => [226; 128; b])
          [128; 129; 130; 131; 132; 133; 134; 135; 136; 137; 138]
     ++ [ [226; 128; 168]; [226; 128; 169]; [226; 128; 175]; [226; 129; 159];
          [227; 128; 128]; [239; 187; 191] ])%list.

Fixpoint list_prefix (p l : list ascii) : bool :=
  match p, l with
  | [], _ => true
  | a :: p', b :: l' => (a =? b)%char && list_prefix p' l'
  | _ :: _, [] => false
  end.

Fixpoint strip_front (pats : list (list ascii)) (fuel : nat) (l : list ascii)
  : list ascii :=
  match fuel with
  | O => l
  | S f =>
      match find (fun p => list_prefix p l) pats with
      | Some p => strip_front pats f (drop (length p) l)
      | None => l
      end
  end.

Definition trimStart (l : list ascii) : list ascii :=
  strip_front white_space (length l) l.

Definition trimEnd (l : list ascii) : list ascii :=
  rev (strip_front (map (@rev ascii) white_space) (length l) (rev l)).

Definition trim (s : string) : string :=
  string_of_list_ascii (trimEnd (trimStart (list_ascii_of_string s))).

(** [s.match(/\{[\s\S]*\}/)]: from the first opening brace to the last
    closing brace after it. *)
Fixpoint from_first_brace (s : string) : option string :=
  match s with
  | EmptyString => None
  | String c r => if (c =? "{")%char then Some s else from_first_brace r
  end.

(** The longest prefix of [s] that ends with a closing brace. *)
Fixpoint upto_last_brace (s : string) : option string :=
  match s with
  | EmptyString => None
  | String c r =>
      match upto_last_brace r with
      | Some t => Some (String c t)
      | None => if (c =? "}")%char then Some (String c "") else None
      end
  end.

Definition match_braces (s : string) : option string :=
  match from_first_brace s with
  | Some t => upto_last_brace t
  | None => None
  end.

End Str.

(* ================================================================== *)
(** * Data model                                                       *)
(* ================================================================== *)

(** A declared parameter of a tool. *)
Record Param := {
  param_name : string;
  param_type : string;
  param_required : bool }.

Record Header := { header_key : string; header_value : string }.

(** A tool of the agent's settings.  Optional fields are [None] when the
    configuration leaves them out. *)
Record Tool := {
  tool_name : string;
  tool_description : string;
  tool_type : string;
  tool_parameters : option (list Param);
  tool_webhookUrl : option string;
  tool_method : option string;
  tool_headers : option (list Header);
  tool_runAfterCall : bool }.

Inductive Role := user | assistant.

(** An entry of the conversation history. *)
Record Message := { role : Role; content : string; timestamp : Z }.

Inductive MysqlPool := Pool.

(** The fields of [BrowserVoiceHandler] that the operations read: the
    database pool and the keys of the two speech providers, each absent
    ([None]) when the constructor was given none. *)
Record Handler := {
  mysqlPool : option MysqlPool;
  elevenLabsApiKey : option string;
  sarvamApiKey : option string }.

(** The session object of [createSession] (the fields the modelled
    operations read or write). *)
Record Session := {
  connectionId : string;
  agentPrompt : string;
  agentVoiceId : string;
  agentModel : string;
  tools : list Tool;
  conversationHistory : list Message;
  isProcessing : bool;
  audioBuffer : list (list byte);
  silenceTimer : option nat;
  totalInputTokens : Z;
  totalOutputTokens : Z;
  lastSpeechTime : Z;
  isInterrupted : bool }.

Definition set_conversationHistory (h : list Message) (s : Session) : Session :=
  {| connectionId := connectionId s; agentPrompt := agentPrompt s;
     agentVoiceId := agentVoiceId s; agentModel := agentModel s;
     tools := tools s; conversationHistory := h;
     isProcessing := isProcessing s; audioBuffer := audioBuffer s;
     silenceTimer := silenceTimer s; totalInputTokens := totalInputTokens s;
     totalOutputTokens := totalOutputTokens s;
     lastSpeechTime := lastSpeechTime s; isInterrupted := isInterrupted s |}.

Definition set_isProcessing (b : bool) (s : Session) : Session :=
  {| connectionId := connectionId s; agentPrompt := agentPrompt s;
     agentVoiceId := agentVoiceId s; agentModel := agentModel s;
     tools := tools s; conversationHistory := conversationHistory s;
     isProcessing := b; audioBuffer := audioBuffer s;
     silenceTimer := silenceTimer s; totalInputTokens := totalInputTokens s;
     totalOutputTokens := totalOutputTokens s;
     lastSpeechTime := lastSpeechTime s; isInterrupted := isInterrupted s |}.

Definition set_audioBuffer (b : list (list byte)) (s : Session) : Session :=
  {| connectionId := connectionId s; agentPrompt := agentPrompt s;
     agentVoiceId := agentVoiceId s; agentModel := agentModel s;
     tools := tools s; conversationHistory := conversationHistory s;
     isProcessing := isProcessing s; audioBuffer := b;
     silenceTimer := silenceTimer s; totalInputTokens := totalInputTokens s;
     totalOutputTokens := totalOutputTokens s;
     lastSpeechTime := lastSpeechTime s; isInterrupted := isInterrupted s |}.

Definition set_silenceTimer (t : option nat) (s : Session) : Session :=
  {| connectionId := connectionId s; agentPrompt := agentPrompt s;
     agentVoiceId := agentVoiceId s; agentModel := agentModel s;
     tools := tools s; conversationHistory := conversationHistory s;
     isProcessing := isProcessing s; audioBuffer := audioBuffer s;
     silenceTimer := t; totalInputTokens := totalInputTokens s;
     totalOutputTokens := totalOutputTokens s;
     lastSpeechTime := lastSpeechTime s; isInterrupted := isInterrupted s |}.

Definition set_totalInputTokens (n : Z) (s : Session) : Session :=
  {| connectionId := connectionId s; agentPrompt := agentPrompt s;
     agentVoiceId := agentVoiceId s; agentModel := agentModel s;
     tools := tools s; conversationHistory := conversationHistory s;
     isProcessing := isProcessing s; audioBuffer := audioBuffer s;
     silenceTimer := silenceTimer s; totalInputTokens := n;
     totalOutputTokens := totalOutputTokens s;
     lastSpeechTime := lastSpeechTime s; isInterrupted := isInterrupted s |}.

Definition set_totalOutputTokens (n : Z) (s : Session) : Session :=
  {| connectionId := connectionId s; agentPrompt := agentPrompt s;
     agentVoiceId := agentVoiceId s; agentModel := agentModel s;
     tools := tools s; conversationHistory := conversationHistory s;
     isProcessing := isProcessing s; audioBuffer := audioBuffer s;
     silenceTimer := silenceTimer s; totalInputTokens := totalInputTokens s;
     totalOutputTokens := n;
     lastSpeechTime := lastSpeechTime s; isInterrupted := isInterrupted s |}.

Definition set_lastSpeechTime (t : Z) (s : Session) : Session :=
  {| connectionId := connectionId s; agentPrompt := agentPrompt s;
     agentVoiceId := agentVoiceId s; agentModel := agentModel s;
     tools := tools s; conversationHistory := conversationHistory s;
     isProcessing := isProcessing s; audioBuffer := audioBuffer s;
     silenceTimer := silenceTimer s; totalInputTokens := totalInputTokens s;
     totalOutputTokens := totalOutputTokens s;
     lastSpeechTime := t; isInterrupted := isInterrupted s |}.

Definition set_isInterrupted (b : bool) (s : Session) : Session :=
  {| connectionId := connectionId s; agentPrompt := agentPrompt s;
     agentVoiceId := agentVoiceId s; agentModel := agentModel s;
     tools := tools s; conversationHistory := conversationHistory s;
     isProcessing := isProcessing s; audioBuffer := audioBuffer s;
     silenceTimer := silenceTimer s; totalInputTokens := totalInputTokens s;
     totalOutputTokens := totalOutputTokens s;
     lastSpeechTime := lastSpeechTime s; isInterrupted := b |}.

(* ================================================================== *)
(** * Voices and audio encoding                                        *)
(* ================================================================== *)

Module Speech.

(** [s.includes(p)] *)
Fixpoint includes (p s : string) : bool :=
  String.prefix p s
  || match s with
     | EmptyString => false
     | String _ r => includes p r
     end.

(** [s.toLowerCase()] on the letters A to Z; every other character is kept.
    The result is only compared with the names of [sarvamVoices], ASCII
    names without a k: no character outside A to Z lowercases into such a
    name (the Kelvin sign gives a k, the dotted capital I an i followed by a
    combining dot). *)
Fixpoint toLowerCase (s : string) : string :=
  match s with
  | EmptyString => EmptyString
  | String c r =>
      let n := Z.of_N (N_of_ascii c) in
      String (if (65 <=? n) && (n <=? 90) then byte_char (n + 32) else c)
        (toLowerCase r)
  end.

Definition sarvamVoices : list string :=
  [ "meera"; "ananya"; "aditi"; "vidya";
    "arvind"; "abhilash"; "aarav";
    "arya"; "hitesh"; "chitra" ].

Definition getVoiceProvider (voiceId : string) : string :=
  if includes "sarvam" voiceId
     || existsb (String.eqb (toLowerCase voiceId)) sarvamVoices
  then "sarvam"
  else "elevenlabs".

(** The alphabet of base64, and the digit for the six low bits of [n]. *)
Definition base64_alphabet : list ascii :=
  list_ascii_of_string
    "ABCDEFGHIJKLMNOPQRSTUVWXYZabcdefghijklmnopqrstuvwxyz0123456789+/".

Definition sextet (n : Z) : ascii :=
  nth (Z.to_nat (n mod 64)) base64_alphabet "="%char.

Definition byte_val (b : byte) : Z := Z.of_N (Byte.to_N b).

(** [buf.toString('base64')]: three bytes give four digits, and the last
    one or two bytes are padded. *)
Fixpoint base64 (bs : list byte) : string :=
  match bs with
  | [] => ""
  | [a] =>
      let n := byte_val a * 16 in
      String (sextet (n / 64)) (String (sextet n) "==")
  | [a; b] =>
      let n := (byte_val a * 256 + byte_val b) * 4 in
      String (sextet (n / 4096)) (String (sextet (n / 64)) (String (sextet n) "="))
  | a :: b :: c :: r =>
      let n := (byte_val a * 256 + byte_val b) * 256 + byte_val c in
      String (sextet (n / 262144))
        (String (sextet (n / 4096))
           (String (sextet (n / 64)) (String (sextet n) (base64 r))))
  end.

(** The document the Sarvam endpoint answers with, as far as the handler
    reads it: [audios] holds the clips, base64 encoded, and is [None] when
    the document has no such property. *)
Record SarvamData := { audios : option (list string) }.

End Speech.

(* ================================================================== *)
(** * The outside world and the trace of calls made to it              *)
(* ================================================================== *)

(** One turn of the request sent to the LLM provider. *)
Record Content := { content_role : string; content_text : string }.

Record GenerateRequest := {
  req_model : string;
  req_contents : list Content;
  req_systemInstruction : string }.

(** What [generateContent] resolves to; a field is [None] when absent. *)
Record LLMResponse := {
  text : option string;
  inputTokens : option Z;
  outputTokens : option Z }.

(** What [fetch] resolves to: the status line, and the body read as bytes
    ([buffer()]), as text ([text()]) or as the JSON document of the speech
    provider ([json()]); reading the body may fail. *)
Record HttpResponse := {
  status : Z;
  body_buffer : answer (list byte);
  body_text : answer string;
  body_json : answer Speech.SarvamData }.

(** [response.ok] of the HTTP client: a status from 200 to 299. *)
Definition ok (r : HttpResponse) : bool := (200 <=? status r) && (status r <? 300).

Record SheetsResult := { success : bool; error : option string }.

(** The events sent to the browser over the socket. *)
Inductive WsEvent :=
| WsTranscript (text : string) (isFinal : bool)
| WsAgentResponse (text : string)
| WsAudio (audio format : string)
| WsStopAudio
| WsError (message : string).

(** What the code does to the outside, in order.  [EvExecuteTool] and
    [EvCallLLM] mark the entries into [executeTool] and [callLLM]. *)
Inductive event :=
| EvGenerateContent (req : GenerateRequest)
| EvChat (model prompt : string)
| EvFetch (url method : string) (headers : gmap string string) (body : option string)
| EvAppendGenericRow (spreadsheetId : string) (data : json) (sheetName : string)
| EvTranscribe (wav : list byte)
| EvSend (msg : WsEvent)
| EvSetTimeout (id : nat) (ms : Z)
| EvClearTimeout (id : nat)
| EvExecuteTool (tool : Tool) (data : json)
| EvCallLLM (userInput : string).

Definition is_generateContent (e : event) : bool :=
  match e with EvGenerateContent _ => true | _ => false end.
Definition is_chat (e : event) : bool :=
  match e with EvChat _ _ => true | _ => false end.
Definition is_fetch (e : event) : bool :=
  match e with EvFetch _ _ _ _ => true | _ => false end.
Definition is_appendGenericRow (e : event) : bool :=
  match e with EvAppendGenericRow _ _ _ => true | _ => false end.
Definition is_transcribe (e : event) : bool :=
  match e with EvTranscribe _ => true | _ => false end.
Definition is_send (e : event) : bool :=
  match e with EvSend _ => true | _ => false end.
Definition is_setTimeout (e : event) : bool :=
  match e with EvSetTimeout _ _ => true | _ => false end.
Definition is_executeTool (e : event) : bool :=
  match e with EvExecuteTool _ _ => true | _ => false end.
Definition is_callLLM (e : event) : bool :=
  match e with EvCallLLM _ => true | _ => false end.

(** How many events of a kind a trace holds. *)
Definition count (p : event -> bool) (tr : list event) : nat :=
  length (List.filter p tr).

(** The collaborators, each a script: the answer to its [n]-th call.
    [extractSpreadsheetId] is the spreadsheet service's URL helper, and
    [ws_send] is the browser's socket, whose [send] returns or throws. *)
Record World := {
  generateContent : nat -> answer LLMResponse;
  chat : nat -> answer string;
  fetch : nat -> answer HttpResponse;
  extractSpreadsheetId : string -> option string;
  appendGenericRow : nat -> answer SheetsResult;
  transcribe : nat -> answer string;
  ws_send : nat -> answer unit;
  Date_now : nat -> Z }.

(** The state the operations run in: the session, the trace so far, and
    how often the clock has been read. *)
Record State := { session : Session; trace : list event; clock : nat }.

Definition with_session (s : Session) (st : State) : State :=
  {| session := s; trace := trace st; clock := clock st |}.

(* ================================================================== *)
(** * A monad for state, exceptions and fuel                           *)
(* ================================================================== *)

Inductive res (A : Type) : Type :=
| Ret (a : A)
| Throw (e : exn)
| OutOfFuel.
Arguments Ret {A} a.
Arguments Throw {A} e.
Arguments OutOfFuel {A}.

Definition M (A : Type) : Type := State -> res A * State.

Definition ret {A} (a : A) : M A := fun st => (Ret a, st).

Definition bind {A B} (m : M A) (k : A -> M B) : M B :=
  fun st =>
    match m st with
    | (Ret a, st') => k a st'
    | (Throw e, st') => (Throw e, st')
    | (OutOfFuel, st') => (OutOfFuel, st')
    end.

Definition throw {A} (e : exn) : M A := fun st => (Throw e, st).

Definition out_of_fuel {A} : M A := fun st => (OutOfFuel, st).

(** [try { m } catch (e) { h e }]; running out of fuel is not an exception. *)
Definition try_catch {A} (m : M A) (h : exn -> M A) : M A :=
  fun st =>
    match m st with
    | (Throw e, st') => h e st'
    | r => r
    end.

Notation "x <- m ;; k" := (bind m (fun x => k))
  (at level 100, m at next level, right associativity).
Notation "m ;; k" := (bind m (fun _ => k))
  (at level 100, right associativity).

Definition get_session : M Session := fun st => (Ret (session st), st).

Definition modify_session (f : Session -> Session) : M unit :=
  fun st => (Ret tt, with_session (f (session st)) st).

(** An event that is only recorded, for the steps that cannot fail: the
    entry into a tool execution or a dialog turn, setting or clearing a
    timer. *)
Definition emit (e : event) : M unit :=
  fun st => (Ret tt, {| session := session st; trace := trace st ++ [e];
                        clock := clock st |}).

(** The [n]-th answer of a collaborator, [n] being the number of calls
    already in the trace; the call is recorded. *)
Definition call {A} (p : event -> bool) (script : nat -> answer A) (e : event)
  : M A :=
  fun st =>
    let st' := {| session := session st; trace := trace st ++ [e];
                  clock := clock st |} in
    match script (count p (trace st)) with
    | Answers a => (Ret a, st')
    | Raises x => (Throw x, st')
    end.

Definition of_answer {A} (a : answer A) : M A :=
  match a with
  | Answers v => ret v
  | Raises e => throw e
  end.

Section Operations.

Variable w : World.

(** [session.ws.send(JSON.stringify(msg))]: the message is handed to the
    socket, which takes it or throws. *)
Definition send (msg : WsEvent) : M unit := call is_send (ws_send w) (EvSend msg).

(** [Date.now()] *)
Definition now : M Z :=
  fun st => (Ret (Date_now w (clock st)),
             {| session := session st; trace := trace st;
                clock := S (clock st) |}).

(** ** [appendToContext] *)

(** [h.slice(-n)] *)
Definition slice_last {A} (n : nat) (h : list A) : list A :=
  drop (length h - n) h.

Definition appendToContext (content : string) (role : Role) : M unit :=
  t <- now ;;
  modify_session (fun s =>
    let h := (conversationHistory s
              ++ [ {| role := role; content := content; timestamp := t |} ])%list in
    set_conversationHistory
      (if (20 <? length h)%nat then slice_last 20 h else h) s).

(** ** [createSession] *)

(** A string-valued field that may be absent: falsy when absent or empty. *)
Definition str_truthy (o : option string) : bool :=
  match o with
  | Some s => negb (String.eqb s "")
  | None => false
  end.

(** [o || d] *)
Definition str_or (o : option string) (d : string) : string :=
  match o with
  | Some s => if String.eqb s "" then d else s
  | None => d
  end.

Definition createSession (connectionId agentPrompt agentVoiceId : string)
    (agentModel : option string) (tools : list Tool) (t : Z) : Session :=
  {| connectionId := connectionId;
     agentPrompt := agentPrompt;
     agentVoiceId := agentVoiceId;
     agentModel := str_or agentModel "gemini-2.0-flash";
     tools := tools;
     conversationHistory := [];
     isProcessing := false;
     audioBuffer := [];
     silenceTimer := None;
     totalInputTokens := 0;
     totalOutputTokens := 0;
     lastSpeechTime := t;
     isInterrupted := false |}.

(** ** [createWavHeader] and the buffer operations it uses *)

(** [Buffer.alloc(n)] *)
Definition Buffer_alloc (n : nat) : list byte := repeat x00 n.

(** Overwrite the bytes of [buf] from offset [off] with [bs], as far as
    they fit; the length of [buf] is kept. *)
Fixpoint overwrite (bs buf : list byte) : list byte :=
  match bs with
  | [] => buf
  | b :: bs' =>
      match buf with
      | [] => []
      | _ :: r => b :: overwrite bs' r
      end
  end.

Fixpoint write_bytes (off : nat) (bs buf : list byte) : list byte :=
  match off with
  | O => overwrite bs buf
  | S off' =>
      match buf with
      | [] => []
      | x :: r => x :: write_bytes off' bs r
      end
  end.

(** [buf.write(str, off)] *)
Definition Buffer_write (str : string) (off : nat) (buf : list byte)
  : answer (list byte) :=
  if (off <=? length buf)%nat
  then Answers (write_bytes off (list_byte_of_string str) buf)
  else Raises (RangeError "The value of offset is out of range").

Definition byte_of_Z (z : Z) : byte :=
  match Byte.of_N (Z.to_N (z mod 256)) with
  | Some b => b
  | None => x00
  end.

(** The [n] low bytes of [v], least significant first. *)
Fixpoint le_bytes (n : nat) (v : Z) : list byte :=
  match n with
  | O => []
  | S n' => byte_of_Z v :: le_bytes n' (v / 256)
  end.

(** [buf.writeUIntLE]: the value must fit the field and the field must
    lie inside the buffer, or a [RangeError] is thrown. *)
Definition writeUIntLE (width : nat) (value : Z) (off : nat) (buf : list byte)
  : answer (list byte) :=
  if (0 <=? value) && (value <? 256 ^ Z.of_nat width) then
    if (off + width <=? length buf)%nat
    then Answers (write_bytes off (le_bytes width value) buf)
    else Raises (RangeError "The value of offset is out of range")
  else Raises (RangeError "The value of value is out of range").

Definition writeUInt32LE := writeUIntLE 4.
Definition writeUInt16LE := writeUIntLE 2.

(** [src.copy(target, targetStart)] *)
Definition Buffer_copy (src : list byte) (targetStart : nat) (target : list byte)
  : list byte :=
  write_bytes targetStart src target.

Definition abind {A B} (a : answer A) (k : A -> answer B) : answer B :=
  match a with
  | Answers v => k v
  | Raises e => Raises e
  end.

Definition createWavHeader (pcmData : list byte) : answer (list byte) :=
  let numChannels := 1 in
  let sampleRate := 16000 in
  let bitsPerSample := 16 in
  let byteRate := sampleRate * numChannels * (bitsPerSample / 8) in
  let blockAlign := numChannels * (bitsPerSample / 8) in
  let dataSize := length pcmData in
  let buffer := Buffer_alloc (44 + dataSize) in
  (* RIFF chunk *)
  abind (Buffer_write "RIFF" 0 buffer) (fun buffer =>
  abind (writeUInt32LE (36 + Z.of_nat dataSize) 4 buffer) (fun buffer =>
  abind (Buffer_write "WAVE" 8 buffer) (fun buffer =>
  (* fmt sub-chunk *)
  abind (Buffer_write "fmt " 12 buffer) (fun buffer =>
  abind (writeUInt32LE 16 16 buffer) (fun buffer =>
  abind (writeUInt16LE 1 20 buffer) (fun buffer =>
  abind (writeUInt16LE numChannels 22 buffer) (fun buffer =>
  abind (writeUInt32LE sampleRate 24 buffer) (fun buffer =>
  abind (writeUInt32LE byteRate 28 buffer) (fun buffer =>
  abind (writeUInt16LE blockAlign 32 buffer) (fun buffer =>
  abind (writeUInt16LE bitsPerSample 34 buffer) (fun buffer =>
  (* data sub-chunk *)
  abind (Buffer_write "data" 36 buffer) (fun buffer =>
  abind (writeUInt32LE (Z.of_nat dataSize) 40 buffer) (fun buffer =>
  (* PCM data *)
  Answers (Buffer_copy pcmData 44 buffer)))))))))))))).

(** Reading a little-endian unsigned field back. *)
Fixpoint le_value (bs : list byte) : Z :=
  match bs with
  | [] => 0
  | b :: r => Z.of_N (Byte.to_N b) + 256 * le_value r
  end.

Definition readUIntLE (width off : nat) (buf : list byte) : option Z :=
  if (off + width <=? length buf)%nat
  then Some (le_value (take width (drop off buf)))
  else None.

Definition readUInt32LE := readUIntLE 4.
Definition readUInt16LE := readUIntLE 2.

(** [buf.slice(a, b)] *)
Definition Buffer_slice (a b : nat) (buf : list byte) : list byte :=
  take (b - a) (drop a buf).

(* ---------------------------------------------------------------- *)
(** ** [ToolExecutionService]                                        *)
(* ---------------------------------------------------------------- *)

(** A turn as the service reads it: [msg.role] and [msg.text]. *)
Record Turn := { turn_role : string; turn_text : string }.

(** The object [extractDataFromConversation] resolves to: with
    [missingFields] after an extraction, with [error] after a failure. *)
Record Extraction := {
  ex_success : bool;
  ex_data : json;
  ex_missingFields : option (list string);
  ex_error : option string }.

Definition parameterDescription (p : Param) : string :=
  "- " ++ param_name p ++ " (" ++ param_type p ++ ")"
    ++ (if param_required p then " [REQUIRED]" else "")
    ++ ": Extract this value from the conversation".

Definition newline : string := String "010"%char "".

Definition extractionPrompt (conversationHistory : list Turn)
    (parameters : list Param) : string :=
  let parameterDescriptions :=
    join newline (map parameterDescription parameters) in
  let conversationText :=
    join newline
      (map (fun msg => turn_role msg ++ ": " ++ turn_text msg) conversationHistory) in
  "You are a data extraction assistant. Extract the following information from the conversation:"
    ++ newline ++ newline ++ parameterDescriptions ++ newline ++ newline
    ++ "Conversation:" ++ newline ++ conversationText ++ newline ++ newline
    ++ "Return ONLY a valid JSON object with the extracted values. Use null for values not found."
    ++ newline
    ++ js "Example format: {'field1': 'value1', 'field2': 'value2'}"
    ++ newline ++ newline ++ "JSON:".

(** The object parsed out of the LLM's answer; an empty object when no
    braces are found or the text between them does not parse. *)
Definition parseExtracted (response : string) : json :=
  match Str.match_braces response with
  | Some jsonMatch =>
      match JSON_parse jsonMatch with
      | Answers v => v
      | Raises _ => JObject []
      end
  | None => JObject []
  end.

(** [p => p.required && !extractedData[p.name]] *)
Definition isMissing (extractedData : json) (p : Param) : bool :=
  param_required p && negb (property_truthy extractedData (param_name p)).

Definition missingFieldsOf (extractedData : json) (parameters : list Param)
  : list string :=
  map param_name (List.filter (isMissing extractedData) parameters).

(** [conversationHistory] is [None] when the caller passes [undefined];
    its [map] then throws inside the [try]. *)
Definition extractDataFromConversation (conversationHistory : option (list Turn))
    (tool : Tool) : M Extraction :=
  try_catch
    (let parameters := default [] (tool_parameters tool) in
     conversationHistory <-
       match conversationHistory with
       | Some turns => ret turns
       | None => throw (TypeError "Cannot read properties of undefined (reading 'map')")
       end ;;
     let prompt := extractionPrompt conversationHistory parameters in
     response <- call is_chat (chat w) (EvChat "gemini-2.0-flash" prompt) ;;
     let extractedData := parseExtracted response in
     let missingFields := missingFieldsOf extractedData parameters in
     ret {| ex_success := (length missingFields =? 0)%nat;
            ex_data := extractedData;
            ex_missingFields := Some missingFields;
            ex_error := None |})
    (fun error =>
       ret {| ex_success := false;
              ex_data := JObject [];
              ex_missingFields := None;
              ex_error := Some (exn_message error) |}).

Definition executeGoogleSheetsTool (tool : Tool) (data : json) : M bool :=
  try_catch
    (if negb (str_truthy (tool_webhookUrl tool))
     then throw (Error "Google Sheets URL is missing")
     else
       let spreadsheetId :=
         extractSpreadsheetId w (default "" (tool_webhookUrl tool)) in
       if negb (str_truthy spreadsheetId)
       then throw (Error "Invalid Google Sheets URL")
       else
         let sheetName := str_or (Some (tool_name tool)) "Data Collection" in
         result <- call is_appendGenericRow (appendGenericRow w)
                     (EvAppendGenericRow (default "" spreadsheetId) data sheetName) ;;
         if success result then ret true else ret false)
    (fun _ => ret false).

(** The headers of the request: the tool's, in order, over the JSON
    content type.  [acc[header.key] = header.value] adds or replaces the
    property, except for the key [__proto__]: assigning a string to it sets
    neither a property nor the prototype. *)
Definition reduceHeaders (hs : list Header) : gmap string string :=
  fold_left (fun acc header =>
               if String.eqb (header_key header) "__proto__" then acc
               else <[header_key header := header_value header]> acc)
    hs ∅.

Definition webhookHeaders (tool : Tool) : gmap string string :=
  reduceHeaders (default [] (tool_headers tool))
    ∪ {[ "Content-Type" := "application/json" ]}.

Definition executeWebhookTool (tool : Tool) (data : json) : M bool :=
  try_catch
    (if negb (str_truthy (tool_webhookUrl tool))
     then throw (Error "Webhook URL is missing")
     else
       let method := str_or (tool_method tool) "POST" in
       let headers := webhookHeaders tool in
       response <- call is_fetch (fetch w)
                     (EvFetch (default "" (tool_webhookUrl tool)) method headers
                        (if String.eqb method "POST"
                         then Some (JSON_stringify data) else None)) ;;
       if ok response then ret true else ret false)
    (fun _ => ret false).

(** [Object.keys(data)] throws on [null]. *)
Definition Object_keys (data : json) : M (list string) :=
  match data with
  | JNull => throw (TypeError "Cannot convert undefined or null to object")
  | JObject kvs => ret (map fst kvs)
  | JArray xs => ret (map (fun i => pretty (N.of_nat i)) (seq 0 (length xs)))
  | JString str => ret (map (fun i => pretty (N.of_nat i)) (seq 0 (String.length str)))
  | _ => ret []
  end.

Definition executeTool (tool : Tool) (data : json) : M bool :=
  emit (EvExecuteTool tool data) ;;
  try_catch
    (_ <- Object_keys data ;;
     if String.eqb (tool_type tool) "GoogleSheets"
     then executeGoogleSheetsTool tool data
     else if String.eqb (tool_type tool) "Webhook"
     then executeWebhookTool tool data
     else ret false)
    (fun _ => ret false).

Fixpoint for_each {A} (l : list A) (body : A -> M unit) : M unit :=
  match l with
  | [] => ret tt
  | x :: r => body x ;; for_each r body
  end.

(** The session as the tool service reads it: only its [context], which is
    [None] on an object without that property. *)
Record CallSession := { context : option (list Turn) }.

(** The body of the loop over the tools of a phase. *)
Definition processTool (session : CallSession) (tool : Tool) : M unit :=
  extraction <- extractDataFromConversation (context session) tool ;;
  if ex_success extraction
  then _ <- executeTool tool (ex_data extraction) ;; ret tt
  else ret tt.

Definition processToolsDuringCall (session : CallSession) (tools : list Tool)
  : M unit :=
  try_catch
    (let duringCallTools :=
       List.filter (fun tool => negb (tool_runAfterCall tool)) tools in
     for_each duringCallTools (processTool session))
    (fun _ => ret tt).

Definition processToolsAfterCall (session : CallSession) (tools : list Tool)
  : M unit :=
  try_catch
    (let afterCallTools :=
       List.filter (fun tool => tool_runAfterCall tool) tools in
     for_each afterCallTools (processTool session))
    (fun _ => ret tt).

(** A session that carries the turns of the conversation as its context. *)
Definition withContext (turns : list Turn) : CallSession :=
  {| context := Some turns |}.

(** The session object of the voice handler, read by the tool service:
    [createSession] gives it a [conversationHistory] and no [context], and
    no operation adds one. *)
Definition asCallSession (s : Session) : CallSession := {| context := None |}.

(* ---------------------------------------------------------------- *)
(** ** The dialog turn: [callLLM]                                    *)
(* ---------------------------------------------------------------- *)

Variable this : Handler.

Definition apology : string :=
  "I apologize, but I'm having trouble processing your request right now.".

Definition toContent (msg : Message) : Content :=
  {| content_role := match role msg with assistant => "model" | user => "user" end;
     content_text := content msg |}.

Definition addTokens (response : LLMResponse) (s : Session) : Session :=
  let s1 :=
    match inputTokens response with
    | Some n => if n =? 0 then s
                else set_totalInputTokens (totalInputTokens s + n) s
    | None => s
    end in
  match outputTokens response with
  | Some n => if n =? 0 then s1
              else set_totalOutputTokens (totalOutputTokens s1 + n) s1
  | None => s1
  end.

(** [text.replace(/```json/g, '').replace(/```/g, '').trim()] *)
Definition cleanText (text : string) : string :=
  Str.trim (Str.remove_all "```" (Str.remove_all "```json" text)).

(** The content of the status turn added after a tool ran. *)
Definition toolStatus (toolName : json) : string :=
  JSON_stringify
    (JObject [ ("tool", toolName); ("status", JString "success");
               ("message", JString "Data processing initiated") ]).

Definition findTool (tools : list Tool) (parsedTool : json) : option Tool :=
  find (fun t => match parsedTool with
                 | JString n => String.eqb (tool_name t) n
                 | _ => false
                 end) tools.

(** The recursion of the source has no counter; [fuel] bounds the depth
    explored, and [OutOfFuel] is the answer of a run that needs more. *)
Fixpoint callLLM (fuel : nat) (userInput : string) : M string :=
  match fuel with
  | O => out_of_fuel
  | S fuel' =>
      emit (EvCallLLM userInput) ;;
      try_catch
        (session <- get_session ;;
         let modelToUse := str_or (Some (agentModel session)) "gemini-2.0-flash" in
         let contents := map toContent (conversationHistory session) in
         response <- call is_generateContent (generateContent w)
                       (EvGenerateContent
                          {| req_model := modelToUse;
                             req_contents := contents;
                             req_systemInstruction := agentPrompt session |}) ;;
         text <- match text response with
                 | Some t => ret t
                 | None => throw (TypeError "Cannot read properties of undefined (reading 'substring')")
                 end ;;
         modify_session (addTokens response) ;;
         (* the tool call check; [Some r] when it returns [r] itself *)
         returned <-
           try_catch
             (let cleanText := cleanText text in
              if Str.startsWith "{" cleanText && Str.endsWith "}" cleanText then
                parsed <- of_answer (JSON_parse cleanText) ;;
                parsed_tool <- of_answer (get_property parsed "tool") ;;
                parsed_data <- of_answer (get_property parsed "data") ;;
                match parsed_tool, parsed_data with
                | Some tool_v, Some data_v =>
                    if truthy tool_v && truthy data_v then
                      if truthy tool_v && bool_decide (is_Some (mysqlPool this)) then
                        session <- get_session ;;
                        match findTool (tools session) tool_v with
                        | Some tool =>
                            _ <- executeTool tool data_v ;;
                            appendToContext (toolStatus tool_v) user ;;
                            r <- callLLM fuel'
                                   "Tool executed successfully. Please continue." ;;
                            ret (Some r)
                        | None => ret None
                        end
                      else ret None
                    else ret None
                | _, _ => ret None
                end
              else ret None)
             (fun jsonError => ret None) ;;
         match returned with
         | Some r => ret r
         | None => ret text
         end)
        (fun error => ret apology)
  end.

(* ---------------------------------------------------------------- *)
(** ** The turn pipeline                                             *)
(* ---------------------------------------------------------------- *)

(** The two speech providers. *)
Definition elevenLabsHeaders : gmap string string :=
  {[ "Accept" := "audio/mpeg";
     "Content-Type" := "application/json";
     "xi-api-key" := default "" (elevenLabsApiKey this) ]}.

Definition elevenLabsBody (text : string) : string :=
  JSON_stringify
    (JObject
       [ ("text", JString text);
         ("model_id", JString "eleven_multilingual_v2");
         ("voice_settings",
          JObject [ ("stability", JNumber 5 (-1));
                    ("similarity_boost", JNumber 75 (-2));
                    ("style", JNumber 0 0);
                    ("use_speaker_boost", JBool true) ]) ]).

Definition synthesizeElevenLabsTTS (text : string) : M unit :=
  try_catch
    (if negb (str_truthy (elevenLabsApiKey this))
     then throw (Error "ElevenLabs API key not configured")
     else
       session <- get_session ;;
       let voiceId := agentVoiceId session in
       let url := "https://api.elevenlabs.io/v1/text-to-speech/" ++ voiceId
                  ++ "/stream" in
       response <- call is_fetch (fetch w)
                     (EvFetch url "POST" elevenLabsHeaders
                        (Some (elevenLabsBody text))) ;;
       if negb (ok response)
       then throw (Error ("ElevenLabs API error: " ++ pretty (status response)))
       else
         audioBuffer <- of_answer (body_buffer response) ;;
         let base64Audio := Speech.base64 audioBuffer in
         send (WsAudio base64Audio "mp3"))
    (fun error => throw error).

Definition sarvamHeaders : gmap string string :=
  {[ "Content-Type" := "application/json";
     "api-subscription-key" := default "" (sarvamApiKey this) ]}.

Definition sarvamBody (voiceId text : string) : string :=
  JSON_stringify
    (JObject
       [ ("inputs", JArray [JString text]);
         ("target_language_code", JString "en-IN");
         ("speaker", JString voiceId);
         ("model", JString "bulbul:v2");
         ("enable_preprocessing", JBool true) ]).

Definition synthesizeSarvamTTS (text : string) : M unit :=
  try_catch
    (if negb (str_truthy (sarvamApiKey this))
     then throw (Error "Sarvam API key not configured")
     else
       let url := "https://api.sarvam.ai/text-to-speech" in
       session <- get_session ;;
       response <- call is_fetch (fetch w)
                     (EvFetch url "POST" sarvamHeaders
                        (Some (sarvamBody (agentVoiceId session) text))) ;;
       if negb (ok response) then
         errorText <- of_answer (body_text response) ;;
         throw (Error ("Sarvam API error: " ++ pretty (status response)
                         ++ " - " ++ errorText))
       else
         data <- of_answer (body_json response) ;;
         match Speech.audios data with
         | Some (base64Audio :: _) => send (WsAudio base64Audio "wav")
         | _ => throw (Error "No audio data in Sarvam response")
         end)
    (fun error => throw error).

Definition synthesizeAndStreamTTS (text : string) : M unit :=
  try_catch
    (session <- get_session ;;
     let voiceProvider := Speech.getVoiceProvider (agentVoiceId session) in
     if String.eqb voiceProvider "elevenlabs" then synthesizeElevenLabsTTS text
     else if String.eqb voiceProvider "sarvam" then synthesizeSarvamTTS text
     else ret tt)
    (fun _ => send (WsError "Failed to generate speech")).

(** [try { m } finally { fin }] *)
Definition try_finally {A} (m : M A) (fin : M unit) : M A :=
  fun st =>
    match m st with
    | (Ret a, st') =>
        match fin st' with
        | (Ret _, st'') => (Ret a, st'')
        | (Throw e, st'') => (Throw e, st'')
        | (OutOfFuel, st'') => (OutOfFuel, st'')
        end
    | (Throw e, st') =>
        match fin st' with
        | (Ret _, st'') => (Throw e, st'')
        | (Throw e', st'') => (Throw e', st'')
        | (OutOfFuel, st'') => (OutOfFuel, st'')
        end
    | (OutOfFuel, st') => (OutOfFuel, st')
    end.

Definition processUserInput (fuel : nat) (userInput : string) : M unit :=
  session <- get_session ;;
  if isProcessing session then ret tt
  else
    modify_session (set_isProcessing true) ;;
    try_finally
      (try_catch
         (response <- callLLM fuel userInput ;;
          if negb (String.eqb response "") then
            appendToContext response assistant ;;
            send (WsAgentResponse response) ;;
            synthesizeAndStreamTTS response
          else ret tt)
         (fun _ => send (WsError "Failed to process your message")))
      (modify_session (set_isProcessing false)).

(** [Buffer.concat] *)
Definition Buffer_concat (chunks : list (list byte)) : list byte :=
  concat chunks.

Definition processBufferedAudio (fuel : nat) : M unit :=
  session <- get_session ;;
  if (length (audioBuffer session) =? 0)%nat then ret tt
  else
    (* Reset timer *)
    modify_session (set_silenceTimer None) ;;
    let completeBuffer := Buffer_concat (audioBuffer session) in
    (* Clear buffer immediately to avoid duplicates *)
    modify_session (set_audioBuffer []) ;;
    (* Skip if buffer is too short (likely just noise) *)
    if (length completeBuffer <? 3200)%nat then ret tt
    else
      try_catch
        (wavBuffer <- of_answer (createWavHeader completeBuffer) ;;
         transcript <- call is_transcribe (transcribe w) (EvTranscribe wavBuffer) ;;
         if negb (String.eqb transcript "")
            && negb (String.eqb (Str.trim transcript) "")
         then
           send (WsTranscript transcript true) ;;
           appendToContext transcript user ;;
           processUserInput fuel transcript
         else ret tt)
        (fun _ => send (WsError "Speech recognition failed")).

(** [buf.readInt16LE] over the whole chunk, two bytes at a time, summing
    the squares; a chunk of odd length makes the last read throw. *)
Definition int16 (lo hi : byte) : Z :=
  let u := Z.of_N (Byte.to_N lo) + 256 * Z.of_N (Byte.to_N hi) in
  if u <? 32768 then u else u - 65536.

Fixpoint sumSquares (chunk : list byte) : answer Z :=
  match chunk with
  | [] => Answers 0
  | [_] => Raises (RangeError "Attempt to access memory outside buffer bounds")
  | lo :: hi :: r =>
      match sumSquares r with
      | Answers x => Answers (int16 lo hi * int16 lo hi + x)
      | Raises e => Raises e
      end
  end.

Definition SILENCE_THRESHOLD : Z := 500.

(** [rms > SILENCE_THRESHOLD] with [rms = sqrt(sumSquares / numSamples)],
    decided on the squares in exact arithmetic (the doubles of the source
    agree with it for chunks of up to [2^23] samples); an empty chunk gives
    [NaN], which is not above the threshold. *)
Definition isSpeech (sum : Z) (numSamples : Z) : bool :=
  SILENCE_THRESHOLD * SILENCE_THRESHOLD * numSamples <? sum.

(** [handleIncomingAudio], on the decoded chunk. *)
Definition handleIncomingAudio (audioChunk : list byte) : M unit :=
  try_catch
    (modify_session (fun s => set_audioBuffer (audioBuffer s ++ [audioChunk])%list s) ;;
     sum <- of_answer (sumSquares audioChunk) ;;
     let numSamples := Z.of_nat (length audioChunk) / 2 in
     if isSpeech sum numSamples then
       (* Speech detected *)
       t <- now ;;
       modify_session (set_lastSpeechTime t) ;;
       session <- get_session ;;
       match silenceTimer session with
       | Some id =>
           emit (EvClearTimeout id) ;;
           modify_session (set_silenceTimer None)
       | None => ret tt
       end
     else
       (* Silence detected *)
       session <- get_session ;;
       match silenceTimer session with
       | None =>
           if (0 <? length (audioBuffer session))%nat then
             id <- (fun st => (Ret (count is_setTimeout (trace st)), st)) ;;
             emit (EvSetTimeout id 1500) ;;
             modify_session (set_silenceTimer (Some id))
           else ret tt
       | Some _ => ret tt
       end)
    (fun _ => ret tt).

Definition handleInterruption : M unit :=
  modify_session (set_isInterrupted true) ;;
  send WsStopAudio ;;
  modify_session (set_isProcessing false).

End Operations.


(* ================================================================== *)
(** * Operations composed of the above                              *)
(* ================================================================== *)

Definition defaultGreeting : string := "Hello! How can I help you today?".

(** The callback that [sendInitialGreeting] hands to its timer, for the
    greeting [customGreeting || defaultGreeting]: it runs half a second
    after the session was created. *)
Definition greetingCallback (w : World) (this : Handler) (greetingText : string)
  : M unit :=
  send w (WsAgentResponse greetingText) ;;
  appendToContext w greetingText assistant ;;
  synthesizeAndStreamTTS w this greetingText.

(** The chunks of a list, handled one after the other. *)
Definition feed (w : World) (chunks : list (list byte)) : M unit :=
  for_each chunks (handleIncomingAudio w).

(* ================================================================== *)
(** * The session registry and the call records                       *)
(* ================================================================== *)

Module Calls.

(** The session object with the fields that the registry and the call
    log use, next to those of [Session]. [elevenLabsConnection] is the
    connection, if one is open, with what its [close()] does. *)
Record Call := {
  base : Session;
  userId : option string;
  agentId : option string;
  startTime : Z;
  callLogId : option string;
  elevenLabsConnection : option (answer unit) }.

Definition set_callLogId (id : option string) (c : Call) : Call :=
  {| base := base c; userId := userId c; agentId := agentId c;
     startTime := startTime c; callLogId := id;
     elevenLabsConnection := elevenLabsConnection c |}.

(** A row of [SELECT tools FROM agents]: the column, absent or a value (a
    text is a [JString]). *)
Record Row := { row_tools : option json }.

(** What the operations do to the outside: the statements sent to the
    database with their parameters, the charge, and the clean-up of a
    session. *)
Inductive effect :=
| InsertCall (id user_id : string) (agent_id : option string) (call_sid : string)
    (started_at : Z)
| UpdateCall (ended_at duration : Z) (id : string)
| SelectTools (agentId : string)
| RecordAndCharge (userId callLogId : string) (deepgram sarvam : Z)
| CloseConnection
| ClearTimeout (id : nat).

Definition is_execute (e : effect) : bool :=
  match e with
  | InsertCall _ _ _ _ _ | UpdateCall _ _ _ | SelectTools _ => true
  | _ => false
  end.

Definition is_charge (e : effect) : bool :=
  match e with RecordAndCharge _ _ _ _ => true | _ => false end.

(** The collaborators: the pool's [execute], [uuidv4], the cost
    calculator's [recordAndCharge] and the clock, each by the number of
    earlier calls. *)
Record Services := {
  execute : nat -> answer (list Row);
  uuidv4 : nat -> string;
  recordAndCharge : nat -> answer unit;
  clockAt : nat -> Z }.

(** The module's state: the session objects (a reference is an index), the
    [sessions] map from connection ids to them, the effects so far, and how
    often the clock and [uuidv4] were used. *)
Record Registry := {
  heap : list Call;
  sessions : gmap string nat;
  effects : list effect;
  ticks : nat;
  uuids : nat }.

Definition R (A : Type) : Type := Registry -> answer A * Registry.

Definition rret {A} (a : A) : R A := fun r => (Answers a, r).

Definition rbind {A B} (m : R A) (k : A -> R B) : R B :=
  fun r =>
    match m r with
    | (Answers a, r') => k a r'
    | (Raises e, r') => (Raises e, r')
    end.

Definition rthrow {A} (e : exn) : R A := fun r => (Raises e, r).

Definition rtry {A} (m : R A) (h : exn -> R A) : R A :=
  fun r =>
    match m r with
    | (Raises e, r') => h e r'
    | done => done
    end.

Notation "'let*' x ':=' m 'in' k" := (rbind m (fun x => k))
  (at level 10, x name, m at level 100, k at level 200).

Definition effect_count (p : effect -> bool) (es : list effect) : nat :=
  length (List.filter p es).

Definition record (e : effect) : R unit :=
  fun r => (Answers tt,
            {| heap := heap r; sessions := sessions r;
               effects := effects r ++ [e]; ticks := ticks r; uuids := uuids r |}).

Definition deref (ref : nat) : R Call :=
  fun r =>
    match heap r !! ref with
    | Some c => (Answers c, r)
    | None => (Raises (TypeError "Cannot read properties of undefined"), r)
    end.

Definition assign (ref : nat) (f : Call -> Call) : R unit :=
  fun r => (Answers tt,
            {| heap := alter f ref (heap r); sessions := sessions r;
               effects := effects r; ticks := ticks r; uuids := uuids r |}).

Section Operations.

Variable db : Services.
Variable this : Handler.

Definition now : R Z :=
  fun r => (Answers (clockAt db (ticks r)),
            {| heap := heap r; sessions := sessions r; effects := effects r;
               ticks := S (ticks r); uuids := uuids r |}).

Definition newId : R string :=
  fun r => (Answers (uuidv4 db (uuids r)),
            {| heap := heap r; sessions := sessions r; effects := effects r;
               ticks := ticks r; uuids := S (uuids r) |}).

(** A statement sent to the pool: recorded, then answered. *)
Definition run (statement : effect) : R (list Row) :=
  fun r =>
    let r' := {| heap := heap r; sessions := sessions r;
                 effects := effects r ++ [statement];
                 ticks := ticks r; uuids := uuids r |} in
    (execute db (effect_count is_execute (effects r)), r').

Definition charge (request : effect) : R unit :=
  fun r =>
    let r' := {| heap := heap r; sessions := sessions r;
                 effects := effects r ++ [request];
                 ticks := ticks r; uuids := uuids r |} in
    (recordAndCharge db (effect_count is_charge (effects r)), r').

(** [createSession]: the new object is stored under its connection id. *)
Definition createSession (connectionId agentPrompt agentVoiceId : string)
    (userId agentId agentModel : option string) (tools : list Tool) : R nat :=
  let* startTime := now in
  let* lastSpeechTime := now in
  fun r =>
    let session :=
      {| base := createSession connectionId agentPrompt agentVoiceId agentModel
                   tools lastSpeechTime;
         userId := userId; agentId := agentId; startTime := startTime;
         callLogId := None; elevenLabsConnection := None |} in
    let ref := length (heap r) in
    (Answers ref,
     {| heap := heap r ++ [session];
        sessions := <[connectionId := ref]> (sessions r);
        effects := effects r; ticks := ticks r; uuids := uuids r |}).

Definition hasPool : bool := bool_decide (is_Some (mysqlPool this)).

Definition logCallStart (ref : nat) : R unit :=
  let* session := deref ref in
  if negb hasPool || negb (str_truthy (userId session)) then rret tt
  else
    rtry
      (let* callId := newId in
       let* _ :=
         run (InsertCall callId (default "" (userId session))
                (if str_truthy (agentId session) then agentId session else None)
                (connectionId (base session)) (startTime session)) in
       assign ref (set_callLogId (Some callId)))
      (fun _ => rret tt).

Definition logCallEnd (ref : nat) : R unit :=
  let* session := deref ref in
  if negb hasPool || negb (str_truthy (callLogId session)) then rret tt
  else
    rtry
      (let* endTime := now in
       let duration := (endTime - startTime session) / 1000 in
       let* _ :=
         run (UpdateCall endTime duration (default "" (callLogId session))) in
       if str_truthy (userId session) && hasPool then
         rtry
           (charge (RecordAndCharge (default "" (userId session))
                      (default "" (callLogId session)) 0 duration))
           (fun _ => rret tt)
       else rret tt)
      (fun _ => rret tt).

Definition endSession (connectionId : string) : R unit :=
  fun r =>
    match sessions r !! connectionId with
    | None => (Answers tt, r)
    | Some ref =>
        (let* session := deref ref in
         let* _ :=
           match elevenLabsConnection session with
           | Some close =>
               rtry (let* _ := record CloseConnection in fun r => (close, r))
                 (fun _ => rret tt)
           | None => rret tt
           end in
         let* _ :=
           match silenceTimer (base session) with
           | Some id => record (ClearTimeout id)
           | None => rret tt
           end in
         let* _ := logCallEnd ref in
         fun r => (Answers tt,
                   {| heap := heap r; sessions := delete connectionId (sessions r);
                      effects := effects r; ticks := ticks r; uuids := uuids r |})) r
    end.

(** [loadAgentTools] of the tool service, whose pool is the handler's. *)
Definition loadAgentTools (agentId : string) : R (list json) :=
  rtry
    (if negb hasPool then rret []
     else
       let* rows := run (SelectTools agentId) in
       match rows with
       | [] => rret []
       | row :: _ =>
           if negb (truthy_opt (row_tools row)) then rret []
           else
             let* tools :=
               match row_tools row with
               | Some (JString text) => fun r => (JSON_parse text, r)
               | Some value => rret value
               | None => rret JNull
               end in
             (* [tools.length] is read for the log line *)
             let* _ :=
               match tools with
               | JNull => rthrow (TypeError "Cannot read properties of null (reading 'length')")
               | _ => rret tt
               end in
             match tools with
             | JArray items => rret items
             | _ => rret []
             end
       end)
    (fun _ => rret []).

End Operations.

End Calls.

(* ================================================================== *)
(** * Concrete sessions and worlds used in the examples                *)
(* ================================================================== *)

(** An HTTP answer with the given status, whose body reads as three bytes
    and as a document with one clip. *)
Definition respond (status : Z) : HttpResponse :=
  {| status := status;
     body_buffer := Answers [x41; x42; x43];
     body_text := Answers "ABC";
     body_json := Answers {| Speech.audios := Some ["UklGRg=="] |} |}.

Definition reply (t : string) : answer LLMResponse :=
  Answers {| text := Some t; inputTokens := Some 7; outputTokens := Some 3 |}.

(** The tool call of the specification's example. *)
Definition toolCallX : string := js "{'tool':'X','data':{'a':'1'}}".

Definition toolX : Tool :=
  {| tool_name := "X"; tool_description := "records a value";
     tool_type := "Webhook";
     tool_parameters := Some [ {| param_name := "a"; param_type := "string";
                                  param_required := true |} ];
     tool_webhookUrl := Some "https://example.test/hook";
     tool_method := None; tool_headers := None;
     tool_runAfterCall := false |}.

(** A world whose LLM answers the first [k] calls with the tool call and
    every later call with plain text; every endpoint answers 200. *)
Definition world_after (k : nat) : World :=
  {| generateContent := fun n => if (n <? k)%nat then reply toolCallX
                                 else reply "All done.";
     chat := fun _ => Answers (js "{'a':'1'}");
     fetch := fun _ => Answers (respond 200);
     extractSpreadsheetId := fun _ => Some "sheet-1";
     appendGenericRow := fun _ => Answers {| success := true; error := None |};
     transcribe := fun _ => Answers "hello";
     ws_send := fun _ => Answers tt;
     Date_now := fun n => 1000 + Z.of_nat n |}.

(** A world whose LLM answers every call with the tool call. *)
Definition world_always : World :=
  {| generateContent := fun _ => reply toolCallX;
     chat := fun _ => Answers (js "{'a':'1'}");
     fetch := fun _ => Answers (respond 200);
     extractSpreadsheetId := fun _ => Some "sheet-1";
     appendGenericRow := fun _ => Answers {| success := true; error := None |};
     transcribe := fun _ => Answers "hello";
     ws_send := fun _ => Answers tt;
     Date_now := fun n => 1000 + Z.of_nat n |}.

(** Two handlers with both speech keys, one with a database pool and one
    without. *)
Definition with_pool : Handler :=
  {| mysqlPool := Some Pool; elevenLabsApiKey := Some "xi-key";
     sarvamApiKey := Some "sarvam-key" |}.
Definition without_pool : Handler :=
  {| mysqlPool := None; elevenLabsApiKey := Some "xi-key";
     sarvamApiKey := Some "sarvam-key" |}.

Definition sessionX : Session :=
  createSession "browser-1" "You are a helpful AI assistant." "meera" None
    [toolX] 1000.

Definition stateX : State := {| session := sessionX; trace := []; clock := 0 |}.

(** The history of a state, and a run of appends in a row. *)
Definition history (st : State) : list Message :=
  conversationHistory (session st).

Definition appendAll (w : World) (items : list (string * Role)) : M unit :=
  for_each items (fun item => appendToContext w (fst item) (snd item)).

(** The entries that appends starting at clock reading [n] add. *)
Fixpoint stamped (w : World) (n : nat) (items : list (string * Role))
  : list Message :=
  match items with
  | [] => []
  | item :: r =>
      {| role := snd item; content := fst item; timestamp := Date_now w n |}
        :: stamped w (S n) r
  end.

(** ** Further worlds, sessions and services *)

(** A world whose transcription answers [a] and whose LLM answers with
    plain text. *)
Definition world_hears (a : answer string) : World :=
  {| generateContent := fun _ => reply "All done.";
     chat := fun _ => Answers "I could not find anything.";
     fetch := fun _ => Answers (respond 200);
     extractSpreadsheetId := fun _ => Some "sheet-1";
     appendGenericRow := fun _ => Answers {| success := true; error := None |};
     transcribe := fun _ => a;
     ws_send := fun _ => Answers tt;
     Date_now := fun n => 1000 + Z.of_nat n |}.

(** A world whose transcription fails with [e] and whose socket refuses
    every message with [refusal]. *)
Definition world_deaf (e refusal : exn) : World :=
  {| generateContent := fun _ => reply "All done.";
     chat := fun _ => Answers "I could not find anything.";
     fetch := fun _ => Answers (respond 200);
     extractSpreadsheetId := fun _ => Some "sheet-1";
     appendGenericRow := fun _ => Answers {| success := true; error := None |};
     transcribe := fun _ => Raises e;
     ws_send := fun _ => Raises refusal;
     Date_now := fun n => 1000 + Z.of_nat n |}.

(** A new session with 3200 bytes of silence buffered. *)
Definition stateLong : State :=
  snd (handleIncomingAudio world_always (repeat x00 3200) stateX).

(** A new session without tools. *)
Definition statePlain : State :=
  {| session := createSession "browser-2" "You are a helpful AI assistant."
                  "meera" None [] 1000;
     trace := []; clock := 0 |}.

(** Two chunks of two samples each: a quiet one and a loud one. *)
Definition quietChunk : list byte := [x10; x00; xf0; xff].
Definition loudChunk : list byte := [x00; x40; x00; xc0].

(** The state in which the first utterance after the greeting is buffered. *)
Definition stateGreeted : State :=
  snd (handleIncomingAudio world_always (repeat x00 3200)
         (snd (greetingCallback world_always with_pool defaultGreeting stateX))).

(** A handler that was given no key of a speech provider. *)
Definition without_keys : Handler :=
  {| mysqlPool := None; elevenLabsApiKey := None; sarvamApiKey := None |}.

(** Services that answer every statement and draw one id; the clock
    advances by two and a half seconds per reading. *)
Definition servicesUp : Calls.Services :=
  {| Calls.execute := fun _ => Answers [];
     Calls.uuidv4 := fun _ => "c0ffee";
     Calls.recordAndCharge := fun _ => Answers tt;
     Calls.clockAt := fun n => 1000 + 2500 * Z.of_nat n |}.

Definition registryEmpty : Calls.Registry :=
  {| Calls.heap := []; Calls.sessions := ∅; Calls.effects := [];
     Calls.ticks := 0; Calls.uuids := 0 |}.

(** The registry with one session, created for user-7 and logged. *)
Definition registryOne : Calls.Registry :=
  snd (Calls.rbind
         (Calls.createSession servicesUp "browser-1" "You are a helpful AI assistant."
            "meera" (Some "user-7") None None [])
         (Calls.logCallStart servicesUp with_pool) registryEmpty).

(** A world like [world_after] whose endpoints refuse every request. *)
Definition world_refusing (k : nat) : World :=
  {| generateContent := generateContent (world_after k);
     chat := chat (world_after k);
     fetch := fun _ => Answers (respond 500);
     extractSpreadsheetId := extractSpreadsheetId (world_after k);
     appendGenericRow := fun _ => Raises (Error "quota exceeded");
     transcribe := transcribe (world_after k);
     ws_send := ws_send (world_after k);
     Date_now := Date_now (world_after k) |}.

(* ================================================================== *)
(** * Statements, auxiliary functions and examples                   *)
(* ================================================================== *)

(** ** History and container *)

(** What one append does to the state. *)
Definition pushed (w : World) (content : string) (role : Role) (st : State)
  : list Message :=
  (history st
   ++ [ {| role := role; content := content;
           timestamp := Date_now w (clock st) |} ])%list.

(** The container of the specification: 44 header bytes with the fields
    below, then the samples. *)
Definition wav_container (pcmData : list byte) : Prop :=
  let N := Z.of_nat (length pcmData) in
  exists buf,
    createWavHeader pcmData = Answers buf
    /\ length buf = (44 + length pcmData)%nat
    /\ Buffer_slice 0 4 buf = list_byte_of_string "RIFF"
    /\ Buffer_slice 8 12 buf = list_byte_of_string "WAVE"
    /\ readUInt32LE 4 buf = Some (36 + N)
    /\ readUInt32LE 40 buf = Some N
    /\ readUInt32LE 16 buf = Some 16
    /\ readUInt16LE 20 buf = Some 1
    /\ readUInt16LE 22 buf = Some 1
    /\ readUInt32LE 24 buf = Some 16000
    /\ readUInt32LE 28 buf = Some 32000
    /\ readUInt16LE 32 buf = Some 2
    /\ readUInt16LE 34 buf = Some 16
    /\ drop 44 buf = pcmData.

(** The header as a list of bytes, for [n] bytes of samples. *)
Definition wavHeader (n : Z) : list byte :=
  (list_byte_of_string "RIFF" ++ le_bytes 4 (36 + n)
   ++ list_byte_of_string "WAVE" ++ list_byte_of_string "fmt "
   ++ le_bytes 4 16 ++ le_bytes 2 1 ++ le_bytes 2 1 ++ le_bytes 4 16000
   ++ le_bytes 4 32000 ++ le_bytes 2 2 ++ le_bytes 2 16
   ++ list_byte_of_string "data" ++ le_bytes 4 n)%list.

(** ** Tool execution *)

(** The state with one more event in its trace. *)
Definition add_event (e : event) (st : State) : State :=
  {| session := session st; trace := trace st ++ [e]; clock := clock st |}.

(** The value the tool configures for a header, its last entry winning. *)
Fixpoint headerValue (k : string) (hs : list Header) : option string :=
  match hs with
  | [] => None
  | h :: r =>
      match headerValue k r with
      | Some v => Some v
      | None => if String.eqb (header_key h) k then Some (header_value h) else None
      end
  end.

(** The request a webhook tool sends. *)
Definition webhookRequest (tool : Tool) (data : json) : event :=
  let method := str_or (tool_method tool) "POST" in
  EvFetch (default "" (tool_webhookUrl tool)) method (webhookHeaders tool)
    (if String.eqb method "POST" then Some (JSON_stringify data) else None).

(** A webhook tool whose method is PUT. *)
Definition toolPut : Tool :=
  {| tool_name := "update"; tool_description := "updates a record";
     tool_type := "Webhook"; tool_parameters := None;
     tool_webhookUrl := Some "https://example.test/record";
     tool_method := Some "PUT";
     tool_headers := Some [ {| header_key := "X-Token"; header_value := "t1" |} ];
     tool_runAfterCall := false |}.

Definition dataA : json := JObject [("a", JString "1")].

(** The request as the specification words it: a body for every method
    but GET. *)
Definition webhook_request_as_stated (w : World) (tool : Tool) (data : json)
    (st : State) : Prop :=
  let method := str_or (tool_method tool) "POST" in
  exists r,
    executeWebhookTool w tool data st
    = (Ret r,
       add_event
         (EvFetch (default "" (tool_webhookUrl tool)) method (webhookHeaders tool)
            (if String.eqb method "GET" then None
             else Some (JSON_stringify data))) st).

(** The request a spreadsheet tool sends. *)
Definition sheetsRequest (w : World) (tool : Tool) (data : json) : event :=
  EvAppendGenericRow
    (default "" (extractSpreadsheetId w (default "" (tool_webhookUrl tool))))
    data (str_or (Some (tool_name tool)) "Data Collection").

(** What [executeTool] does after recording its entry. *)
Definition dispatchTool (w : World) (tool : Tool) (data : json) (st : State)
  : res bool * State :=
  match data with
  | JNull => (Ret false, st)
  | _ =>
      if String.eqb (tool_type tool) "GoogleSheets"
      then executeGoogleSheetsTool w tool data st
      else if String.eqb (tool_type tool) "Webhook"
      then executeWebhookTool w tool data st
      else (Ret false, st)
  end.

(** The events a tool execution adds after its entry mark: at most one
    request, to the endpoint or to the spreadsheet service. *)
Definition toolRequests (w : World) (tool : Tool) (data : json) : list event :=
  match data with
  | JNull => []
  | _ =>
      if String.eqb (tool_type tool) "GoogleSheets" then
        if str_truthy (tool_webhookUrl tool)
           && str_truthy (extractSpreadsheetId w (default "" (tool_webhookUrl tool)))
        then [sheetsRequest w tool data] else []
      else if String.eqb (tool_type tool) "Webhook" then
        if str_truthy (tool_webhookUrl tool)
        then [webhookRequest tool data] else []
      else []
  end.

(** Whether a tool execution started on trace [tr] reports success. *)
Definition toolResult (w : World) (tool : Tool) (data : json) (tr : list event)
  : bool :=
  match data with
  | JNull => false
  | _ =>
      if String.eqb (tool_type tool) "GoogleSheets" then
        str_truthy (tool_webhookUrl tool)
        && str_truthy (extractSpreadsheetId w (default "" (tool_webhookUrl tool)))
        && match appendGenericRow w (count is_appendGenericRow tr) with
           | Answers result => success result
           | Raises _ => false
           end
      else if String.eqb (tool_type tool) "Webhook" then
        str_truthy (tool_webhookUrl tool)
        && match fetch w (count is_fetch tr) with
           | Answers response => ok response
           | Raises _ => false
           end
      else false
  end.

(** When a webhook tool started on trace [tr] gets a 2xx answer. *)
Definition webhookAnswers2xx (w : World) (tool : Tool) (tr : list event) : Prop :=
  tool_type tool = "Webhook"
  /\ str_truthy (tool_webhookUrl tool) = true
  /\ exists response,
       fetch w (count is_fetch tr) = Answers response
       /\ 200 <= status response < 300.

(** When a spreadsheet tool started on trace [tr] gets its row appended. *)
Definition sheetAppendSucceeds (w : World) (tool : Tool) (tr : list event) : Prop :=
  tool_type tool = "GoogleSheets"
  /\ str_truthy (tool_webhookUrl tool) = true
  /\ str_truthy (extractSpreadsheetId w (default "" (tool_webhookUrl tool))) = true
  /\ exists result,
       appendGenericRow w (count is_appendGenericRow tr) = Answers result
       /\ success result = true.

(** A tool whose only required parameter is named like a member of
    [Object.prototype]. *)
Definition toolInherited : Tool :=
  {| tool_name := "profile"; tool_description := "stores a profile";
     tool_type := "Webhook";
     tool_parameters :=
       Some [ {| param_name := "constructor"; param_type := "string";
                 param_required := true |} ];
     tool_webhookUrl := Some "https://example.test/profile";
     tool_method := None; tool_headers := None;
     tool_runAfterCall := false |}.

(** A spreadsheet tool. *)
Definition toolSheet : Tool :=
  {| tool_name := "Leads"; tool_description := "stores a lead";
     tool_type := "GoogleSheets"; tool_parameters := None;
     tool_webhookUrl := Some "https://docs.example.test/spreadsheets/d/sheet-1";
     tool_method := None; tool_headers := None;
     tool_runAfterCall := false |}.

(** The result as the specification words it: true exactly when a request
    went to the webhook endpoint and was answered with a 2xx status. *)
Definition execute_result_as_stated (w : World) (tool : Tool) (data : json)
    (st : State) : Prop :=
  exists b st',
    executeTool w tool data st = (Ret b, st')
    /\ (b = true
        <-> count is_fetch (trace st') = S (count is_fetch (trace st))
            /\ exists response,
                 fetch w (count is_fetch (trace st)) = Answers response
                 /\ 200 <= status response < 300).

(** ** Data extraction *)

(** The request for an extraction. *)
Definition extractionRequest (context : list Turn) (tool : Tool) : event :=
  EvChat "gemini-2.0-flash"
    (extractionPrompt context (default [] (tool_parameters tool))).

(** The result for an answer of the LLM, and for a failure of the call. *)
Definition extractionOf (tool : Tool) (response : string) : Extraction :=
  let data := parseExtracted response in
  let missing := missingFieldsOf data (default [] (tool_parameters tool)) in
  {| ex_success := (length missing =? 0)%nat;
     ex_data := data;
     ex_missingFields := Some missing;
     ex_error := None |}.

Definition extractionFailure (e : exn) : Extraction :=
  {| ex_success := false; ex_data := JObject [];
     ex_missingFields := None; ex_error := Some (exn_message e) |}.

Definition extractionResult (w : World) (tool : Tool) (n : nat) : Extraction :=
  match chat w n with
  | Answers response => extractionOf tool response
  | Raises e => extractionFailure e
  end.

(** The events one tool adds: the extraction request, then the execution
    when the extraction succeeded. *)
Definition processToolEvents (w : World) (context : list Turn) (tool : Tool)
    (n : nat) : list event :=
  let ex := extractionResult w tool n in
  extractionRequest context tool
    :: (if ex_success ex
        then EvExecuteTool tool (ex_data ex) :: toolRequests w tool (ex_data ex)
        else []).

(** The executions a run over [tools] performs, the first extraction being
    the [n]-th call to the LLM's chat. *)
Fixpoint executions (w : World) (n : nat) (tools : list Tool) : list event :=
  match tools with
  | [] => []
  | tool :: r =>
      let ex := extractionResult w tool n in
      ((if ex_success ex then [EvExecuteTool tool (ex_data ex)] else [])
         ++ executions w (S n) r)%list
  end.

(** Whether [data] has a value other than [null] under the name [k]. *)
Definition has_value (data : json) (k : string) : bool :=
  match data with
  | JObject kvs =>
      match obj_get k kvs with
      | Some JNull | None => false
      | Some _ => true
      end
  | _ => false
  end.

(** A world whose extraction finds an empty string for the field. *)
Definition world_empty_value : World :=
  {| generateContent := fun _ => reply "Hello";
     chat := fun _ => Answers (js "Here it is: {'a': ''}");
     fetch := fun _ => Answers (respond 200);
     extractSpreadsheetId := fun _ => Some "sheet-1";
     appendGenericRow := fun _ => Answers {| success := true; error := None |};
     transcribe := fun _ => Answers "hello";
     ws_send := fun _ => Answers tt;
     Date_now := fun n => 1000 + Z.of_nat n |}.

Definition contextA : list Turn :=
  [ {| turn_role := "user"; turn_text := "my value is 1" |} ].

(** The extraction as the specification words it: success exactly when
    every required parameter has a value other than null, and otherwise the
    required names without such a value as the missing fields. *)
Definition extraction_as_stated (w : World) (context : list Turn) (tool : Tool)
    (st : State) : Prop :=
  let parameters := default [] (tool_parameters tool) in
  exists ex st',
    extractDataFromConversation w (Some context) tool st = (Ret ex, st')
    /\ (ex_success ex = true
        <-> forall p, In p parameters -> param_required p = true ->
                      has_value (ex_data ex) (param_name p) = true)
    /\ (ex_success ex = false ->
        ex_missingFields ex
        = Some (map param_name
                  (List.filter
                     (fun p => param_required p
                               && negb (has_value (ex_data ex) (param_name p)))
                     parameters))).

(** ** The dialog turn *)

(** The request a turn sends to the provider. *)
Definition generateRequest (s : Session) : event :=
  EvGenerateContent
    {| req_model := str_or (Some (agentModel s)) "gemini-2.0-flash";
       req_contents := map toContent (conversationHistory s);
       req_systemInstruction := agentPrompt s |}.

(** The input of the follow-up call. *)
Definition continuation : string :=
  "Tool executed successfully. Please continue.".

(** The tool call a reply asks for, when the handler will execute it: the
    configured tool, the [tool] value and the [data] value. *)
Definition toolCallOf (this : Handler) (tools : list Tool) (text : string)
  : option (Tool * json * json) :=
  let c := cleanText text in
  if Str.startsWith "{" c && Str.endsWith "}" c then
    match JSON_parse c with
    | Answers parsed =>
        match get_property parsed "tool", get_property parsed "data" with
        | Answers (Some tool_v), Answers (Some data_v) =>
            if truthy tool_v && truthy data_v
               && bool_decide (is_Some (mysqlPool this))
            then match findTool tools tool_v with
                 | Some tool => Some (tool, tool_v, data_v)
                 | None => None
                 end
            else None
        | _, _ => None
        end
    | Raises _ => None
    end
  else None.

(** The state after the call to the provider was made. *)
Definition called (input : string) (st : State) : State :=
  add_event (generateRequest (session st)) (add_event (EvCallLLM input) st).

(** The tool call that the [n]-th answer of the provider asks for, if it
    is one that the handler executes. *)
Definition replyToolCall (w : World) (this : Handler) (tools : list Tool) (n : nat)
  : option (Tool * json * json) :=
  match generateContent w n with
  | Answers response =>
      match text response with
      | Some t => toolCallOf this tools t
      | None => None
      end
  | Raises _ => None
  end.

(** What a turn returns when the [n]-th answer ends it: the text of the
    reply, or the apology when the call failed or brought no text. *)
Definition finalAnswer (w : World) (n : nat) : string :=
  match generateContent w n with
  | Answers response =>
      match text response with
      | Some t => t
      | None => apology
      end
  | Raises _ => apology
  end.

(** The state in which the follow-up call starts, after the tool ran and
    its status turn was added. *)
Definition afterTool (w : World) (input : string) (response : LLMResponse)
    (tool : Tool) (tool_v data_v : json) (st : State) : State :=
  snd (appendToContext w (toolStatus tool_v) user
         (snd (executeTool w tool data_v
                 (with_session (addTokens response (session st))
                    (called input st))))).

(** A cap on one turn: whatever depth is explored, no more than [cap]
    follow-up calls are made, and the turn returns. *)
Definition recursion_capped (w : World) (this : Handler) (input : string)
    (st : State) : Prop :=
  exists cap : nat,
    (forall fuel,
       (count is_callLLM (trace (snd (callLLM w this fuel input st)))
        <= count is_callLLM (trace st) + S cap)%nat)
    /\ exists fuel r st', callLLM w this fuel input st = (Ret r, st').

(** The claim that a turn always yields speakable text, as the
    specification words it: the turn returns, with a text that is not
    empty. *)
Definition turn_yields_text_as_stated (w : World) (this : Handler)
    (input : string) (st : State) : Prop :=
  exists fuel r st', callLLM w this fuel input st = (Ret r, st') /\ r <> "".

(** A world whose LLM answers every call with an empty text. *)
Definition world_silent : World :=
  {| generateContent := fun _ => reply "";
     chat := fun _ => Answers (js "{'a':'1'}");
     fetch := fun _ => Answers (respond 200);
     extractSpreadsheetId := fun _ => Some "sheet-1";
     appendGenericRow := fun _ => Answers {| success := true; error := None |};
     transcribe := fun _ => Answers "hello";
     ws_send := fun _ => Answers tt;
     Date_now := fun n => 1000 + Z.of_nat n |}.

(** A world whose LLM provider is down. *)
Definition world_down : World :=
  {| generateContent := fun _ => Raises (Error "503 Service Unavailable");
     chat := fun _ => Raises (Error "503 Service Unavailable");
     fetch := fun _ => Answers (respond 200);
     extractSpreadsheetId := fun _ => Some "sheet-1";
     appendGenericRow := fun _ => Answers {| success := true; error := None |};
     transcribe := fun _ => Answers "hello";
     ws_send := fun _ => Answers tt;
     Date_now := fun n => 1000 + Z.of_nat n |}.

(** The tool list has a tool named [X]. *)
Definition hasTool (tools : list Tool) (X : string) : Prop :=
  exists tool, In tool tools /\ tool_name tool = X.

(** The [n]-th answer is a reply whose cleaned text is exactly a JSON
    object with the [tool] field [X] and the object [d] as [data] field. *)
Definition toolCallReply (w : World) (n : nat) (X : string)
    (d : list (string * json)) : Prop :=
  exists response t kvs,
    generateContent w n = Answers response
    /\ text response = Some t
    /\ Str.startsWith "{" (cleanText t) = true
    /\ Str.endsWith "}" (cleanText t) = true
    /\ JSON_parse (cleanText t) = Answers (JObject kvs)
    /\ obj_get "tool" kvs = Some (JString X)
    /\ obj_get "data" kvs = Some (JObject d).

(** The turn runs the tool named [X] once on [d], adds one status turn,
    makes one follow-up call and returns what that call answers. *)
Definition runsToolOnce (w : World) (this : Handler) (input : string)
    (st : State) (X : string) (d : list (string * json)) : Prop :=
  forall fuel, (2 <= fuel)%nat ->
    exists tool st',
      callLLM w this fuel input st
      = (Ret (finalAnswer w (S (count is_generateContent (trace st)))), st')
      /\ In tool (tools (session st)) /\ tool_name tool = X
      /\ List.filter is_executeTool (trace st')
         = (List.filter is_executeTool (trace st)
            ++ [EvExecuteTool tool (JObject d)])%list
      /\ List.filter is_callLLM (trace st')
         = (List.filter is_callLLM (trace st)
            ++ [EvCallLLM input; EvCallLLM continuation])%list
      /\ count is_generateContent (trace st')
         = (count is_generateContent (trace st) + 2)%nat
      /\ history st'
         = slice_last 20
             (history st
              ++ [ {| role := user; content := toolStatus (JString X);
                      timestamp := Date_now w (clock st) |} ])%list.

(** The same, the tool being the first one of the session with that
    name. *)
Definition runsFirstToolOnce (w : World) (this : Handler) (input : string)
    (st : State) (X : string) (d : list (string * json)) : Prop :=
  forall fuel, (2 <= fuel)%nat ->
    exists tool before after st',
      callLLM w this fuel input st
      = (Ret (finalAnswer w (S (count is_generateContent (trace st)))), st')
      /\ tools (session st) = (before ++ tool :: after)%list
      /\ tool_name tool = X
      /\ Forall (fun t => tool_name t <> X) before
      /\ List.filter is_executeTool (trace st')
         = (List.filter is_executeTool (trace st)
            ++ [EvExecuteTool tool (JObject d)])%list
      /\ List.filter is_callLLM (trace st')
         = (List.filter is_callLLM (trace st)
            ++ [EvCallLLM input; EvCallLLM continuation])%list
      /\ count is_generateContent (trace st')
         = (count is_generateContent (trace st) + 2)%nat
      /\ history st'
         = slice_last 20
             (history st
              ++ [ {| role := user; content := toolStatus (JString X);
                      timestamp := Date_now w (clock st) |} ])%list.

(** A tool without a name, a session that has it, and a world whose LLM
    first answers with a tool call that names it. *)
Definition toolUnnamed : Tool :=
  {| tool_name := ""; tool_description := "records a value";
     tool_type := "Webhook";
     tool_parameters := None;
     tool_webhookUrl := Some "https://example.test/hook";
     tool_method := None; tool_headers := None;
     tool_runAfterCall := false |}.

Definition stateUnnamed : State :=
  {| session := createSession "browser-3" "You are a helpful AI assistant."
                  "meera" None [toolUnnamed] 1000;
     trace := []; clock := 0 |}.

Definition toolCallUnnamed : string := js "{'tool':'','data':{'a':'1'}}".

Definition world_unnamed : World :=
  {| generateContent := fun n => if (n <? 1)%nat then reply toolCallUnnamed
                                 else reply "All done.";
     chat := fun _ => Answers (js "{'a':'1'}");
     fetch := fun _ => Answers (respond 200);
     extractSpreadsheetId := fun _ => Some "sheet-1";
     appendGenericRow := fun _ => Answers {| success := true; error := None |};
     transcribe := fun _ => Answers "hello";
     ws_send := fun _ => Answers tt;
     Date_now := fun n => 1000 + Z.of_nat n |}.

(** The claim as the specification words it, for any handler. *)
Definition tool_call_turn_as_stated (w : World) (this : Handler) (input : string)
    (st : State) (X : string) (d : list (string * json)) : Prop :=
  hasTool (tools (session st)) X ->
  toolCallReply w (count is_generateContent (trace st)) X d ->
  replyToolCall w this (tools (session st))
    (S (count is_generateContent (trace st))) = None ->
  runsToolOnce w this input st X d.

(** ** Audio segmentation *)

(** The session keeps a silence timer only while audio is buffered. *)
Definition timer_implies_buffered (s : Session) : Prop :=
  is_Some (silenceTimer s) -> audioBuffer s <> [].

Definition silentChunk : list byte := repeat x00 320.

(** The state after one silent chunk arrived in a new session: the chunk is
    buffered and the silence timer is armed. *)
Definition stateQuiet : State :=
  snd (handleIncomingAudio world_always silentChunk stateX).

(** An operation keeps a relation between the state before it and the
    state after it, whatever it answers. *)
Definition keeps {A} (R : State -> State -> Prop) (m : M A) : Prop :=
  forall st, R st (snd (m st)).

(** An operation ends from every state: it returns or throws. *)
Definition ends {A} (m : M A) : Prop := forall st, fst (m st) <> OutOfFuel.

(** The trace of the second state continues that of the first. *)
Definition extends (st st' : State) : Prop :=
  exists rest, trace st' = (trace st ++ rest)%list.

(** A relation between the sessions of two states. *)
Definition kept (P : Session -> Session -> Prop) (st st' : State) : Prop :=
  P (session st) (session st').

(** Two sessions with the same audio buffer and silence timer. *)
Definition same_audio (s s' : Session) : Prop :=
  audioBuffer s' = audioBuffer s /\ silenceTimer s' = silenceTimer s.

(** The states a session goes through, one operation after the other:
    created, then fed audio chunks, timer expiries (the timer must be
    armed), interruptions and dialog turns. *)
Inductive reachable (w : World) (this : Handler) : State -> Prop :=
| reach_created connectionId agentPrompt agentVoiceId agentModel tools t n :
    reachable w this
      {| session := createSession connectionId agentPrompt agentVoiceId
                      agentModel tools t;
         trace := []; clock := n |}
| reach_audio st chunk :
    reachable w this st ->
    reachable w this (snd (handleIncomingAudio w chunk st))
| reach_timer st fuel :
    reachable w this st ->
    is_Some (silenceTimer (session st)) ->
    reachable w this (snd (processBufferedAudio w this fuel st))
| reach_interruption st :
    reachable w this st ->
    reachable w this (snd (handleInterruption w st))
| reach_input st fuel input :
    reachable w this st ->
    reachable w this (snd (processUserInput w this fuel input st)).

(** ** Voice activity detection *)

(** The 16-bit samples of a chunk. *)
Fixpoint samples (chunk : list byte) : list Z :=
  match chunk with
  | lo :: hi :: r => int16 lo hi :: samples r
  | _ => []
  end.

Definition sumOfSquares (xs : list Z) : Z :=
  fold_right (fun x acc => x * x + acc) 0 xs.

(** ** From the buffered audio to the answer *)

(** The socket takes every message. *)
Definition accepts (w : World) : Prop := forall n, ws_send w n = Answers tt.

(** How an operation ends whose last step is a send with the answer [a] of
    the socket: it returns, or throws what the socket threw. *)
Definition outcome (a : answer unit) : res unit :=
  match a with
  | Answers _ => Ret tt
  | Raises e => Throw e
  end.

(** The state with more events in its trace. *)
Definition add_events (es : list event) (st : State) : State :=
  {| session := session st; trace := trace st ++ es; clock := clock st |}.

(** The request of a synthesis by each provider. *)
Definition elevenLabsRequest (this : Handler) (voiceId text : string) : event :=
  EvFetch ("https://api.elevenlabs.io/v1/text-to-speech/" ++ voiceId ++ "/stream")
    "POST" (elevenLabsHeaders this) (Some (elevenLabsBody text)).

Definition sarvamRequest (this : Handler) (voiceId text : string) : event :=
  EvFetch "https://api.sarvam.ai/text-to-speech" "POST" (sarvamHeaders this)
    (Some (sarvamBody voiceId text)).

(** The clip an answer of the ElevenLabs endpoint carries, if any. *)
Definition elevenLabsClip (a : answer HttpResponse) : option string :=
  match a with
  | Answers response =>
      if ok response then
        match body_buffer response with
        | Answers audioBuffer => Some (Speech.base64 audioBuffer)
        | Raises _ => None
        end
      else None
  | Raises _ => None
  end.

(** The clip an answer of the Sarvam endpoint carries, if any. *)
Definition sarvamClip (a : answer HttpResponse) : option string :=
  match a with
  | Answers response =>
      if ok response then
        match body_json response with
        | Answers data =>
            match Speech.audios data with
            | Some (base64Audio :: _) => Some base64Audio
            | _ => None
            end
        | Raises _ => None
        end
      else None
  | Raises _ => None
  end.

Definition speechError : WsEvent := WsError "Failed to generate speech".

(** Whether the provider of the voice is Sarvam. *)
Definition isSarvam (voiceId : string) : bool :=
  String.eqb (Speech.getVoiceProvider voiceId) "sarvam".

(** The requests of one synthesis: one to the provider of the voice, none
    when the handler has no key for it. *)
Definition speechRequests (this : Handler) (voiceId text : string) : list event :=
  if isSarvam voiceId then
    if str_truthy (sarvamApiKey this) then [sarvamRequest this voiceId text] else []
  else
    if str_truthy (elevenLabsApiKey this) then [elevenLabsRequest this voiceId text]
    else [].

(** The audio message of one synthesis whose request is the [n]-th: the
    clip of the answer, as wav from Sarvam and as mp3 from ElevenLabs; none
    without a key or without a clip. *)
Definition speechAudio (w : World) (this : Handler) (voiceId : string) (n : nat)
  : option WsEvent :=
  if isSarvam voiceId then
    if str_truthy (sarvamApiKey this)
    then option_map (fun clip => WsAudio clip "wav") (sarvamClip (fetch w n))
    else None
  else
    if str_truthy (elevenLabsApiKey this)
    then option_map (fun clip => WsAudio clip "mp3") (elevenLabsClip (fetch w n))
    else None.

(** The messages one synthesis hands to the socket, the first of them
    being the [m]-th message of the session: the audio, followed by the
    speech error when the socket refused it, or the speech error alone. *)
Definition speechMessages (w : World) (audio : option WsEvent) (m : nat)
  : list WsEvent :=
  match audio with
  | Some msg =>
      match ws_send w m with
      | Answers _ => [msg]
      | Raises _ => [msg; speechError]
      end
  | None => [speechError]
  end.

(** How the synthesis ends: with the answer of the socket to the last of
    these messages. *)
Definition speechOutcome (w : World) (audio : option WsEvent) (m : nat) : res unit :=
  match audio with
  | Some _ =>
      match ws_send w m with
      | Answers _ => Ret tt
      | Raises _ => outcome (ws_send w (S m))
      end
  | None => outcome (ws_send w m)
  end.

(** The events of one speech synthesis on a socket that takes the message:
    the request, then the audio or the speech error. *)
Definition speechEvents (w : World) (this : Handler) (voiceId text : string)
    (n : nat) : list event :=
  (speechRequests this voiceId text
   ++ [EvSend (default speechError (speechAudio w this voiceId n))])%list.

(** The state in which a dialog turn runs. *)
Definition busy (st : State) : State :=
  with_session (set_isProcessing true (session st)) st.

(** What [processUserInput] does with the answer [r] of the dialog turn that
    ended in state [st2]. *)
Definition deliver (w : World) (this : Handler) (r : string) (st2 : State) : State :=
  if String.eqb r "" then with_session (set_isProcessing false (session st2)) st2
  else
    let st3 := snd (appendToContext w r assistant st2) in
    with_session (set_isProcessing false (session st3))
      (add_events
         (EvSend (WsAgentResponse r)
            :: speechEvents w this (agentVoiceId (session st3)) r
                 (count is_fetch (trace st3))) st3).

(** The bytes buffered for the utterance and the container sent for them. *)
Definition utterance (st : State) : list byte :=
  Buffer_concat (audioBuffer (session st)).

Definition utteranceWav (st : State) : list byte :=
  (wavHeader (Z.of_nat (length (utterance st))) ++ utterance st)%list.

(** The state once the buffer was taken: no chunk buffered, no timer. *)
Definition cleared (st : State) : State :=
  with_session (set_audioBuffer [] (set_silenceTimer None (session st))) st.

(** The state in which the transcript [T] of the utterance is handed to the
    dialog turn: transcribed, shown to the browser, recorded. *)
Definition heard (w : World) (T : string) (st : State) : State :=
  snd (appendToContext w T user
         (add_events [EvTranscribe (utteranceWav st); EvSend (WsTranscript T true)]
            (cleared st))).

(** The request of the turn that answers the transcript [T]: the last 19
    turns of the history, then the transcript as the user's turn. *)
Definition utteranceRequest (T : string) (st : State) : event :=
  EvGenerateContent
    {| req_model := str_or (Some (agentModel (session st))) "gemini-2.0-flash";
       req_contents :=
         map toContent (slice_last 19 (history st))
         ++ [ {| content_role := "user"; content_text := T |} ];
       req_systemInstruction := agentPrompt (session st) |}.

(** What the browser is sent for the answer [r]: the text, then its speech
    (or the speech error). *)
Definition replyEvents (w : World) (this : Handler) (voiceId r : string) (n : nat)
  : list event :=
  EvSend (WsAgentResponse r) :: speechEvents w this voiceId r n.

(** ** What a dialog turn uses and keeps *)

(** What a run shows to the collaborators: its trace without the marks of
    the entries into [callLLM], which carry the input. *)
Definition requests (tr : list event) : list event :=
  List.filter (fun e => negb (is_callLLM e)) tr.

(** Two states that differ at most in those marks. *)
Definition same_run (st1 st2 : State) : Prop :=
  session st1 = session st2
  /\ clock st1 = clock st2
  /\ requests (trace st1) = requests (trace st2).

(** The tokens that the [n]-th answer of the provider adds to a total: what
    it reports, when it is an answer with a text. *)
Definition reported (field : LLMResponse -> option Z) (w : World) (n : nat) : Z :=
  match generateContent w n with
  | Answers response =>
      match text response with
      | Some _ => default 0 (field response)
      | None => 0
      end
  | Raises _ => 0
  end.

(** The sum over the answers [n], ..., [n + k - 1]. *)
Fixpoint reportedSum (field : LLMResponse -> option Z) (w : World) (n k : nat) : Z :=
  match k with
  | O => 0
  | S k' => reported field w n + reportedSum field w (S n) k'
  end.

(** A request to the provider that carries at most 20 turns. *)
Definition small_request (e : event) : Prop :=
  match e with
  | EvGenerateContent req => (length (req_contents req) <= 20)%nat
  | _ => True
  end.

(** The history is within its bound and so was every request made. *)
Definition history_bounded (st : State) : Prop :=
  (length (history st) <= 20)%nat /\ Forall small_request (trace st).

(** Two worlds that differ at most in what the endpoints of the tools, the
    chat, the transcription and the speech synthesis answer. *)
Definition same_provider (w1 w2 : World) : Prop :=
  (forall n, generateContent w1 n = generateContent w2 n)
  /\ (forall url, extractSpreadsheetId w1 url = extractSpreadsheetId w2 url)
  /\ (forall n, Date_now w1 n = Date_now w2 n).

(** Two sessions with the same configuration. *)
Definition same_config (s s' : Session) : Prop :=
  connectionId s' = connectionId s
  /\ agentPrompt s' = agentPrompt s
  /\ agentVoiceId s' = agentVoiceId s
  /\ agentModel s' = agentModel s
  /\ tools s' = tools s.

(** ** The tools of a call *)

(** The tools of a phase: those run during the call, those run after it. *)
Definition duringCall (tools : list Tool) : list Tool :=
  List.filter (fun tool => negb (tool_runAfterCall tool)) tools.

Definition afterCall (tools : list Tool) : list Tool :=
  List.filter (fun tool => tool_runAfterCall tool) tools.

(** ** The registry and the call records *)

(** The registry with more effects, and the registry after a step that
    read the clock or drew an id. *)
Definition with_effects (es : list Calls.effect) (ticked drawn : nat)
    (r : Calls.Registry) : Calls.Registry :=
  {| Calls.heap := Calls.heap r; Calls.sessions := Calls.sessions r;
     Calls.effects := Calls.effects r ++ es;
     Calls.ticks := ticked + Calls.ticks r;
     Calls.uuids := drawn + Calls.uuids r |}.

Definition with_heap (h : list Calls.Call) (r : Calls.Registry) : Calls.Registry :=
  {| Calls.heap := h; Calls.sessions := Calls.sessions r;
     Calls.effects := Calls.effects r; Calls.ticks := Calls.ticks r;
     Calls.uuids := Calls.uuids r |}.

Definition with_sessions (m : gmap string nat) (r : Calls.Registry) : Calls.Registry :=
  {| Calls.heap := Calls.heap r; Calls.sessions := m;
     Calls.effects := Calls.effects r; Calls.ticks := Calls.ticks r;
     Calls.uuids := Calls.uuids r |}.

(** The statement that logs the start of [session] under the id [callId]. *)
Definition insertOf (session : Calls.Call) (callId : string) : Calls.effect :=
  Calls.InsertCall callId (default "" (Calls.userId session))
    (if str_truthy (Calls.agentId session) then Calls.agentId session else None)
    (connectionId (Calls.base session)) (Calls.startTime session).

(** Whether the start of the call is logged at all. *)
Definition logged (this : Handler) (session : Calls.Call) : bool :=
  Calls.hasPool this && str_truthy (Calls.userId session).

(** The whole seconds from the start of [session] to [endTime]. *)
Definition secondsUntil (endTime : Z) (session : Calls.Call) : Z :=
  (endTime - Calls.startTime session) / 1000.

(** What the end of a logged call sends: the update of its record and,
    when that went through, the charge. *)
Definition endEffects (db : Calls.Services) (session : Calls.Call) (r : Calls.Registry)
  : list Calls.effect :=
  let endTime := Calls.clockAt db (Calls.ticks r) in
  let duration := secondsUntil endTime session in
  let id := default "" (Calls.callLogId session) in
  Calls.UpdateCall endTime duration id
  :: match Calls.execute db (Calls.effect_count Calls.is_execute (Calls.effects r)) with
     | Answers _ =>
         if str_truthy (Calls.userId session)
         then [Calls.RecordAndCharge (default "" (Calls.userId session)) id 0 duration]
         else []
     | Raises _ => []
     end.

(** What ending [session] does before its call record is closed: the
    connection is closed and the silence timer cleared, when there are any. *)
Definition cleanupEffects (session : Calls.Call) : list Calls.effect :=
  (match Calls.elevenLabsConnection session with
   | Some _ => [Calls.CloseConnection]
   | None => []
   end
   ++ match silenceTimer (Calls.base session) with
      | Some id => [Calls.ClearTimeout id]
      | None => []
      end)%list.

(** The tools that the column of the first row holds. *)
Definition toolsOfRows (rows : answer (list Calls.Row)) : list json :=
  match rows with
  | Answers (row :: _) =>
      match Calls.row_tools row with
      | Some (JString text) =>
          if String.eqb text "" then []
          else match JSON_parse text with
               | Answers (JArray items) => items
               | _ => []
               end
      | Some (JArray items) => items
      | _ => []
      end
  | _ => []
  end.

(** A session from its creation to its end, as a connection goes through
    them: created, its start logged, ended when the socket closes. *)
Definition callLifecycle (db : Calls.Services) (this : Handler)
    (connectionId agentPrompt agentVoiceId : string)
    (userId agentId agentModel : option string) (tools : list Tool) : Calls.R unit :=
  Calls.rbind
    (Calls.createSession db connectionId agentPrompt agentVoiceId userId agentId
       agentModel tools)
    (fun session =>
       Calls.rbind (Calls.logCallStart db this session)
         (fun _ => Calls.endSession db this connectionId)).

(** The object that [createSession] stores. *)
Definition newCall (db : Calls.Services) (r : Calls.Registry)
    (connectionId agentPrompt agentVoiceId : string)
    (userId agentId agentModel : option string) (tools : list Tool) : Calls.Call :=
  {| Calls.base := createSession connectionId agentPrompt agentVoiceId agentModel
                     tools (Calls.clockAt db (S (Calls.ticks r)));
     Calls.userId := userId; Calls.agentId := agentId;
     Calls.startTime := Calls.clockAt db (Calls.ticks r);
     Calls.callLogId := None; Calls.elevenLabsConnection := None |}.

(* ================================================================== *)
(** * Properties                                                       *)
(* ================================================================== *)

(** Case analysis on every condition the goal branches on. *)
Ltac destruct_ifs :=
  repeat match goal with
         | |- context [if ?c then _ else _] => destruct c
         end.

(** ** The conversation history is a sliding window of 20 entries *)

Section History.

Context {A : Type}.
Implicit Types (h : list A) (e : A).

Lemma slice_last_length n h : (length (slice_last n h) <= n)%nat.
Proof. unfold slice_last. rewrite length_drop. lia. Qed.

Lemma slice_last_short n h : (length h <= n)%nat -> slice_last n h = h.
Proof.
  intros Hle. unfold slice_last.
  replace (length h - n)%nat with 0%nat by lia. reflexivity.
Qed.

Lemma slice_last_app n h1 h2 :
  (length h2 <= n)%nat ->
  slice_last n (h1 ++ h2)%list = (slice_last (n - length h2) h1 ++ h2)%list.
Proof.
  intros Hle. unfold slice_last. rewrite length_app.
  rewrite drop_app_le by lia. f_equal. f_equal. lia.
Qed.

Lemma slice_last_app_long n h1 h2 :
  (n <= length h2)%nat -> slice_last n (h1 ++ h2)%list = slice_last n h2.
Proof.
  intros Hle. unfold slice_last. rewrite length_app.
  rewrite drop_app_ge by lia. f_equal. lia.
Qed.

(** Cutting twice is cutting once. *)
Lemma slice_last_slice_app n h1 h2 :
  slice_last n (slice_last n h1 ++ h2)%list = slice_last n (h1 ++ h2)%list.
Proof.
  destruct (Nat.le_gt_cases (length h2) n) as [Hle|Hgt].
  - rewrite !slice_last_app by exact Hle. f_equal.
    unfold slice_last. rewrite drop_drop, length_drop. f_equal. lia.
  - rewrite !slice_last_app_long by lia. reflexivity.
Qed.

End History.

Lemma appendToContext_run w content role st :
  appendToContext w content role st
  = (Ret tt,
     {| session :=
          set_conversationHistory
            (if (20 <? length (pushed w content role st))%nat
             then slice_last 20 (pushed w content role st)
             else pushed w content role st) (session st);
        trace := trace st;
        clock := S (clock st) |}).
Proof. reflexivity. Qed.

Lemma appendToContext_history w content role st :
  history (snd (appendToContext w content role st))
  = slice_last 20 (pushed w content role st).
Proof.
  rewrite appendToContext_run. unfold history. simpl.
  destruct (Nat.ltb_spec 20 (length (pushed w content role st))); [reflexivity|].
  symmetry. apply slice_last_short. lia.
Qed.

Lemma appendAll_history w items : forall st,
  (length (history st) <= 20)%nat ->
  exists st',
    appendAll w items st = (Ret tt, st')
    /\ history st' = slice_last 20 (history st ++ stamped w (clock st) items)%list
    /\ trace st' = trace st
    /\ clock st' = (clock st + length items)%nat.
Proof.
  induction items as [|[content role] items IH]; intros st Hlen.
  - exists st. simpl. rewrite app_nil_r, slice_last_short by exact Hlen.
    repeat split; try reflexivity. lia.
  - unfold appendAll. simpl. unfold bind at 1. simpl fst. simpl snd.
    pose proof (appendToContext_history w content role st) as Hh.
    rewrite appendToContext_run in *. simpl snd in Hh.
    match goal with |- context [for_each items ?f ?s] => set (st1 := s) in * end.
    destruct (IH st1) as (st' & Hrun & Hhist & Htr & Hck).
    { rewrite Hh. apply slice_last_length. }
    exists st'. unfold appendAll in Hrun. rewrite Hrun.
    split; [reflexivity|]. split; [|split].
    + rewrite Hhist, Hh. unfold pushed. subst st1. simpl clock.
      rewrite slice_last_slice_app, <- app_assoc. reflexivity.
    + rewrite Htr. reflexivity.
    + rewrite Hck. subst st1. simpl. lia.
Qed.

(** C3: after any append the history has at most 20 entries and is the last
    20 of the old entries followed by the new one, so an append to a full
    history evicts exactly the oldest entry and keeps the order of the
    others; and from any history within the bound, every sequence of appends
    leaves the last 20 of the old entries followed by the appended ones. *)
Theorem appendToContext_sliding_window (w : World) (st : State) :
  (forall content role,
     let e := {| role := role; content := content;
                 timestamp := Date_now w (clock st) |} in
     let st' := snd (appendToContext w content role st) in
     fst (appendToContext w content role st) = Ret tt
     /\ (length (history st') <= 20)%nat
     /\ history st' = slice_last 20 (history st ++ [e])%list
     /\ ((length (history st) < 20)%nat -> history st' = (history st ++ [e])%list)
     /\ (length (history st) = 20%nat ->
         history st' = (drop 1 (history st) ++ [e])%list))
  /\ (forall items,
        (length (history st) <= 20)%nat ->
        exists st',
          appendAll w items st = (Ret tt, st')
          /\ history st'
             = slice_last 20 (history st ++ stamped w (clock st) items)%list
          /\ (length (history st') <= 20)%nat).
Proof.
  split.
  - intros content role e st'. subst st'.
    rewrite appendToContext_history. fold e. unfold pushed. fold e.
    split; [reflexivity|]. split; [apply slice_last_length|].
    split; [reflexivity|]. split.
    + intros Hlt. apply slice_last_short. rewrite length_app. simpl. lia.
    + intros Heq. rewrite slice_last_app by (simpl; lia). simpl.
      unfold slice_last. rewrite Heq. reflexivity.
  - intros items Hlen.
    destruct (appendAll_history w items st Hlen) as (st' & Hrun & Hh & _ & _).
    exists st'. split; [exact Hrun|]. split; [exact Hh|].
    rewrite Hh. apply slice_last_length.
Qed.

(** ** The WAV container *)

Lemma byte_of_Z_value z : Z.of_N (Byte.to_N (byte_of_Z z)) = z mod 256.
Proof.
  unfold byte_of_Z.
  assert (Hb : 0 <= z mod 256 < 256) by (apply Z.mod_pos_bound; lia).
  destruct (Byte.of_N (Z.to_N (z mod 256))) as [b|] eqn:E.
  - apply Byte.to_of_N in E. rewrite E. apply Z2N.id. lia.
  - apply Byte.of_N_None_iff in E. lia.
Qed.

Lemma le_value_le_bytes n : forall v,
  0 <= v < 256 ^ Z.of_nat n -> le_value (le_bytes n v) = v.
Proof.
  induction n as [|n IH]; intros v Hv.
  - simpl in *. lia.
  - cbn [le_bytes le_value]. rewrite byte_of_Z_value.
    rewrite IH.
    + pose proof (Z.div_mod v 256). lia.
    + rewrite Nat2Z.inj_succ, Z.pow_succ_r in Hv by lia.
      split; [apply Z.div_pos; lia|].
      apply Z.div_lt_upper_bound; lia.
Qed.

Lemma overwrite_all (src : list byte) : forall buf,
  length buf = length src -> overwrite src buf = src.
Proof.
  induction src as [|x src IH]; intros [|y buf] Hlen; simpl in *;
    try reflexivity; try discriminate.
  f_equal. apply IH. lia.
Qed.

Lemma overwrite_length bs : forall buf,
  length (overwrite bs buf) = length buf.
Proof.
  induction bs as [|b bs IH]; intros [|x buf]; simpl; try reflexivity.
  f_equal. apply IH.
Qed.

Lemma write_bytes_length off : forall bs buf,
  length (write_bytes off bs buf) = length buf.
Proof.
  induction off as [|off IH]; intros bs buf; simpl.
  - apply overwrite_length.
  - destruct buf as [|x buf]; simpl; [reflexivity|]. f_equal. apply IH.
Qed.

Lemma uint_in_range width v :
  0 <= v < 256 ^ Z.of_nat width ->
  (0 <=? v) && (v <? 256 ^ Z.of_nat width) = true.
Proof. intros H. apply andb_true_iff. split; [apply Z.leb_le|apply Z.ltb_lt]; lia. Qed.

Lemma createWavHeader_run pcmData :
  36 + Z.of_nat (length pcmData) < 2 ^ 32 ->
  createWavHeader pcmData
  = Answers (wavHeader (Z.of_nat (length pcmData)) ++ pcmData)%list.
Proof.
  intros Hn. unfold createWavHeader, Buffer_alloc.
  rewrite repeat_app.
  set (zs := repeat x00 (length pcmData)).
  assert (Hzs : length zs = length pcmData) by apply repeat_length.
  unfold Buffer_write, writeUInt32LE, writeUInt16LE, writeUIntLE.
  rewrite (uint_in_range 4 (36 + Z.of_nat (length pcmData)))
    by (change (256 ^ Z.of_nat 4) with (2 ^ 32); lia).
  rewrite (uint_in_range 4 (Z.of_nat (length pcmData)))
    by (change (256 ^ Z.of_nat 4) with (2 ^ 32); lia).
  change (16000 * 1 * (16 / 8)) with 32000.
  change (1 * (16 / 8)) with 2.
  repeat match goal with
         | |- context [(0 <=? ?v) && (?v <? 256 ^ Z.of_nat ?k)] =>
             change ((0 <=? v) && (v <? 256 ^ Z.of_nat k)) with true
         end.
  unfold wavHeader. cbn [le_bytes].
  repeat match goal with
         | |- context [byte_of_Z ?x] => generalize (byte_of_Z x); intro
         end.
  clearbody zs.
  match goal with
  | |- _ = Answers (?h ++ pcmData)%list =>
      transitivity (Answers (h ++ overwrite pcmData zs)%list)
  end.
  - vm_compute. reflexivity.
  - rewrite overwrite_all by exact Hzs. reflexivity.
Qed.

(** Past the range of the 32-bit size field the builder throws. *)
Lemma createWavHeader_overflow pcmData :
  2 ^ 32 <= 36 + Z.of_nat (length pcmData) ->
  createWavHeader pcmData
  = Raises (RangeError "The value of value is out of range").
Proof.
  intros Hn. unfold createWavHeader, Buffer_write.
  cbn [Nat.leb abind]. unfold writeUInt32LE at 1. unfold writeUIntLE.
  replace ((0 <=? 36 + Z.of_nat (length pcmData))
           && (36 + Z.of_nat (length pcmData) <? 256 ^ Z.of_nat 4)) with false.
  - reflexivity.
  - symmetry. apply andb_false_iff. right. apply Z.ltb_ge.
    change (256 ^ Z.of_nat 4) with (2 ^ 32). lia.
Qed.




(** ** Running the operations *)

Lemma count_app p tr1 tr2 :
  count p (tr1 ++ tr2)%list = (count p tr1 + count p tr2)%nat.
Proof. unfold count. rewrite List.filter_app, length_app. reflexivity. Qed.

Lemma count_snoc p tr e :
  count p (tr ++ [e])%list = (count p tr + (if p e then 1 else 0))%nat.
Proof.
  rewrite count_app. f_equal. unfold count. simpl.
  destruct (p e); reflexivity.
Qed.

(** ** Webhook requests *)

Lemma fold_headers_lookup k hs : forall acc : gmap string string,
  fold_left (fun acc header =>
               if String.eqb (header_key header) "__proto__" then acc
               else <[header_key header := header_value header]> acc)
    hs acc !! k
  = if String.eqb k "__proto__" then acc !! k
    else match headerValue k hs with
         | Some v => Some v
         | None => acc !! k
         end.
Proof.
  induction hs as [|h hs IH]; intros acc; simpl.
  - destruct (String.eqb k "__proto__"); reflexivity.
  - rewrite IH. destruct (String.eqb_spec k "__proto__") as [->|Hk].
    + destruct (String.eqb_spec (header_key h) "__proto__") as [He|Hne];
        [reflexivity|].
      apply lookup_insert_ne. exact Hne.
    + destruct (headerValue k hs) as [v|].
      * destruct (String.eqb (header_key h) "__proto__"); reflexivity.
      * destruct (String.eqb_spec (header_key h) k) as [<-|Hne].
        -- destruct (String.eqb_spec (header_key h) "__proto__") as [He|_];
             [contradiction|].
           apply lookup_insert_eq.
        -- destruct (String.eqb (header_key h) "__proto__"); [reflexivity|].
           apply lookup_insert_ne. exact Hne.
Qed.

Lemma webhookHeaders_lookup tool k :
  webhookHeaders tool !! k
  = if String.eqb k "__proto__" then None
    else match headerValue k (default [] (tool_headers tool)) with
         | Some v => Some v
         | None => if String.eqb k "Content-Type" then Some "application/json"
                   else None
         end.
Proof.
  unfold webhookHeaders, reduceHeaders.
  rewrite lookup_union, fold_headers_lookup, lookup_empty.
  destruct (String.eqb_spec k "__proto__") as [->|Hk]; [reflexivity|].
  destruct (headerValue k (default [] (tool_headers tool))) as [v|].
  - destruct ({[ "Content-Type" := "application/json" ]} !! k); reflexivity.
  - destruct (String.eqb_spec k "Content-Type") as [->|Hne].
    + rewrite lookup_singleton_eq. reflexivity.
    + rewrite lookup_singleton_ne by congruence. reflexivity.
Qed.

Lemma executeWebhookTool_run w tool data st :
  executeWebhookTool w tool data st
  = if str_truthy (tool_webhookUrl tool)
    then (Ret match fetch w (count is_fetch (trace st)) with
              | Answers response => ok response
              | Raises _ => false
              end,
          add_event (webhookRequest tool data) st)
    else (Ret false, st).
Proof.
  unfold executeWebhookTool, try_catch, bind, call, throw, ret, add_event,
    webhookRequest.
  destruct (str_truthy (tool_webhookUrl tool)); simpl; [|reflexivity].
  destruct (fetch w (count is_fetch (trace st))) as [response|e]; simpl.
  - destruct (ok response); reflexivity.
  - reflexivity.
Qed.

(** C5 (as amended): a webhook tool with a target URL sends exactly one
    request, to that URL, with the configured method (POST when the method is
    unset or empty), with the tool's headers merged over the JSON content
    type (the last entry for a key winning, an entry with the key
    [__proto__] being dropped), and with the JSON encoding of the data as
    body exactly when the method is POST; any other method is sent without a
    body.  A tool without a target URL sends no request and the result is
    false. *)
Theorem executeWebhookTool_request (w : World) (tool : Tool) (data : json)
    (st : State) :
  let method := str_or (tool_method tool) "POST" in
  let headers := webhookHeaders tool in
  (str_truthy (tool_webhookUrl tool) = true ->
   exists r,
     executeWebhookTool w tool data st
     = (Ret r,
        add_event
          (EvFetch (default "" (tool_webhookUrl tool)) method headers
             (if String.eqb method "POST" then Some (JSON_stringify data)
              else None)) st))
  /\ (str_truthy (tool_webhookUrl tool) = false ->
      executeWebhookTool w tool data st = (Ret false, st))
  /\ (str_truthy (tool_method tool) = false -> method = "POST")
  /\ (forall m, tool_method tool = Some m -> m <> "" -> method = m)
  /\ (forall k,
        headers !! k
        = if String.eqb k "__proto__" then None
          else match headerValue k (default [] (tool_headers tool)) with
               | Some v => Some v
               | None => if String.eqb k "Content-Type"
                         then Some "application/json" else None
               end).
Proof.
  intros method headers. split; [|split; [|split; [|split]]].
  - intros Hurl. rewrite executeWebhookTool_run, Hurl. eexists. reflexivity.
  - intros Hurl. rewrite executeWebhookTool_run, Hurl. reflexivity.
  - subst method. unfold str_truthy, str_or.
    destruct (tool_method tool) as [m|]; [|reflexivity].
    destruct (String.eqb m ""); [reflexivity|discriminate].
  - intros m Hm Hne. subst method. rewrite Hm. unfold str_or.
    destruct (String.eqb_spec m ""); [contradiction|reflexivity].
  - intros k. apply webhookHeaders_lookup.
Qed.

(** The statement at the tool with method PUT: the request is sent without
    a body. *)
Lemma executeWebhookTool_request_witness :
  str_truthy (tool_webhookUrl toolPut) = true
  /\ exists r,
       executeWebhookTool world_always toolPut dataA stateX
       = (Ret r,
          add_event
            (EvFetch "https://example.test/record" "PUT" (webhookHeaders toolPut)
               None) stateX).
Proof.
  split; [reflexivity|].
  exact (proj1 (executeWebhookTool_request world_always toolPut dataA stateX)
           eq_refl).
Defined.

(** C5 (as stated) fails for a tool whose method is PUT: its request has no
    body. *)
Lemma webhook_put_has_no_body :
  ~ webhook_request_as_stated world_always toolPut dataA stateX.
Proof.
  intros [r Hrun]. rewrite executeWebhookTool_run in Hrun.
  apply (f_equal (fun p => trace (snd p))) in Hrun.
  cbn [snd trace add_event stateX app webhookRequest toolPut tool_method
         str_or str_truthy tool_webhookUrl negb String.eqb Ascii.eqb
         Bool.eqb] in Hrun.
  inversion Hrun.
Qed.

(** ** Tool execution *)

Lemma executeGoogleSheetsTool_run w tool data st :
  executeGoogleSheetsTool w tool data st
  = if str_truthy (tool_webhookUrl tool)
       && str_truthy (extractSpreadsheetId w (default "" (tool_webhookUrl tool)))
    then (Ret match appendGenericRow w (count is_appendGenericRow (trace st)) with
              | Answers result => success result
              | Raises _ => false
              end,
          add_event (sheetsRequest w tool data) st)
    else (Ret false, st).
Proof.
  unfold executeGoogleSheetsTool, try_catch, bind, call, throw, ret, add_event,
    sheetsRequest.
  destruct (str_truthy (tool_webhookUrl tool)); simpl; [|reflexivity].
  destruct (str_truthy (extractSpreadsheetId w _)); simpl; [|reflexivity].
  destruct (appendGenericRow w _) as [result|e]; simpl.
  - destruct (success result); reflexivity.
  - reflexivity.
Qed.

Lemma executeTool_run w tool data st :
  executeTool w tool data st
  = dispatchTool w tool data (add_event (EvExecuteTool tool data) st).
Proof.
  unfold executeTool, dispatchTool, bind, emit, try_catch.
  fold (add_event (EvExecuteTool tool data) st).
  set (st0 := add_event (EvExecuteTool tool data) st).
  destruct data; simpl; try reflexivity;
    (destruct (String.eqb (tool_type tool) "GoogleSheets");
     [rewrite executeGoogleSheetsTool_run;
      destruct (_ && _); reflexivity|];
     destruct (String.eqb (tool_type tool) "Webhook");
     [rewrite executeWebhookTool_run;
      destruct (str_truthy _); reflexivity|];
     reflexivity).
Qed.

Lemma executeTool_state w tool data st :
  executeTool w tool data st
  = (Ret (toolResult w tool data (trace st)),
     {| session := session st;
        trace := (trace st ++ EvExecuteTool tool data :: toolRequests w tool data)%list;
        clock := clock st |}).
Proof.
  rewrite executeTool_run. unfold dispatchTool, toolResult, toolRequests.
  destruct data; try reflexivity;
    (destruct (String.eqb (tool_type tool) "GoogleSheets");
     [rewrite executeGoogleSheetsTool_run;
      cbn [trace add_event]; rewrite count_snoc; cbn [is_appendGenericRow];
      rewrite Nat.add_0_r;
      destruct (str_truthy (tool_webhookUrl tool)); cbn [andb];
      [destruct (str_truthy (extractSpreadsheetId w _)); cbn [andb]|];
      unfold add_event; cbn [session trace clock];
      rewrite <- ?app_assoc; reflexivity|];
     destruct (String.eqb (tool_type tool) "Webhook");
     [rewrite executeWebhookTool_run;
      cbn [trace add_event]; rewrite count_snoc; cbn [is_fetch];
      rewrite Nat.add_0_r;
      destruct (str_truthy (tool_webhookUrl tool)); cbn [andb];
      unfold add_event; cbn [session trace clock];
      rewrite <- ?app_assoc; reflexivity|];
     reflexivity).
Qed.

Lemma str_truthy_iff o :
  str_truthy o = true <-> exists s, o = Some s /\ s <> "".
Proof.
  unfold str_truthy. destruct o as [s|].
  - destruct (String.eqb_spec s "") as [->|Hne]; simpl; split.
    + discriminate.
    + intros (s' & Hs & Hne). inversion Hs. subst. contradiction.
    + intros _. exists s. split; [reflexivity|exact Hne].
    + reflexivity.
  - split; [discriminate|]. intros (s & Hs & _). discriminate.
Qed.

Lemma ok_iff response : ok response = true <-> 200 <= status response < 300.
Proof. unfold ok. rewrite andb_true_iff, Z.leb_le, Z.ltb_lt. reflexivity. Qed.

Lemma toolResult_true w tool data tr :
  toolResult w tool data tr = true
  <-> data <> JNull
      /\ (webhookAnswers2xx w tool tr \/ sheetAppendSucceeds w tool tr).
Proof.
  unfold toolResult, webhookAnswers2xx, sheetAppendSucceeds.
  assert (Hdata : data = JNull \/ data <> JNull)
    by (destruct data; [left; reflexivity|right; discriminate..]).
  destruct Hdata as [->|Hdata].
  { split; [discriminate|]. intros [H _]. contradiction. }
  transitivity
    ((if String.eqb (tool_type tool) "GoogleSheets" then
        str_truthy (tool_webhookUrl tool)
        && str_truthy (extractSpreadsheetId w (default "" (tool_webhookUrl tool)))
        && match appendGenericRow w (count is_appendGenericRow tr) with
           | Answers result => success result
           | Raises _ => false
           end
      else if String.eqb (tool_type tool) "Webhook" then
        str_truthy (tool_webhookUrl tool)
        && match fetch w (count is_fetch tr) with
           | Answers response => ok response
           | Raises _ => false
           end
      else false) = true).
  { destruct data; try contradiction; reflexivity. }
  destruct (String.eqb_spec (tool_type tool) "GoogleSheets") as [Hs|Hs].
  - rewrite !andb_true_iff. split.
    + intros [[Hurl Hid] Hres]. split; [exact Hdata|]. right.
      repeat split; try assumption.
      destruct (appendGenericRow w _) as [result|]; [|discriminate].
      exists result. split; [reflexivity|exact Hres].
    + intros [_ [(Ht & _)|(_ & Hurl & Hid & result & Hr & Hsucc)]].
      * rewrite Hs in Ht. discriminate.
      * rewrite Hr. repeat split; assumption.
  - destruct (String.eqb_spec (tool_type tool) "Webhook") as [Hw|Hw].
    + rewrite andb_true_iff. split.
      * intros [Hurl Hres]. split; [exact Hdata|]. left.
        repeat split; try assumption.
        destruct (fetch w _) as [response|]; [|discriminate].
        exists response. split; [reflexivity|]. apply ok_iff. exact Hres.
      * intros [_ [(_ & Hurl & response & Hr & Hok)|(Ht & _)]].
        -- rewrite Hr. split; [exact Hurl|]. apply ok_iff. exact Hok.
        -- contradiction.
    + split; [discriminate|].
      intros [_ [(Ht & _)|(Ht & _)]]; contradiction.
Qed.

(** C6 (as amended): tool execution never throws; it returns true exactly
    when the data is not null and either the tool is a webhook tool with a
    target URL whose endpoint answers with a 2xx status, or it is a
    spreadsheet tool whose URL resolves to a spreadsheet id and whose row
    append reports success.  Any other status, a transport failure, a missing
    or unresolvable URL and any other tool type give false. *)
Theorem executeTool_result (w : World) (tool : Tool) (data : json) (st : State) :
  exists b st',
    executeTool w tool data st = (Ret b, st')
    /\ (b = true
        <-> data <> JNull
            /\ (webhookAnswers2xx w tool (trace st)
                \/ sheetAppendSucceeds w tool (trace st)))
    /\ (tool_type tool <> "Webhook" -> tool_type tool <> "GoogleSheets" ->
        b = false /\ st' = add_event (EvExecuteTool tool data) st).
Proof.
  rewrite executeTool_state. eexists. eexists.
  split; [reflexivity|]. split; [apply toolResult_true|].
  intros Hw Hs. unfold toolResult, toolRequests, add_event.
  destruct (String.eqb_spec (tool_type tool) "GoogleSheets"); [contradiction|].
  destruct (String.eqb_spec (tool_type tool) "Webhook"); [contradiction|].
  destruct data; split; reflexivity.
Qed.

(** C6 (as stated) fails for a spreadsheet tool: it returns true although
    no request goes to any webhook endpoint. *)
Lemma spreadsheet_tool_succeeds_without_webhook :
  ~ execute_result_as_stated world_always toolSheet dataA stateX.
Proof.
  intros (b & st' & Hrun & Hiff).
  rewrite executeTool_state in Hrun. inversion Hrun; subst; clear Hrun.
  destruct Hiff as [Hiff _]. destruct (Hiff eq_refl) as [Hcount _].
  vm_compute in Hcount. discriminate.
Qed.

(** ** Data extraction and the tools it gates *)

Lemma extractDataFromConversation_run w context tool st :
  extractDataFromConversation w (Some context) tool st
  = (Ret (extractionResult w tool (count is_chat (trace st))),
     add_event (extractionRequest context tool) st).
Proof.
  unfold extractDataFromConversation, extractionResult, try_catch, bind, call,
    ret, add_event, extractionRequest.
  destruct (chat w (count is_chat (trace st))); reflexivity.
Qed.

Lemma processTool_run w turns tool st :
  processTool w (withContext turns) tool st
  = (Ret tt,
     {| session := session st;
        trace := (trace st
                  ++ processToolEvents w turns tool (count is_chat (trace st)))%list;
        clock := clock st |}).
Proof.
  unfold processTool, withContext, bind. cbn [context].
  rewrite extractDataFromConversation_run.
  unfold processToolEvents.
  destruct (ex_success (extractionResult w tool (count is_chat (trace st)))).
  - rewrite executeTool_state. unfold ret, add_event. cbn [session trace clock].
    rewrite <- app_assoc. reflexivity.
  - reflexivity.
Qed.

Lemma toolRequests_not_chat w tool data :
  count is_chat (toolRequests w tool data) = 0%nat.
Proof.
  unfold toolRequests.
  destruct data; try reflexivity;
    destruct_ifs; reflexivity.
Qed.

Lemma toolRequests_not_executeTool w tool data :
  List.filter is_executeTool (toolRequests w tool data) = [].
Proof.
  unfold toolRequests.
  destruct data; try reflexivity;
    destruct_ifs; reflexivity.
Qed.

Lemma processToolEvents_chat w context tool n :
  count is_chat (processToolEvents w context tool n) = 1%nat.
Proof.
  unfold processToolEvents.
  destruct (ex_success (extractionResult w tool n)); [|reflexivity].
  change (count is_chat (?a :: ?b :: ?r)) with (S (count is_chat r)).
  rewrite toolRequests_not_chat. reflexivity.
Qed.

Lemma processToolEvents_executions w context tool n :
  List.filter is_executeTool (processToolEvents w context tool n)
  = if ex_success (extractionResult w tool n)
    then [EvExecuteTool tool (ex_data (extractionResult w tool n))] else [].
Proof.
  unfold processToolEvents.
  destruct (ex_success (extractionResult w tool n)); [|reflexivity].
  cbn [List.filter is_executeTool extractionRequest].
  rewrite toolRequests_not_executeTool. reflexivity.
Qed.

Lemma for_each_processTool w context tools : forall st,
  exists st',
    for_each tools (processTool w (withContext context)) st = (Ret tt, st')
    /\ session st' = session st
    /\ List.filter is_executeTool (trace st')
       = (List.filter is_executeTool (trace st)
          ++ executions w (count is_chat (trace st)) tools)%list.
Proof.
  induction tools as [|tool tools IH]; intros st; simpl.
  - exists st. rewrite app_nil_r. repeat split; reflexivity.
  - unfold bind at 1. rewrite processTool_run.
    match goal with |- context [for_each tools _ ?s] => set (st1 := s) end.
    destruct (IH st1) as (st' & Hrun & Hsess & Hexec).
    exists st'. split; [exact Hrun|]. split; [rewrite Hsess; reflexivity|].
    rewrite Hexec. subst st1. cbn [trace].
    rewrite List.filter_app, count_app, processToolEvents_chat,
      processToolEvents_executions, <- app_assoc.
    replace (count is_chat (trace st) + 1)%nat with (S (count is_chat (trace st)))
      by lia.
    reflexivity.
Qed.

(** The value the extraction parses is an object. *)
Lemma parse_members_object : forall fuel acc s v rest,
  parse_members fuel acc s = Some (v, rest) -> exists kvs, v = JObject kvs.
Proof.
  induction fuel as [|fuel IH]; intros acc s v rest H; [discriminate|].
  cbn [parse_members] in H.
  repeat match type of H with
         | context [match ?x with _ => _ end] =>
             destruct x eqn:?; try discriminate
         end.
  - eapply IH. exact H.
  - inversion H. eexists. reflexivity.
Qed.

Lemma from_first_brace_starts s t :
  Str.from_first_brace s = Some t -> exists r, t = String "{" r.
Proof.
  induction s as [|c s IH]; simpl; [discriminate|].
  destruct (Ascii.eqb_spec c "{") as [->|_].
  - intros H. inversion H. eexists. reflexivity.
  - exact IH.
Qed.

Lemma upto_last_brace_starts c r t :
  Str.upto_last_brace (String c r) = Some t -> exists r', t = String c r'.
Proof.
  simpl. destruct (Str.upto_last_brace r).
  - intros H. inversion H. eexists. reflexivity.
  - destruct (Ascii.eqb c "}"); [|discriminate].
    intros H. inversion H. eexists. reflexivity.
Qed.

Lemma JSON_parse_brace r v :
  JSON_parse (String "{" r) = Answers v -> exists kvs, v = JObject kvs.
Proof.
  unfold JSON_parse. cbn [skip_ws is_json_ws Ascii.eqb Bool.eqb orb].
  set (fuel := (2 * String.length (String "{" r) + 2)%nat).
  assert (Hfuel : exists f, fuel = S f) by (subst fuel; simpl; eexists; reflexivity).
  destruct Hfuel as [f ->].
  cbn [parse_value Ascii.eqb Bool.eqb].
  destruct (skip_ws r) as [|c1 r1]; [discriminate|].
  destruct (Ascii.eqb c1 "}").
  - destruct (skip_ws r1); [|discriminate].
    intros H. inversion H. eexists. reflexivity.
  - destruct (parse_members f [] (String c1 r1)) as [[v' rest]|] eqn:Hm;
      [|discriminate].
    destruct (skip_ws rest); [|discriminate].
    intros H. inversion H. subst. eapply parse_members_object. exact Hm.
Qed.

Lemma parseExtracted_object response :
  exists kvs, parseExtracted response = JObject kvs.
Proof.
  unfold parseExtracted, Str.match_braces.
  destruct (Str.from_first_brace response) as [t|] eqn:Hf;
    [|eexists; reflexivity].
  destruct (from_first_brace_starts _ _ Hf) as [r ->].
  destruct (Str.upto_last_brace (String "{" r)) as [m|] eqn:Hu;
    [|eexists; reflexivity].
  destruct (upto_last_brace_starts _ _ _ Hu) as [r' ->].
  destruct (JSON_parse (String "{" r')) as [v|e] eqn:Hp;
    [|eexists; reflexivity].
  eapply JSON_parse_brace. exact Hp.
Qed.

Lemma filter_nil_iff {A} (f : A -> bool) (l : list A) :
  (length (List.filter f l) =? 0)%nat = true
  <-> forall x, In x l -> f x = false.
Proof.
  rewrite Nat.eqb_eq. induction l as [|a l IH]; simpl.
  - split; [intros _ x []|reflexivity].
  - destruct (f a) eqn:Ha; simpl.
    + split; [discriminate|]. intros H.
      specialize (H a (or_introl eq_refl)). congruence.
    + rewrite IH. split.
      * intros H x [<-|Hx]; [exact Ha|apply H; exact Hx].
      * intros H x Hx. apply H. right. exact Hx.
Qed.



(** ** The dialog turn, one call at a time *)

Lemma callLLM_step w this fuel input st :
  callLLM w this (S fuel) input st
  = match generateContent w (count is_generateContent (trace st)) with
    | Raises _ => (Ret apology, called input st)
    | Answers response =>
        match text response with
        | None => (Ret apology, called input st)
        | Some t =>
            let st2 := with_session (addTokens response (session st))
                         (called input st) in
            match toolCallOf this (tools (session st2)) t with
            | None => (Ret t, st2)
            | Some (tool, tool_v, data_v) =>
                let st3 := snd (executeTool w tool data_v st2) in
                let st4 := snd (appendToContext w (toolStatus tool_v) user st3) in
                match callLLM w this fuel continuation st4 with
                | (Ret r, st5) => (Ret r, st5)
                | (Throw _, st5) => (Ret t, st5)
                | (OutOfFuel, st5) => (OutOfFuel, st5)
                end
            end
        end
    end.
Proof.
  cbn [callLLM].
  unfold bind at 1. unfold emit at 1. cbn beta iota.
  unfold try_catch at 1. unfold bind at 1. unfold get_session at 1.
  cbn beta iota. unfold bind at 1. unfold call at 1.
  cbn [session trace clock]. rewrite count_snoc. cbn [is_generateContent].
  rewrite Nat.add_0_r.
  destruct (generateContent w (count is_generateContent (trace st)))
    as [response|e]; [|reflexivity].
  destruct (text response) as [t|] eqn:Ht; [|reflexivity].
  cbv beta iota delta [bind ret modify_session try_catch of_answer get_session
                         throw toolCallOf].
  cbn [session with_session].
  destruct (Str.startsWith "{" (cleanText t) && Str.endsWith "}" (cleanText t));
    [|reflexivity].
  destruct (JSON_parse (cleanText t)) as [parsed|]; [|reflexivity].
  destruct (get_property parsed "tool") as [[tool_v|]|];
    destruct (get_property parsed "data") as [[data_v|]|]; try reflexivity.
  destruct (truthy tool_v); [|reflexivity].
  destruct (truthy data_v); [|reflexivity].
  destruct (bool_decide (is_Some (mysqlPool this))); [|reflexivity].
  cbn [andb session with_session].
  destruct (findTool (tools (addTokens response (session st))) tool_v)
    as [tool|]; [|reflexivity].
  rewrite !executeTool_state. cbn [snd]. rewrite !appendToContext_run.
  cbn [snd].
  match goal with
  | |- _ = (let (_, _) := ?c in _) => set (rec := c)
  end.
  match goal with
  | |- context [callLLM w this fuel ?i ?s] =>
      change (callLLM w this fuel i s) with rec
  end.
  destruct rec as [[r| |] st5]; reflexivity.
Qed.

Lemma tools_addTokens response s : tools (addTokens response s) = tools s.
Proof.
  unfold addTokens.
  destruct (inputTokens response) as [n|], (outputTokens response) as [m|];
    destruct_ifs; reflexivity.
Qed.

Lemma history_addTokens response s :
  conversationHistory (addTokens response s) = conversationHistory s.
Proof.
  unfold addTokens.
  destruct (inputTokens response) as [n|], (outputTokens response) as [m|];
    destruct_ifs; reflexivity.
Qed.

Lemma toolRequests_count p w tool data :
  (forall u m h b, p (EvFetch u m h b) = false) ->
  (forall i d s, p (EvAppendGenericRow i d s) = false) ->
  count p (toolRequests w tool data) = 0%nat.
Proof.
  intros Hf Ha. unfold toolRequests, sheetsRequest, webhookRequest.
  destruct data; try reflexivity;
    destruct_ifs; unfold count; simpl; rewrite ?Hf, ?Ha; reflexivity.
Qed.

Lemma afterTool_trace w input response tool tool_v data_v st :
  trace (afterTool w input response tool tool_v data_v st)
  = (trace st
     ++ [EvCallLLM input; generateRequest (session st);
         EvExecuteTool tool data_v] ++ toolRequests w tool data_v)%list.
Proof.
  unfold afterTool. rewrite executeTool_state. cbn [snd].
  rewrite appendToContext_run. cbn [snd trace with_session called add_event].
  rewrite <- !app_assoc. reflexivity.
Qed.

Lemma afterTool_tools w input response tool tool_v data_v st :
  tools (session (afterTool w input response tool tool_v data_v st))
  = tools (session st).
Proof.
  unfold afterTool. rewrite executeTool_state. cbn [snd].
  rewrite appendToContext_run. cbn [snd session with_session].
  unfold set_conversationHistory. cbn [tools]. apply tools_addTokens.
Qed.

Lemma afterTool_history w input response tool tool_v data_v st :
  history (afterTool w input response tool tool_v data_v st)
  = slice_last 20
      (history st
       ++ [ {| role := user; content := toolStatus tool_v;
               timestamp := Date_now w (clock st) |} ])%list.
Proof.
  unfold afterTool. rewrite executeTool_state. cbn [snd].
  rewrite appendToContext_history. unfold pushed, history.
  cbn [session clock with_session called add_event].
  rewrite history_addTokens. reflexivity.
Qed.

Lemma afterTool_counts w input response tool tool_v data_v st :
  let st4 := afterTool w input response tool tool_v data_v st in
  count is_generateContent (trace st4) = S (count is_generateContent (trace st))
  /\ count is_executeTool (trace st4) = S (count is_executeTool (trace st))
  /\ count is_callLLM (trace st4) = S (count is_callLLM (trace st)).
Proof.
  intros st4. subst st4. rewrite afterTool_trace.
  rewrite !count_app.
  rewrite !(toolRequests_count _ w tool data_v) by reflexivity.
  unfold count. cbn [List.filter is_generateContent is_executeTool is_callLLM
                       generateRequest length].
  repeat split; lia.
Qed.

(** The step of a turn whose answer is an executable tool call. *)
Lemma callLLM_step_tool w this fuel input st :
  replyToolCall w this (tools (session st))
    (count is_generateContent (trace st)) <> None ->
  exists response t tool tool_v data_v,
    generateContent w (count is_generateContent (trace st)) = Answers response
    /\ text response = Some t
    /\ toolCallOf this (tools (session st)) t = Some (tool, tool_v, data_v)
    /\ callLLM w this (S fuel) input st
       = match callLLM w this fuel continuation
                 (afterTool w input response tool tool_v data_v st) with
         | (Ret r, st5) => (Ret r, st5)
         | (Throw _, st5) => (Ret t, st5)
         | (OutOfFuel, st5) => (OutOfFuel, st5)
         end.
Proof.
  intros Hreply. rewrite callLLM_step. unfold replyToolCall in Hreply.
  destruct (generateContent w _) as [response|e]; [|contradiction].
  destruct (text response) as [t|] eqn:Ht; [|contradiction].
  cbn zeta. cbn [session with_session]. rewrite tools_addTokens.
  destruct (toolCallOf this (tools (session st)) t)
    as [[[tool tool_v] data_v]|] eqn:Hc; [|contradiction].
  exists response, t, tool, tool_v, data_v.
  split; [reflexivity|]. split; [exact Ht|]. split; [exact Hc|reflexivity].
Qed.

(** The step of a turn whose answer ends it. *)
Lemma callLLM_step_final w this fuel input st :
  replyToolCall w this (tools (session st))
    (count is_generateContent (trace st)) = None ->
  exists s,
    callLLM w this (S fuel) input st
    = (Ret (finalAnswer w (count is_generateContent (trace st))),
       with_session s (called input st))
    /\ conversationHistory s = conversationHistory (session st)
    /\ tools s = tools (session st).
Proof.
  intros Hreply. rewrite callLLM_step. unfold replyToolCall in Hreply.
  unfold finalAnswer.
  destruct (generateContent w _) as [response|e].
  - destruct (text response) as [t|].
    + cbn zeta. cbn [session with_session]. rewrite tools_addTokens, Hreply.
      exists (addTokens response (session st)).
      split; [reflexivity|]. split; [apply history_addTokens|apply tools_addTokens].
    + exists (session st). repeat split.
  - exists (session st). repeat split.
Qed.

(** No exception escapes a turn. *)
Lemma callLLM_no_throw w this : forall fuel input st e,
  fst (callLLM w this fuel input st) <> Throw e.
Proof.
  induction fuel as [|fuel IH]; intros input st e; [discriminate|].
  rewrite callLLM_step.
  destruct (generateContent w _) as [response|]; [|discriminate].
  destruct (text response) as [t|]; [|discriminate].
  cbn zeta.
  destruct (toolCallOf this _ t) as [[[tool tool_v] data_v]|]; [|discriminate].
  destruct (callLLM w this fuel continuation _) as [[r| |] st5]; discriminate.
Qed.

(** A turn whose first [k] answers are executable tool calls and whose
    next answer is not returns that answer after [k] tool executions. *)
Lemma callLLM_chain w this : forall k fuel input st,
  (forall i, (i < k)%nat ->
     replyToolCall w this (tools (session st))
       (count is_generateContent (trace st) + i) <> None) ->
  replyToolCall w this (tools (session st))
    (count is_generateContent (trace st) + k) = None ->
  (k < fuel)%nat ->
  exists st',
    callLLM w this fuel input st
    = (Ret (finalAnswer w (count is_generateContent (trace st) + k)), st')
    /\ count is_executeTool (trace st') = (count is_executeTool (trace st) + k)%nat
    /\ count is_callLLM (trace st') = (count is_callLLM (trace st) + S k)%nat
    /\ count is_generateContent (trace st')
       = (count is_generateContent (trace st) + S k)%nat.
Proof.
  induction k as [|k IH]; intros fuel input st Htools Hfinal Hfuel;
    (destruct fuel as [|fuel]; [lia|]).
  - rewrite Nat.add_0_r in *.
    destruct (callLLM_step_final w this fuel input st Hfinal) as (s & Hrun & _).
    rewrite Hrun. eexists. split; [reflexivity|].
    cbn [trace with_session called add_event]. rewrite !count_snoc.
    unfold generateRequest. cbn [is_executeTool is_callLLM is_generateContent].
    repeat split; lia.
  - destruct (callLLM_step_tool w this fuel input st)
      as (response & t & tool & tool_v & data_v & Hg & Ht & Hc & Hrun).
    { specialize (Htools 0%nat). rewrite Nat.add_0_r in Htools.
      apply Htools. lia. }
    rewrite Hrun.
    destruct (afterTool_counts w input response tool tool_v data_v st)
      as (Hgen & Hex & Hcall).
    destruct (IH fuel continuation
                (afterTool w input response tool tool_v data_v st))
      as (st' & Hrun' & Hex' & Hcall' & Hgen').
    + intros i Hi. rewrite afterTool_tools, Hgen.
      replace (S (count is_generateContent (trace st)) + i)%nat
        with (count is_generateContent (trace st) + S i)%nat by lia.
      apply Htools. lia.
    + rewrite afterTool_tools, Hgen.
      replace (S (count is_generateContent (trace st)) + k)%nat
        with (count is_generateContent (trace st) + S k)%nat by lia.
      exact Hfinal.
    + lia.
    + rewrite Hrun'. exists st'. rewrite Hgen in *.
      replace (S (count is_generateContent (trace st)) + k)%nat
        with (count is_generateContent (trace st) + S k)%nat by lia.
      split; [reflexivity|]. repeat split; lia.
Qed.

(** As long as the answers are executable tool calls the turn goes on:
    a depth of [fuel] calls is used up by [fuel] such answers. *)
Lemma callLLM_out_of_fuel w this : forall fuel input st,
  (forall i, (i < fuel)%nat ->
     replyToolCall w this (tools (session st))
       (count is_generateContent (trace st) + i) <> None) ->
  exists st',
    callLLM w this fuel input st = (OutOfFuel, st')
    /\ count is_executeTool (trace st') = (count is_executeTool (trace st) + fuel)%nat
    /\ count is_callLLM (trace st') = (count is_callLLM (trace st) + fuel)%nat.
Proof.
  induction fuel as [|fuel IH]; intros input st Htools.
  - exists st. repeat split; lia.
  - destruct (callLLM_step_tool w this fuel input st)
      as (response & t & tool & tool_v & data_v & Hg & Ht & Hc & Hrun).
    { specialize (Htools 0%nat). rewrite Nat.add_0_r in Htools.
      apply Htools. lia. }
    rewrite Hrun.
    destruct (afterTool_counts w input response tool tool_v data_v st)
      as (Hgen & Hex & Hcall).
    destruct (IH continuation (afterTool w input response tool tool_v data_v st))
      as (st' & Hrun' & Hex' & Hcall').
    + intros i Hi. rewrite afterTool_tools, Hgen.
      replace (S (count is_generateContent (trace st)) + i)%nat
        with (count is_generateContent (trace st) + S i)%nat by lia.
      apply Htools. lia.
    + rewrite Hrun'. exists st'. split; [reflexivity|]. split; lia.
Qed.

(** ** The recursion of the dialog turn has no cap *)

Lemma world_always_tool_call n :
  replyToolCall world_always with_pool [toolX] n <> None.
Proof. vm_compute. discriminate. Qed.

(** C1 (as stated) fails: when every answer is the tool call naming the
    configured tool, the follow-up calls exceed every cap. *)
Lemma tool_call_recursion_has_no_cap :
  ~ recursion_capped world_always with_pool "hi" stateX.
Proof.
  intros (cap & Hcap & _).
  destruct (callLLM_out_of_fuel world_always with_pool (S (S cap)) "hi" stateX)
    as (st' & Hrun & _ & Hcall).
  { intros i _. apply world_always_tool_call. }
  specialize (Hcap (S (S cap))). rewrite Hrun in Hcap. cbn [snd] in Hcap.
  rewrite Hcall in Hcap. lia.
Qed.

(** C1 (as amended): the recursion is not capped and has no fallback
    message; it makes one follow-up call per executed tool call.  When the
    first [k] answers are executable tool calls, no depth up to [k] reaches a
    result (so a turn whose every answer is such a tool call never returns),
    and when the next answer is not one, the turn explored to any depth above
    [k] returns that answer (its text, or the apology when the call fails)
    after exactly [k] tool executions and [k] follow-up calls. *)
Theorem callLLM_recursion_depth (w : World) (this : Handler) (input : string)
    (st : State) (k : nat) :
  (forall i, (i < k)%nat ->
     replyToolCall w this (tools (session st))
       (count is_generateContent (trace st) + i) <> None) ->
  (forall fuel, (fuel <= k)%nat ->
     exists st',
       callLLM w this fuel input st = (OutOfFuel, st')
       /\ count is_executeTool (trace st')
          = (count is_executeTool (trace st) + fuel)%nat)
  /\ (replyToolCall w this (tools (session st))
        (count is_generateContent (trace st) + k) = None ->
      forall fuel, (k < fuel)%nat ->
        exists st',
          callLLM w this fuel input st
          = (Ret (finalAnswer w (count is_generateContent (trace st) + k)), st')
          /\ count is_executeTool (trace st')
             = (count is_executeTool (trace st) + k)%nat
          /\ count is_callLLM (trace st')
             = (count is_callLLM (trace st) + S k)%nat).
Proof.
  intros Htools. split.
  - intros fuel Hfuel.
    destruct (callLLM_out_of_fuel w this fuel input st)
      as (st' & Hrun & Hex & _).
    { intros i Hi. apply Htools. lia. }
    exists st'. split; assumption.
  - intros Hfinal fuel Hfuel.
    destruct (callLLM_chain w this k fuel input st Htools Hfinal Hfuel)
      as (st' & Hrun & Hex & Hcall & _).
    exists st'. repeat split; assumption.
Qed.

(** Seven tool calls in a row are all executed before the turn returns. *)
Lemma callLLM_recursion_depth_witness :
  exists st',
    callLLM (world_after 7) with_pool 8 "hi" stateX = (Ret "All done.", st')
    /\ count is_executeTool (trace st') = 7%nat
    /\ count is_callLLM (trace st') = 8%nat.
Proof.
  refine (proj2 (callLLM_recursion_depth (world_after 7) with_pool "hi" stateX 7
                   _) _ 8%nat _).
  - intros i Hi.
    do 7 (destruct i as [|i]; [vm_compute; discriminate|]). lia.
  - vm_compute. reflexivity.
  - lia.
Defined.

(** ** A failing provider *)

(** C8 (as amended): when the call to the provider raises, in the turn
    itself or in a follow-up call after [k] executed tool calls, the turn
    returns the fixed apology, a text that is not empty; a failure in the
    first call leaves nothing behind but the record of the call.  No error
    escapes a turn, whatever the provider answers.  A turn does not always
    yield a text to speak: a reply with an empty text is returned as it is,
    and a turn whose every reply is an executable tool call does not return,
    however many calls it is allowed. *)
Theorem callLLM_provider_failure (w : World) (this : Handler) (input : string)
    (st : State) (k : nat) (e : exn) :
  let apologyText :=
    "I apologize, but I'm having trouble processing your request right now." in
  (forall i, (i < k)%nat ->
     replyToolCall w this (tools (session st))
       (count is_generateContent (trace st) + i) <> None) ->
  generateContent w (count is_generateContent (trace st) + k) = Raises e ->
  (forall fuel, (k < fuel)%nat ->
     exists st',
       callLLM w this fuel input st = (Ret apologyText, st')
       /\ count is_executeTool (trace st')
          = (count is_executeTool (trace st) + k)%nat)
  /\ (k = 0%nat ->
      forall fuel,
        callLLM w this (S fuel) input st = (Ret apologyText, called input st))
  /\ apologyText <> ""
  /\ (forall fuel input' st0 e',
        fst (callLLM w this fuel input' st0) <> Throw e')
  /\ (forall st0 response,
        generateContent w (count is_generateContent (trace st0)) = Answers response ->
        text response = Some "" ->
        forall fuel input',
          callLLM w this (S fuel) input' st0
          = (Ret "",
             with_session (addTokens response (session st0)) (called input' st0)))
  /\ (forall st0,
        (forall i, replyToolCall w this (tools (session st0))
                     (count is_generateContent (trace st0) + i) <> None) ->
        forall fuel input', fst (callLLM w this fuel input' st0) = OutOfFuel).
Proof.
  intros apologyText Htools Hraise. subst apologyText.
  change "I apologize, but I'm having trouble processing your request right now."
    with apology.
  assert (Hfinal : replyToolCall w this (tools (session st))
                     (count is_generateContent (trace st) + k) = None)
    by (unfold replyToolCall; rewrite Hraise; reflexivity).
  assert (Hans : finalAnswer w (count is_generateContent (trace st) + k) = apology)
    by (unfold finalAnswer; rewrite Hraise; reflexivity).
  split; [|split; [|split; [|split; [|split]]]].
  - intros fuel Hfuel.
    destruct (callLLM_chain w this k fuel input st Htools Hfinal Hfuel)
      as (st' & Hrun & Hex & _).
    exists st'. rewrite <- Hans. split; assumption.
  - intros -> fuel. rewrite Nat.add_0_r in Hraise.
    rewrite callLLM_step, Hraise. reflexivity.
  - discriminate.
  - intros fuel input' st0 e'. apply callLLM_no_throw.
  - intros st0 response Hg Ht fuel input'.
    rewrite callLLM_step, Hg, Ht. reflexivity.
  - intros st0 Hall fuel input'.
    destruct (callLLM_out_of_fuel w this fuel input' st0 (fun i _ => Hall i))
      as (st' & Hrun & _).
    rewrite Hrun. reflexivity.
Qed.

Lemma callLLM_provider_failure_witness :
  callLLM world_down with_pool 1 "hi" stateX
  = (Ret "I apologize, but I'm having trouble processing your request right now.",
     called "hi" stateX).
Proof.
  refine (proj1 (proj2 (callLLM_provider_failure world_down with_pool "hi" stateX
                          0 (Error "503 Service Unavailable") _ _)) eq_refl 0%nat).
  - intros i Hi. lia.
  - reflexivity.
Defined.

(** C8 (as stated) fails: a turn whose reply has an empty text returns the
    empty text, and a turn whose every reply is an executable tool call does
    not return at all. *)
Lemma turn_without_speakable_text :
  ~ turn_yields_text_as_stated world_silent with_pool "hi" stateX
  /\ ~ turn_yields_text_as_stated world_always with_pool "hi" stateX.
Proof.
  split.
  - intros (fuel & r & st' & Hrun & Hr).
    destruct fuel as [|fuel]; [discriminate|].
    rewrite callLLM_step in Hrun. apply Hr.
    cbn in Hrun. inversion Hrun. reflexivity.
  - intros (fuel & r & st' & Hrun & _).
    destruct (callLLM_out_of_fuel world_always with_pool fuel "hi" stateX)
      as (st'' & Hout & _).
    { intros i _. apply world_always_tool_call. }
    rewrite Hout in Hrun. discriminate.
Qed.

(** ** A handler without a database pool *)

Lemma toolCallOf_no_pool this tools t :
  mysqlPool this = None -> toolCallOf this tools t = None.
Proof.
  intros Hpool. unfold toolCallOf. rewrite Hpool.
  destruct (_ && _); [|reflexivity].
  destruct (JSON_parse _) as [parsed|]; [|reflexivity].
  destruct (get_property parsed "tool") as [[tool_v|]|];
    destruct (get_property parsed "data") as [[data_v|]|]; try reflexivity.
  rewrite andb_false_r. reflexivity.
Qed.

(** C10: without a database pool the turn returns the text of the reply as
    it is, a tool call included: the only events are the entry into the turn
    and the one call to the provider, so no tool runs and no follow-up call
    is made, and the history is left as it was. *)
Theorem callLLM_without_pool (w : World) (this : Handler) (input : string)
    (st : State) (response : LLMResponse) (t : string) :
  mysqlPool this = None ->
  generateContent w (count is_generateContent (trace st)) = Answers response ->
  text response = Some t ->
  forall fuel,
    exists st',
      callLLM w this (S fuel) input st = (Ret t, st')
      /\ trace st' = (trace st ++ [EvCallLLM input; generateRequest (session st)])%list
      /\ history st' = history st
      /\ count is_executeTool (trace st') = count is_executeTool (trace st)
      /\ count is_callLLM (trace st') = S (count is_callLLM (trace st)).
Proof.
  intros Hpool Hg Ht fuel. rewrite callLLM_step, Hg, Ht. cbn zeta.
  rewrite toolCallOf_no_pool by exact Hpool.
  eexists. split; [reflexivity|].
  cbn [trace with_session called add_event]. split; [|split; [|split]].
  - rewrite <- app_assoc. reflexivity.
  - unfold history. cbn [session]. apply history_addTokens.
  - rewrite !count_snoc. unfold generateRequest. cbn [is_executeTool]. lia.
  - rewrite !count_snoc. unfold generateRequest. cbn [is_callLLM]. lia.
Qed.

(** The tool call naming the configured tool comes back verbatim. *)
Lemma callLLM_without_pool_witness :
  exists st',
    callLLM world_always without_pool 1 "hi" stateX = (Ret toolCallX, st')
    /\ trace st' = [EvCallLLM "hi"; generateRequest sessionX]
    /\ history st' = []
    /\ count is_executeTool (trace st') = 0%nat
    /\ count is_callLLM (trace st') = 1%nat.
Proof.
  exact (callLLM_without_pool world_always without_pool "hi" stateX
           {| text := Some toolCallX; inputTokens := Some 7;
              outputTokens := Some 3 |} toolCallX eq_refl eq_refl eq_refl 0%nat).
Defined.

(** ** One tool call, one follow-up *)

Lemma find_first {A} (p : A -> bool) (l : list A) x :
  find p l = Some x ->
  exists before after,
    l = (before ++ x :: after)%list /\ p x = true
    /\ Forall (fun y => p y = false) before.
Proof.
  induction l as [|a l IH]; [discriminate|]. simpl.
  destruct (p a) eqn:Ha.
  - intros H. inversion H; subst. exists [], l.
    split; [reflexivity|]. split; [exact Ha|constructor].
  - intros H. destruct (IH H) as (before & after & Hl & Hx & Hbefore).
    exists (a :: before), after. subst l.
    split; [reflexivity|]. split; [exact Hx|]. constructor; assumption.
Qed.

(** The tool that a call naming [X] finds is the first one with that name. *)
Lemma findTool_hasTool tools X :
  hasTool tools X ->
  exists tool before after,
    findTool tools (JString X) = Some tool
    /\ tools = (before ++ tool :: after)%list
    /\ tool_name tool = X
    /\ Forall (fun t => tool_name t <> X) before.
Proof.
  intros (tool0 & Hin & Hname). unfold findTool.
  destruct (find (fun t => String.eqb (tool_name t) X) tools) as [tool|] eqn:Hfind.
  - destruct (find_first _ _ _ Hfind) as (before & after & Hl & Hx & Hbefore).
    exists tool, before, after. split; [reflexivity|]. split; [exact Hl|].
    split; [apply String.eqb_eq; exact Hx|].
    eapply List.Forall_impl; [|exact Hbefore].
    intros t Ht. apply String.eqb_neq. exact Ht.
  - exfalso. apply (find_none _ _ Hfind) in Hin.
    apply String.eqb_neq in Hin. contradiction.
Qed.

Lemma toolRequests_filter p w tool data :
  (forall u m h b, p (EvFetch u m h b) = false) ->
  (forall i d s, p (EvAppendGenericRow i d s) = false) ->
  List.filter p (toolRequests w tool data) = [].
Proof.
  intros Hf Ha. unfold toolRequests, sheetsRequest, webhookRequest.
  destruct data; try reflexivity;
    destruct_ifs; simpl; rewrite ?Hf, ?Ha; reflexivity.
Qed.

(** C2 (as amended): with a tool with the non-empty name X in the session,
    a reply whose cleaned text is exactly a JSON object with the tool field X
    and an object as data field makes a handler with a database pool run the
    first tool of that name once on the data, add one user-role status turn
    to the history, make one follow-up call with the fixed input, and return
    what the follow-up call answers, given that answer is not a tool call
    itself.  A handler without a database pool returns the text of the reply
    as it is: nothing is executed, no status turn is added and no follow-up
    call is made. *)
Theorem callLLM_single_tool_call (w : World) (this : Handler) (input : string)
    (st : State) (X : string) (d : list (string * json)) :
  X <> "" ->
  hasTool (tools (session st)) X ->
  toolCallReply w (count is_generateContent (trace st)) X d ->
  (is_Some (mysqlPool this) ->
   replyToolCall w this (tools (session st))
     (S (count is_generateContent (trace st))) = None ->
   runsFirstToolOnce w this input st X d)
  /\ (mysqlPool this = None ->
      exists response t,
        generateContent w (count is_generateContent (trace st)) = Answers response
        /\ text response = Some t
        /\ forall fuel,
             exists st',
               callLLM w this (S fuel) input st = (Ret t, st')
               /\ trace st'
                  = (trace st ++ [EvCallLLM input; generateRequest (session st)])%list
               /\ history st' = history st).
Proof.
  intros HX Htool (response & t & kvs & Hg & Ht & Hs & He & Hp & Hkt & Hkd).
  split.
  - intros Hpool Hplain fuel Hfuel.
    destruct fuel as [|[|fuel]]; try lia.
    destruct (findTool_hasTool _ _ Htool)
      as (tool & before & after & Hfind & Hsplit & Hname & Hbefore).
    assert (Hcall : toolCallOf this (tools (session st)) t
                    = Some (tool, JString X, JObject d)).
    { unfold toolCallOf. rewrite Hs, He, Hp. cbn [andb get_property].
      rewrite Hkt, Hkd. cbn [truthy andb].
      destruct (String.eqb_spec X "") as [|_]; [contradiction|].
      rewrite bool_decide_eq_true_2 by exact Hpool.
      cbn [negb andb]. rewrite Hfind. reflexivity. }
    rewrite callLLM_step, Hg, Ht. cbn zeta. cbn [session with_session].
    rewrite tools_addTokens, Hcall.
    fold (afterTool w input response tool (JString X) (JObject d) st).
    set (st4 := afterTool w input response tool (JString X) (JObject d) st).
    destruct (afterTool_counts w input response tool (JString X) (JObject d) st)
      as (Hgen & _ & _). fold st4 in Hgen.
    destruct (callLLM_step_final w this fuel continuation st4)
      as (s & Hrun & Hhist & _).
    { subst st4. rewrite afterTool_tools, Hgen. exact Hplain. }
    rewrite Hrun, Hgen. exists tool, before, after. eexists.
    split; [reflexivity|].
    split; [exact Hsplit|]. split; [exact Hname|]. split; [exact Hbefore|].
    cbn [trace with_session called add_event]. subst st4.
    rewrite afterTool_trace.
    split; [|split; [|split]].
    + rewrite !List.filter_app.
      rewrite (toolRequests_filter is_executeTool) by reflexivity.
      unfold generateRequest. cbn [List.filter is_executeTool].
      rewrite !app_nil_r. reflexivity.
    + rewrite !List.filter_app.
      rewrite (toolRequests_filter is_callLLM) by reflexivity.
      unfold generateRequest. cbn [List.filter is_callLLM app].
      rewrite <- !app_assoc. reflexivity.
    + rewrite !count_app.
      rewrite (toolRequests_count is_generateContent) by reflexivity.
      unfold count, generateRequest. cbn [List.filter is_generateContent length].
      lia.
    + unfold history at 1. cbn [session with_session]. rewrite Hhist.
      apply (afterTool_history w input response tool (JString X) (JObject d) st).
  - intros Hpool. exists response, t. split; [exact Hg|]. split; [exact Ht|].
    intros fuel. rewrite callLLM_step, Hg, Ht. cbn zeta.
    rewrite toolCallOf_no_pool by exact Hpool.
    eexists. split; [reflexivity|].
    cbn [trace with_session called add_event]. split.
    + rewrite <- app_assoc. reflexivity.
    + unfold history. cbn [session]. apply history_addTokens.
Qed.

Lemma toolCallX_reply :
  toolCallReply (world_after 1) 0 "X" [("a", JString "1")].
Proof.
  exists {| text := Some toolCallX; inputTokens := Some 7; outputTokens := Some 3 |},
    toolCallX, [("tool", JString "X"); ("data", JObject [("a", JString "1")])].
  repeat split; vm_compute; reflexivity.
Qed.

Lemma sessionX_hasTool : hasTool (tools sessionX) "X".
Proof. exists toolX. split; [left; reflexivity|reflexivity]. Qed.

(** The example of the specification: the reply names the tool X of the
    session and the follow-up answer is plain text. *)
Lemma callLLM_single_tool_call_witness :
  runsFirstToolOnce (world_after 1) with_pool "hi" stateX "X" [("a", JString "1")].
Proof.
  apply (callLLM_single_tool_call (world_after 1) with_pool "hi" stateX "X"
           [("a", JString "1")]).
  - discriminate.
  - exact sessionX_hasTool.
  - exact toolCallX_reply.
  - eexists. reflexivity.
  - vm_compute. reflexivity.
Defined.

Lemma toolCallUnnamed_reply :
  toolCallReply world_unnamed 0 "" [("a", JString "1")].
Proof.
  exists {| text := Some toolCallUnnamed; inputTokens := Some 7;
            outputTokens := Some 3 |},
    toolCallUnnamed, [("tool", JString ""); ("data", JObject [("a", JString "1")])].
  repeat split; vm_compute; reflexivity.
Qed.

(** C2 (as stated) fails on a handler without a database pool, and it fails
    for a tool whose name is empty: in both cases the reply comes back as it
    is and no tool runs. *)
Lemma tool_call_needs_pool_and_name :
  ~ tool_call_turn_as_stated (world_after 1) without_pool "hi" stateX "X"
      [("a", JString "1")]
  /\ ~ tool_call_turn_as_stated world_unnamed with_pool "hi" stateUnnamed ""
        [("a", JString "1")].
Proof.
  split.
  - intros H.
    destruct (H sessionX_hasTool toolCallX_reply eq_refl 2%nat (le_n 2))
      as (tool & st' & Hrun & _).
    vm_compute in Hrun. discriminate.
  - intros H.
    assert (Htool : hasTool (tools (session stateUnnamed)) "")
      by (exists toolUnnamed; split; [left; reflexivity|reflexivity]).
    destruct (H Htool toolCallUnnamed_reply eq_refl 2%nat (le_n 2))
      as (tool & st' & Hrun & _).
    vm_compute in Hrun. discriminate.
Qed.

(** ** Short utterances are dropped *)

Lemma createSession_timer connectionId agentPrompt agentVoiceId agentModel tools t :
  timer_implies_buffered
    (createSession connectionId agentPrompt agentVoiceId agentModel tools t).
Proof. intros [x Hx]. discriminate. Qed.

Lemma handleIncomingAudio_timer w audioChunk st :
  timer_implies_buffered (session st) ->
  exists st',
    handleIncomingAudio w audioChunk st = (Ret tt, st')
    /\ audioBuffer (session st') = (audioBuffer (session st) ++ [audioChunk])%list
    /\ timer_implies_buffered (session st').
Proof.
  intros Hinv. unfold handleIncomingAudio, try_catch, bind, modify_session,
    of_answer, get_session, now, emit, ret, throw.
  cbn [session with_session trace clock].
  assert (Hne : (audioBuffer (session st) ++ [audioChunk])%list <> [])
    by (destruct (audioBuffer (session st)); discriminate).
  destruct (sumSquares audioChunk) as [sum|e]; cbn beta iota.
  - destruct (isSpeech sum _); cbn [session with_session trace clock].
    + destruct (silenceTimer (session st)) as [id|] eqn:Htimer;
        cbn [silenceTimer set_lastSpeechTime set_audioBuffer];
        rewrite ?Htimer; cbn [session with_session trace clock];
        eexists; (split; [reflexivity|]); (split; [reflexivity|]);
        intros _; exact Hne.
    + destruct (silenceTimer (session st)) as [id|] eqn:Htimer;
        cbn [silenceTimer set_audioBuffer]; rewrite ?Htimer;
        cbn [audioBuffer set_audioBuffer].
      * eexists. split; [reflexivity|]. split; [reflexivity|].
        intros _. exact Hne.
      * destruct (0 <? length (audioBuffer (session st) ++ [audioChunk]))%nat;
          cbn [session with_session trace clock];
          eexists; (split; [reflexivity|]); (split; [reflexivity|]);
          intros _; exact Hne.
  - eexists. split; [reflexivity|]. split; [reflexivity|].
    intros _. exact Hne.
Qed.

(** The invariant asks nothing of a session with a buffered chunk. *)
Lemma buffered_timer s : audioBuffer s <> [] -> timer_implies_buffered s.
Proof. intros Hne _. exact Hne. Qed.

(** C9: a buffered utterance of fewer than 3200 bytes is dropped: the
    operation returns without any call or event (no transcription, no dialog
    turn, nothing sent), and afterwards the audio buffer is empty and the
    silence timer reference is cleared; nothing else of the session
    changes.  The session is any one that keeps a silence timer only while
    audio is buffered: every session with a buffered chunk, and every state a
    session reaches. *)
Theorem processBufferedAudio_short (w : World) (this : Handler) (fuel : nat)
    (st : State) :
  timer_implies_buffered (session st) ->
  (length (Buffer_concat (audioBuffer (session st))) < 3200)%nat ->
  exists s',
    processBufferedAudio w this fuel st
    = (Ret tt, {| session := s'; trace := trace st; clock := clock st |})
    /\ audioBuffer s' = []
    /\ silenceTimer s' = None
    /\ conversationHistory s' = conversationHistory (session st)
    /\ isProcessing s' = isProcessing (session st).
Proof.
  intros Hinv Hshort.
  unfold processBufferedAudio, bind, get_session, modify_session, ret.
  cbn beta iota.
  destruct (audioBuffer (session st)) as [|chunk chunks] eqn:Hbuf.
  - cbn [length Nat.eqb]. exists (session st).
    split; [destruct st; reflexivity|]. split; [exact Hbuf|].
    split; [|split; reflexivity].
    destruct (silenceTimer (session st)) as [id|] eqn:Htimer; [|reflexivity].
    exfalso. apply Hinv; [eexists; exact Htimer|exact Hbuf].
  - cbn [length Nat.eqb]. cbn [session with_session trace clock].
    apply Nat.ltb_lt in Hshort. rewrite Hshort.
    eexists. split; [reflexivity|]. repeat split.
Qed.

Lemma processBufferedAudio_short_witness :
  is_Some (silenceTimer (session stateQuiet))
  /\ audioBuffer (session stateQuiet) = [silentChunk]
  /\ exists s',
       processBufferedAudio world_always with_pool 0 stateQuiet
       = (Ret tt, {| session := s'; trace := trace stateQuiet;
                     clock := clock stateQuiet |})
       /\ audioBuffer s' = []
       /\ silenceTimer s' = None
       /\ conversationHistory s' = conversationHistory (session stateQuiet)
       /\ isProcessing s' = isProcessing (session stateQuiet).
Proof.
  split; [eexists; vm_compute; reflexivity|].
  split; [vm_compute; reflexivity|].
  apply processBufferedAudio_short.
  - intros _. vm_compute. discriminate.
  - vm_compute. lia.
Defined.

(** ** The timer invariant holds in every state a session reaches *)

Lemma same_audio_refl s : same_audio s s.
Proof. split; reflexivity. Qed.

Lemma same_audio_trans s1 s2 s3 :
  same_audio s1 s2 -> same_audio s2 s3 -> same_audio s1 s3.
Proof. intros [H1 H2] [H3 H4]. split; congruence. Qed.

Lemma addTokens_audio response s : same_audio s (addTokens response s).
Proof.
  unfold addTokens, same_audio.
  destruct (inputTokens response) as [n|], (outputTokens response) as [m|];
    destruct_ifs; split; reflexivity.
Qed.

Lemma afterTool_audio w input response tool tool_v data_v st :
  same_audio (session st)
    (session (afterTool w input response tool tool_v data_v st)).
Proof.
  unfold afterTool. rewrite executeTool_state. cbn [snd].
  rewrite appendToContext_run. cbn [snd session with_session].
  eapply same_audio_trans; [apply (addTokens_audio response)|].
  split; reflexivity.
Qed.

Lemma callLLM_audio w this : forall fuel input st,
  same_audio (session st) (session (snd (callLLM w this fuel input st))).
Proof.
  induction fuel as [|fuel IH]; intros input st; [apply same_audio_refl|].
  rewrite callLLM_step.
  destruct (generateContent w _) as [response|]; [|apply same_audio_refl].
  destruct (text response) as [t|]; [|apply same_audio_refl].
  cbn zeta.
  destruct (toolCallOf this _ t) as [[[tool tool_v] data_v]|].
  - fold (afterTool w input response tool tool_v data_v st).
    pose proof (IH continuation (afterTool w input response tool tool_v data_v st))
      as Hrec.
    pose proof (afterTool_audio w input response tool tool_v data_v st) as Hst.
    destruct (callLLM w this fuel continuation _) as [[r| |] st5];
      cbn [snd] in *; eapply same_audio_trans; eassumption.
  - cbn [snd session with_session]. apply addTokens_audio.
Qed.

(** ** Operations that keep a relation between the states *)

Section Keeps.

Context (R : State -> State -> Prop).
Hypothesis R_refl : forall st, R st st.
Hypothesis R_trans : forall a b c, R a b -> R b c -> R a c.

Lemma keeps_ret {A} (a : A) : keeps R (ret a).
Proof. intros st. apply R_refl. Qed.

Lemma keeps_throw {A} e : keeps R (@throw A e).
Proof. intros st. apply R_refl. Qed.

Lemma keeps_of_answer {A} (a : answer A) : keeps R (of_answer a).
Proof. destruct a; [apply keeps_ret|apply keeps_throw]. Qed.

Lemma keeps_get_session : keeps R get_session.
Proof. intros st. apply R_refl. Qed.

Lemma keeps_bind {A B} (m : M A) (k : A -> M B) :
  keeps R m -> (forall a, keeps R (k a)) -> keeps R (bind m k).
Proof.
  intros Hm Hk st. unfold bind. specialize (Hm st).
  destruct (m st) as [[a|e|] st1]; cbn [snd] in *; [|exact Hm|exact Hm].
  exact (R_trans _ _ _ Hm (Hk a st1)).
Qed.

Lemma keeps_try_catch {A} (m : M A) (h : exn -> M A) :
  keeps R m -> (forall e, keeps R (h e)) -> keeps R (try_catch m h).
Proof.
  intros Hm Hh st. unfold try_catch. specialize (Hm st).
  destruct (m st) as [[a|e|] st1]; cbn [snd] in *; [exact Hm| |exact Hm].
  exact (R_trans _ _ _ Hm (Hh e st1)).
Qed.

Lemma keeps_try_finally {A} (m : M A) (fin : M unit) :
  keeps R m -> keeps R fin -> keeps R (try_finally m fin).
Proof.
  intros Hm Hfin st. unfold try_finally. specialize (Hm st).
  destruct (m st) as [[a|e|] st1]; cbn [snd] in *; [| |exact Hm];
    specialize (Hfin st1); destruct (fin st1) as [[u|e'|] st2]; cbn [snd] in *;
    exact (R_trans _ _ _ Hm Hfin).
Qed.

(** What follows an operation keeps the relation with the state in which
    the operation ended. *)
Lemma after_bind {A B} (m : M A) (k : A -> M B) st :
  (forall a, keeps R (k a)) -> R (snd (m st)) (snd (bind m k st)).
Proof.
  intros Hk. unfold bind.
  destruct (m st) as [[a|e|] st1]; cbn [snd]; [apply Hk|apply R_refl|apply R_refl].
Qed.

Lemma after_try_catch {A} (m : M A) (h : exn -> M A) st :
  (forall e, keeps R (h e)) -> R (snd (m st)) (snd (try_catch m h st)).
Proof.
  intros Hh. unfold try_catch.
  destruct (m st) as [[a|e|] st1]; cbn [snd]; [apply R_refl|apply Hh|apply R_refl].
Qed.

Lemma after_try_finally {A} (m : M A) (fin : M unit) st :
  keeps R fin -> R (snd (m st)) (snd (try_finally m fin st)).
Proof.
  intros Hfin. unfold try_finally.
  destruct (m st) as [[a|e|] st1]; cbn [snd]; [| |apply R_refl];
    specialize (Hfin st1); destruct (fin st1) as [[u|e'|] st2]; exact Hfin.
Qed.

Lemma keeps_for_each {A} (l : list A) (body : A -> M unit) :
  (forall x, keeps R (body x)) -> keeps R (for_each l body).
Proof.
  intros Hbody. induction l as [|x l IH]; simpl; [apply keeps_ret|].
  apply keeps_bind; [apply Hbody|intros _; exact IH].
Qed.

End Keeps.

Lemma keeps_call {A} R p (script : nat -> answer A) e :
  (forall st, R st (add_event e st)) -> keeps R (call p script e).
Proof.
  intros He st. unfold call. specialize (He st). unfold add_event in He.
  destruct (script _); exact He.
Qed.

Lemma keeps_emit R e : (forall st, R st (add_event e st)) -> keeps R (emit e).
Proof. intros He st. exact (He st). Qed.

Lemma keeps_modify_session R f :
  (forall st, R st (with_session (f (session st)) st)) ->
  keeps R (modify_session f).
Proof. intros Hf st. exact (Hf st). Qed.

(** The structure of an operation, taken apart down to its steps. *)
Ltac keeps_structure R_refl R_trans :=
  repeat (intros; cbv beta zeta;
    lazymatch goal with
    | |- keeps _ (bind _ _) => apply (keeps_bind _ R_trans)
    | |- keeps _ (try_catch _ _) => apply (keeps_try_catch _ R_trans)
    | |- keeps _ (try_finally _ _) => apply (keeps_try_finally _ R_trans)
    | |- keeps _ (ret _) => apply (keeps_ret _ R_refl)
    | |- keeps _ (throw _) => apply (keeps_throw _ R_refl)
    | |- keeps _ (of_answer _) => apply (keeps_of_answer _ R_refl)
    | |- keeps _ get_session => apply (keeps_get_session _ R_refl)
    | |- keeps _ (if ?c then _ else _) => destruct c
    | |- keeps _ (match ?x with _ => _ end) => destruct x
    end).

(** *** The turn pipeline keeps what its steps keep *)

Section Pipeline.

Context (w : World) (this : Handler) (R : State -> State -> Prop).
Hypothesis R_refl : forall st, R st st.
Hypothesis R_trans : forall a b c, R a b -> R b c -> R a c.
Hypothesis R_event :
  forall e st, is_generateContent e = false -> is_executeTool e = false ->
               R st (add_event e st).
Hypothesis R_isProcessing :
  forall b st, R st (with_session (set_isProcessing b (session st)) st).
Hypothesis R_appendToContext :
  forall content role, keeps R (appendToContext w content role).
Hypothesis R_callLLM : forall fuel input, keeps R (callLLM w this fuel input).

Lemma keeps_send msg : keeps R (send w msg).
Proof. apply keeps_call. intros st. apply R_event; reflexivity. Qed.

Lemma keeps_fetch url method headers body :
  keeps R (call is_fetch (fetch w) (EvFetch url method headers body)).
Proof. apply keeps_call. intros st. apply R_event; reflexivity. Qed.

Lemma keeps_synthesizeElevenLabsTTS text : keeps R (synthesizeElevenLabsTTS w this text).
Proof.
  unfold synthesizeElevenLabsTTS. keeps_structure R_refl R_trans;
    intros; first [apply keeps_send|apply keeps_fetch].
Qed.

Lemma keeps_synthesizeSarvamTTS text : keeps R (synthesizeSarvamTTS w this text).
Proof.
  unfold synthesizeSarvamTTS. keeps_structure R_refl R_trans;
    intros; first [apply keeps_send|apply keeps_fetch].
Qed.

Lemma keeps_synthesizeAndStreamTTS text : keeps R (synthesizeAndStreamTTS w this text).
Proof.
  unfold synthesizeAndStreamTTS. keeps_structure R_refl R_trans;
    intros; first [apply keeps_send|apply keeps_synthesizeElevenLabsTTS
          |apply keeps_synthesizeSarvamTTS].
Qed.

Lemma keeps_processUserInput fuel input :
  keeps R (processUserInput w this fuel input).
Proof.
  unfold processUserInput. keeps_structure R_refl R_trans;
    intros; first [apply keeps_send|apply keeps_synthesizeAndStreamTTS
          |apply R_appendToContext|apply R_callLLM
          |apply keeps_modify_session; intros st; apply R_isProcessing].
Qed.

(** From an idle session, [processUserInput] is the dialog turn followed
    by steps that keep the relation. *)
Lemma processUserInput_after_callLLM fuel input st :
  isProcessing (session st) = false ->
  R (snd (callLLM w this fuel input
            (with_session (set_isProcessing true (session st)) st)))
    (snd (processUserInput w this fuel input st)).
Proof.
  intros Hfree. unfold processUserInput, bind at 1, get_session at 1.
  cbn beta iota. rewrite Hfree. unfold bind at 1, modify_session at 1.
  cbn beta iota.
  eapply R_trans; [|apply (after_try_finally _ R_refl)].
  - eapply R_trans; [|apply (after_try_catch _ R_refl)].
    + apply (after_bind _ R_refl). intros response.
      keeps_structure R_refl R_trans;
        intros; first [apply keeps_send|apply keeps_synthesizeAndStreamTTS
                      |apply R_appendToContext].
    + intros e. apply keeps_send.
  - apply keeps_modify_session. intros st'. apply R_isProcessing.
Qed.

Lemma keeps_transcribe wav :
  keeps R (call is_transcribe (transcribe w) (EvTranscribe wav)).
Proof. apply keeps_call. intros st. apply R_event; reflexivity. Qed.

(** What [processBufferedAudio] does once it has taken the buffer. *)
Lemma keeps_transcription fuel completeBuffer :
  keeps R
    (try_catch
       (wavBuffer <- of_answer (createWavHeader completeBuffer) ;;
        transcript <- call is_transcribe (transcribe w) (EvTranscribe wavBuffer) ;;
        if negb (String.eqb transcript "")
           && negb (String.eqb (Str.trim transcript) "")
        then
          send w (WsTranscript transcript true) ;;
          appendToContext w transcript user ;;
          processUserInput w this fuel transcript
        else ret tt)
       (fun _ => send w (WsError "Speech recognition failed"))).
Proof.
  keeps_structure R_refl R_trans;
    intros; first [apply keeps_send|apply keeps_transcribe|apply R_appendToContext
          |apply keeps_processUserInput].
Qed.

End Pipeline.

Lemma processUserInput_audio w this fuel input st :
  same_audio (session st)
    (session (snd (processUserInput w this fuel input st))).
Proof.
  apply (keeps_processUserInput w this (kept same_audio)).
  - intros st'. apply same_audio_refl.
  - intros a b c. apply same_audio_trans.
  - intros e st' _ _. split; reflexivity.
  - intros b st'. split; reflexivity.
  - intros content role st'. rewrite appendToContext_run. split; reflexivity.
  - intros fuel' input' st'. apply callLLM_audio.
Qed.

Lemma processBufferedAudio_timer w this fuel st :
  timer_implies_buffered (session st) ->
  timer_implies_buffered (session (snd (processBufferedAudio w this fuel st))).
Proof.
  intros Hinv. unfold processBufferedAudio, bind, get_session. cbn beta iota.
  destruct (length (audioBuffer (session st)) =? 0)%nat; [exact Hinv|].
  unfold modify_session at 1. cbn beta iota.
  unfold modify_session at 1. cbn beta iota.
  set (st1 := with_session _ _).
  assert (Hnone : silenceTimer (session st1) = None) by reflexivity.
  clearbody st1.
  assert (Hdone : forall s, same_audio (session st1) s -> timer_implies_buffered s).
  { intros s [_ Ht] [x Hx]. rewrite Ht, Hnone in Hx. discriminate. }
  destruct (length _ <? 3200)%nat; [apply Hdone, same_audio_refl|].
  apply Hdone.
  apply (keeps_transcription w this (kept same_audio)).
  - intros st'. apply same_audio_refl.
  - intros a b c. apply same_audio_trans.
  - intros e st' _ _. split; reflexivity.
  - intros b st'. split; reflexivity.
  - intros content role st'. rewrite appendToContext_run. split; reflexivity.
  - intros fuel' input' st'. apply callLLM_audio.
Qed.

Lemma handleInterruption_audio w st :
  same_audio (session st) (session (snd (handleInterruption w st))).
Proof.
  unfold handleInterruption, bind, modify_session, send, call.
  cbn [session with_session trace clock].
  destruct (ws_send w _); split; reflexivity.
Qed.

Lemma reachable_timer w this st :
  reachable w this st -> timer_implies_buffered (session st).
Proof.
  induction 1 as [connectionId agentPrompt agentVoiceId agentModel tools t n
                 |st chunk _ IH|st fuel _ IH _|st _ IH|st fuel input _ IH].
  - apply createSession_timer.
  - destruct (handleIncomingAudio_timer w chunk st IH) as (st' & Hrun & _ & Hinv).
    rewrite Hrun. exact Hinv.
  - apply processBufferedAudio_timer. exact IH.
  - intros Hsome.
    destruct (handleInterruption_audio w st) as [Hbuf Htimer].
    rewrite Hbuf. apply IH. rewrite <- Htimer. exact Hsome.
  - intros Hsome.
    destruct (processUserInput_audio w this fuel input st) as [Hbuf Htimer].
    rewrite Hbuf. apply IH. rewrite <- Htimer. exact Hsome.
Qed.

(** ** The operations on concrete inputs *)

Example JSON_parse_toolCallX :
  JSON_parse toolCallX
  = Answers (JObject [("tool", JString "X"); ("data", JObject [("a", JString "1")])]).
Proof. reflexivity. Qed.

Example JSON_parse_repeated_key :
  JSON_parse (js "{'b': 1, '0': true, 'b': null}")
  = Answers (JObject [("0", JBool true); ("b", JNull)]).
Proof. reflexivity. Qed.

Example JSON_parse_trailing_comma :
  JSON_parse (js "{'tool':'X',}")
  = Raises (SyntaxError "Unexpected token in JSON").
Proof. reflexivity. Qed.

Example JSON_stringify_doubles :
  JSON_stringify
    (JArray [JNumber 9007199254740993 0; JNumber 1 (-1);
             JNumber 30000000000000004 (-17);
             JNumber 123456789012345678901234567890 0; JNumber 5 (-324);
             JNumber 1 (-400); JNumber 2 308])
  = "[9007199254740992,0.1,0.30000000000000004,1.2345678901234568e+29,5e-324,0,null]".
Proof. vm_compute. reflexivity. Qed.

Example JSON_lone_surrogate :
  match JSON_parse (js "['\ud83d', 'a\uDE00b']") with
  | Answers v => JSON_stringify v
  | Raises _ => ""
  end
  = js "['\ud83d','a\ude00b']".
Proof. vm_compute. reflexivity. Qed.

Example JSON_surrogate_pair :
  JSON_parse (js "'\ud83d\ude00'") = Answers (JString (utf8 128512))
  /\ JSON_stringify (JString (utf8 128512))
     = String dquote (utf8 128512 ++ String dquote "").
Proof. split; vm_compute; reflexivity. Qed.

Example JSON_stringify_numbers :
  JSON_stringify
    (JArray [JNumber 1500 (-1); JNumber 1 21; JNumber (-25) (-9); JNumber 0 0])
  = "[150,1e+21,-2.5e-8,0]".
Proof. vm_compute. reflexivity. Qed.

Example cleanText_fenced :
  cleanText (js "```json
{'tool':'X','data':{'a':'1'}}
```
") = toolCallX.
Proof. vm_compute. reflexivity. Qed.

Example toolStatus_X :
  toolStatus (JString "X")
  = js "{'tool':'X','status':'success','message':'Data processing initiated'}".
Proof. vm_compute. reflexivity. Qed.

Example createWavHeader_three_bytes :
  createWavHeader [x01; x02; x03]
  = Answers
      (list_byte_of_string "RIFF" ++ [x27; x00; x00; x00]
       ++ list_byte_of_string "WAVEfmt " ++ [x10; x00; x00; x00]
       ++ [x01; x00] ++ [x01; x00] ++ [x80; x3e; x00; x00]
       ++ [x00; x7d; x00; x00] ++ [x02; x00] ++ [x10; x00]
       ++ list_byte_of_string "data" ++ [x03; x00; x00; x00]
       ++ [x01; x02; x03])%list.
Proof. vm_compute. reflexivity. Qed.

(** Twenty-one appends to a new session leave the last twenty. *)
Example appendAll_twenty_one :
  map content
    (history
       (snd (appendAll world_always
               (map (fun n => (pretty (N.of_nat n), user)) (seq 0 21)) stateX)))
  = map (fun n => pretty (N.of_nat n)) (seq 1 20).
Proof. vm_compute. reflexivity. Qed.

(** The turn of the specification's example: one tool execution and one
    follow-up call, then the plain answer. *)
Example callLLM_toolCallX :
  let run := callLLM (world_after 1) with_pool 2 "hi" stateX in
  fst run = Ret "All done."
  /\ List.filter (fun e => is_callLLM e || is_executeTool e) (trace (snd run))
     = [EvCallLLM "hi"; EvExecuteTool toolX dataA; EvCallLLM continuation]
  /\ map content (history (snd run)) = [toolStatus (JString "X")]
  /\ totalInputTokens (session (snd run)) = 14.
Proof. vm_compute. repeat split; reflexivity. Qed.

(** A short utterance and a long one: only the long one is transcribed. *)
Example processBufferedAudio_long :
  let st := snd (handleIncomingAudio world_always (repeat x00 3200) stateX) in
  count is_transcribe (trace (snd (processBufferedAudio world_always with_pool 0 st)))
  = 1%nat.
Proof. vm_compute. reflexivity. Qed.

Example extraction_missing_field :
  extractionOf toolX (js "I found nothing. {'a': null, 'b': 2}")
  = {| ex_success := false;
       ex_data := JObject [("a", JNull); ("b", JNumber 2 0)];
       ex_missingFields := Some ["a"];
       ex_error := None |}.
Proof. vm_compute. reflexivity. Qed.


(* ================================================================== *)
(** * Further properties                                            *)
(* ================================================================== *)


(** ** Voice activity detection *)

Lemma list_pair_ind {A} (P : list A -> Prop) :
  P [] -> (forall a, P [a]) -> (forall a b l, P l -> P (a :: b :: l)) ->
  forall l, P l.
Proof.
  intros H0 H1 H2 l.
  assert (H : P l /\ forall a, P (a :: l)).
  { induction l as [|b l [IH1 IH2]]; [split; [exact H0|exact H1]|].
    split; [apply IH2|]. intros a. apply H2. exact IH1. }
  apply H.
Qed.

Lemma sumSquares_odd chunk :
  Nat.odd (length chunk) = true ->
  sumSquares chunk
  = Raises (RangeError "Attempt to access memory outside buffer bounds").
Proof.
  induction chunk as [|a|a b l IH] using list_pair_ind; intros Hodd.
  - discriminate.
  - reflexivity.
  - cbn [sumSquares]. rewrite IH; [reflexivity|exact Hodd].
Qed.

Lemma sumSquares_even chunk :
  Nat.even (length chunk) = true ->
  sumSquares chunk = Answers (sumOfSquares (samples chunk))
  /\ Z.of_nat (length chunk) / 2 = Z.of_nat (length (samples chunk)).
Proof.
  induction chunk as [|a|a b l IH] using list_pair_ind; intros Heven.
  - split; reflexivity.
  - discriminate.
  - destruct (IH Heven) as [Hs Hn]. cbn [sumSquares samples]. rewrite Hs.
    split; [reflexivity|].
    cbn [length]. rewrite (Nat2Z.inj_succ (length (samples l))), <- Hn.
    replace (Z.of_nat (S (S (length l)))) with (Z.of_nat (length l) + 1 * 2) by lia.
    rewrite Z.div_add by lia. lia.
Qed.

Lemma quiet_not_speech xs :
  Forall (fun x => Z.abs x <= SILENCE_THRESHOLD) xs ->
  isSpeech (sumOfSquares xs) (Z.of_nat (length xs)) = false.
Proof.
  intros Hq. unfold isSpeech. apply Z.ltb_ge.
  induction Hq as [|x xs Hx _ IH]; [cbn; lia|].
  cbn [sumOfSquares fold_right length]. fold (sumOfSquares xs).
  unfold SILENCE_THRESHOLD in *. nia.
Qed.

Lemma loud_is_speech xs :
  xs <> [] ->
  Forall (fun x => SILENCE_THRESHOLD < Z.abs x) xs ->
  isSpeech (sumOfSquares xs) (Z.of_nat (length xs)) = true.
Proof.
  intros Hne Hl. unfold isSpeech. apply Z.ltb_lt.
  assert (H : SILENCE_THRESHOLD * SILENCE_THRESHOLD * Z.of_nat (length xs)
              + Z.of_nat (length xs) <= sumOfSquares xs).
  { clear Hne. induction Hl as [|x xs Hx _ IH]; [cbn; lia|].
    cbn [sumOfSquares fold_right length]. fold (sumOfSquares xs).
    unfold SILENCE_THRESHOLD in *. nia. }
  destruct xs; [contradiction|]. cbn [length] in *. lia.
Qed.

(** X1: a chunk with an odd number of bytes is buffered, but its
    last 16-bit read falls outside the chunk and throws, which the handler
    swallows: the chunk takes no part in the voice activity detection.  The
    silence timer, the time of the last speech, the trace and the clock are
    as before. *)
Theorem handleIncomingAudio_odd_chunk (w : World) (chunk : list byte) (st : State) :
  Nat.odd (length chunk) = true ->
  handleIncomingAudio w chunk st
  = (Ret tt,
     with_session
       (set_audioBuffer (audioBuffer (session st) ++ [chunk]) (session st)) st).
Proof.
  intros Hodd. unfold handleIncomingAudio, try_catch, bind, modify_session, of_answer.
  cbn beta iota. rewrite (sumSquares_odd chunk Hodd). reflexivity.
Qed.

Lemma handleIncomingAudio_odd_chunk_witness :
  handleIncomingAudio world_always [x01; x02; x03] stateX
  = (Ret tt,
     with_session (set_audioBuffer [[x01; x02; x03]] (session stateX)) stateX).
Proof. apply (handleIncomingAudio_odd_chunk world_always [x01; x02; x03] stateX). reflexivity. Defined.

(** X2: a chunk of whole samples that all lie within the silence
    threshold (absolute value at most 500), the empty chunk included, counts
    as silence: it is buffered, and a silence timer of 1500 ms is started
    when none is pending.  A pending timer is left alone: further silence
    neither restarts nor extends it. *)
Theorem handleIncomingAudio_quiet_chunk (w : World) (chunk : list byte) (st : State) :
  Nat.even (length chunk) = true ->
  Forall (fun x => Z.abs x <= SILENCE_THRESHOLD) (samples chunk) ->
  let s1 := set_audioBuffer (audioBuffer (session st) ++ [chunk]) (session st) in
  handleIncomingAudio w chunk st
  = match silenceTimer (session st) with
    | Some _ => (Ret tt, with_session s1 st)
    | None =>
        let id := count is_setTimeout (trace st) in
        (Ret tt,
         {| session := set_silenceTimer (Some id) s1;
            trace := trace st ++ [EvSetTimeout id 1500];
            clock := clock st |})
    end.
Proof.
  intros Heven Hq s1. destruct (sumSquares_even chunk Heven) as [Hs Hn].
  unfold handleIncomingAudio, try_catch, bind, modify_session, of_answer, get_session.
  cbn beta iota. rewrite Hs. unfold ret at 1. cbn beta iota.
  rewrite Hn, (quiet_not_speech _ Hq).
  cbn [session with_session silenceTimer set_audioBuffer].
  destruct (silenceTimer (session st)) as [id|]; [reflexivity|].
  cbn [audioBuffer set_audioBuffer]. rewrite length_app. cbn [length].
  replace (0 <? length (audioBuffer (session st)) + 1)%nat with true
    by (symmetry; apply Nat.ltb_lt; lia).
  reflexivity.
Qed.

Lemma handleIncomingAudio_quiet_chunk_witness :
  handleIncomingAudio world_always quietChunk stateX
  = (Ret tt,
     {| session :=
          set_silenceTimer (Some 0%nat) (set_audioBuffer [quietChunk] sessionX);
        trace := [EvSetTimeout 0 1500];
        clock := 0 |}).
Proof.
  apply (handleIncomingAudio_quiet_chunk world_always quietChunk stateX).
  - reflexivity.
  - repeat constructor; vm_compute; discriminate.
Defined.

(** X3: a non-empty chunk of whole samples that all exceed the
    silence threshold counts as speech: it is buffered, the time of the last
    speech becomes the current time, and a pending silence timer is cleared
    and forgotten. *)
Theorem handleIncomingAudio_loud_chunk (w : World) (chunk : list byte) (st : State) :
  Nat.even (length chunk) = true ->
  chunk <> [] ->
  Forall (fun x => SILENCE_THRESHOLD < Z.abs x) (samples chunk) ->
  let s1 :=
    set_lastSpeechTime (Date_now w (clock st))
      (set_audioBuffer (audioBuffer (session st) ++ [chunk]) (session st)) in
  handleIncomingAudio w chunk st
  = match silenceTimer (session st) with
    | Some id =>
        (Ret tt,
         {| session := set_silenceTimer None s1;
            trace := trace st ++ [EvClearTimeout id];
            clock := S (clock st) |})
    | None =>
        (Ret tt, {| session := s1; trace := trace st; clock := S (clock st) |})
    end.
Proof.
  intros Heven Hne Hl s1. destruct (sumSquares_even chunk Heven) as [Hs Hn].
  assert (Hne' : samples chunk <> []).
  { destruct chunk as [|a [|b l]]; [contradiction|discriminate|discriminate]. }
  unfold handleIncomingAudio, try_catch, bind, modify_session, of_answer, get_session.
  cbn beta iota. rewrite Hs. unfold ret at 1. cbn beta iota.
  rewrite Hn, (loud_is_speech _ Hne' Hl).
  unfold now. cbn [session with_session silenceTimer set_audioBuffer set_lastSpeechTime
                     trace clock].
  destruct (silenceTimer (session st)) as [id|]; reflexivity.
Qed.

Lemma handleIncomingAudio_loud_chunk_witness :
  handleIncomingAudio world_always loudChunk stateQuiet
  = (Ret tt,
     {| session :=
          set_silenceTimer None
            (set_lastSpeechTime 1000
               (set_audioBuffer [silentChunk; loudChunk] (session stateQuiet)));
        trace := [EvSetTimeout 0 1500; EvClearTimeout 0];
        clock := 1 |}).
Proof.
  apply (handleIncomingAudio_loud_chunk world_always loudChunk stateQuiet).
  - reflexivity.
  - discriminate.
  - repeat constructor.
Defined.


(** ** Speech synthesis *)

Example base64_examples :
  map Speech.base64
    [ []; list_byte_of_string "f"; list_byte_of_string "fo";
      list_byte_of_string "foo"; list_byte_of_string "foobar" ]
  = [ ""; "Zg=="; "Zm8="; "Zm9v"; "Zm9vYmFy" ].
Proof. vm_compute. reflexivity. Qed.

Example getVoiceProvider_examples :
  map Speech.getVoiceProvider ["meera"; "Meera"; "x-sarvam-1"; "21m00Tcm4TlvDq8ikWAM"; "default"; "SARVAM"]
  = ["sarvam"; "sarvam"; "sarvam"; "elevenlabs"; "elevenlabs"; "elevenlabs"].
Proof. vm_compute. reflexivity. Qed.

(** A send records the message and ends as the socket answers. *)
Lemma send_run w msg st :
  send w msg st
  = (outcome (ws_send w (count is_send (trace st))), add_event (EvSend msg) st).
Proof.
  unfold send, call, outcome, add_event.
  destruct (ws_send w _) as [[]|e]; reflexivity.
Qed.

Lemma send_accepted w msg st :
  ws_send w (count is_send (trace st)) = Answers tt ->
  send w msg st = (Ret tt, add_event (EvSend msg) st).
Proof. intros H. rewrite send_run, H. reflexivity. Qed.

Lemma synthesizeElevenLabsTTS_run w this text st :
  str_truthy (elevenLabsApiKey this) = true ->
  let req := elevenLabsRequest this (agentVoiceId (session st)) text in
  match elevenLabsClip (fetch w (count is_fetch (trace st))) with
  | Some clip =>
      synthesizeElevenLabsTTS w this text st
      = (outcome (ws_send w (count is_send (trace st))),
         add_events [req; EvSend (WsAudio clip "mp3")] st)
  | None =>
      exists e, synthesizeElevenLabsTTS w this text st
                = (Throw e, add_events [req] st)
  end.
Proof.
  intros Hkey req. subst req.
  unfold synthesizeElevenLabsTTS, elevenLabsClip, try_catch, bind,
    get_session, of_answer, throw, ret, add_events, elevenLabsRequest.
  rewrite Hkey. cbn [negb]. unfold call. cbn [session trace clock].
  destruct (fetch w _) as [response|e]; [|eexists; reflexivity].
  destruct (ok response); cbn [negb]; [|eexists; reflexivity].
  destruct (body_buffer response) as [audioBuffer|e];
    [|eexists; reflexivity].
  rewrite send_run. unfold add_event. cbn [trace session clock].
  rewrite count_snoc. cbn [is_send]. rewrite Nat.add_0_r, <- app_assoc.
  destruct (ws_send w _) as [[]|e]; reflexivity.
Qed.

Lemma synthesizeSarvamTTS_run w this text st :
  str_truthy (sarvamApiKey this) = true ->
  let req := sarvamRequest this (agentVoiceId (session st)) text in
  match sarvamClip (fetch w (count is_fetch (trace st))) with
  | Some clip =>
      synthesizeSarvamTTS w this text st
      = (outcome (ws_send w (count is_send (trace st))),
         add_events [req; EvSend (WsAudio clip "wav")] st)
  | None =>
      exists e, synthesizeSarvamTTS w this text st
                = (Throw e, add_events [req] st)
  end.
Proof.
  intros Hkey req. subst req.
  unfold synthesizeSarvamTTS, sarvamClip, try_catch, bind,
    get_session, of_answer, throw, ret, add_events, sarvamRequest.
  rewrite Hkey. cbn [negb]. unfold call. cbn [session trace clock].
  destruct (fetch w _) as [response|e]; [|eexists; reflexivity].
  destruct (ok response); cbn [negb].
  - destruct (body_json response) as [data|e]; [|eexists; reflexivity].
    destruct (Speech.audios data) as [[|base64Audio rest]|];
      try (eexists; reflexivity).
    rewrite send_run. unfold add_event. cbn [trace session clock].
    rewrite count_snoc. cbn [is_send]. rewrite Nat.add_0_r, <- app_assoc.
    destruct (ws_send w _) as [[]|e]; reflexivity.
  - destruct (body_text response) as [errorText|e]; eexists; reflexivity.
Qed.

Lemma getVoiceProvider_cases voiceId :
  Speech.getVoiceProvider voiceId = "sarvam"
  \/ Speech.getVoiceProvider voiceId = "elevenlabs".
Proof. unfold Speech.getVoiceProvider. destruct (_ || _); [left|right]; reflexivity. Qed.

Lemma provider_eqb voiceId :
  String.eqb (Speech.getVoiceProvider voiceId) "elevenlabs"
  = negb (isSarvam voiceId).
Proof.
  unfold isSarvam.
  destruct (getVoiceProvider_cases voiceId) as [Hp|Hp]; rewrite Hp; reflexivity.
Qed.

(** What a provider's operation leaves to [synthesizeAndStreamTTS]: after
    the requests [reqs] it sent the audio, or it threw before any send. *)
Lemma speech_fallback w (m : M unit) st reqs (audio : option WsEvent) :
  count is_send reqs = 0%nat ->
  match audio with
  | Some msg =>
      m st = (outcome (ws_send w (count is_send (trace st))),
              add_events (reqs ++ [EvSend msg]) st)
  | None => exists e, m st = (Throw e, add_events reqs st)
  end ->
  try_catch m (fun _ => send w speechError) st
  = (speechOutcome w audio (count is_send (trace st)),
     add_events (reqs ++ map EvSend (speechMessages w audio (count is_send (trace st)))) st).
Proof.
  intros Hreqs Hm. unfold try_catch, speechOutcome, speechMessages.
  destruct audio as [msg|].
  - rewrite Hm. destruct (ws_send w (count is_send (trace st))) as [[]|e];
      cbn [outcome]; [reflexivity|].
    rewrite send_run. unfold add_events, add_event.
    cbn [trace session clock map].
    replace (count is_send (trace st ++ reqs ++ [EvSend msg]))
      with (S (count is_send (trace st)))
      by (rewrite !count_app, Hreqs; unfold count; simpl; lia).
    rewrite <- !app_assoc. reflexivity.
  - destruct Hm as [e Hm]. rewrite Hm, send_run. unfold add_events, add_event.
    cbn [trace session clock map].
    replace (count is_send (trace st ++ reqs)) with (count is_send (trace st))
      by (rewrite count_app, Hreqs; lia).
    rewrite <- app_assoc. reflexivity.
Qed.

Lemma synthesizeAndStreamTTS_run w this text st :
  let voiceId := agentVoiceId (session st) in
  let audio := speechAudio w this voiceId (count is_fetch (trace st)) in
  let m := count is_send (trace st) in
  synthesizeAndStreamTTS w this text st
  = (speechOutcome w audio m,
     add_events (speechRequests this voiceId text
                 ++ map EvSend (speechMessages w audio m)) st).
Proof.
  intros voiceId audio m. subst voiceId audio m.
  unfold synthesizeAndStreamTTS, speechAudio, speechRequests.
  match goal with
  | |- try_catch ?body _ _ = _ =>
      change body with
        (fun st' : State =>
           (if String.eqb (Speech.getVoiceProvider (agentVoiceId (session st')))
                 "elevenlabs"
            then synthesizeElevenLabsTTS w this text
            else if String.eqb (Speech.getVoiceProvider (agentVoiceId (session st')))
                      "sarvam"
                 then synthesizeSarvamTTS w this text
                 else ret tt) st')
  end.
  destruct (isSarvam (agentVoiceId (session st))) eqn:Hp.
  - destruct (str_truthy (sarvamApiKey this)) eqn:Hkey.
    + pose proof (synthesizeSarvamTTS_run w this text st Hkey) as Hrun.
      cbn zeta in Hrun.
      apply (speech_fallback w _ st [sarvamRequest this _ text]
               (option_map (fun clip => WsAudio clip "wav")
                  (sarvamClip (fetch w (count is_fetch (trace st)))))).
      * reflexivity.
      * cbv beta. rewrite provider_eqb, Hp. cbn [negb]. unfold isSarvam in Hp.
        rewrite Hp. destruct (sarvamClip _); exact Hrun.
    + apply (speech_fallback w _ st [] None); [reflexivity|].
      cbv beta. rewrite provider_eqb, Hp. cbn [negb]. unfold isSarvam in Hp.
      rewrite Hp. unfold synthesizeSarvamTTS, try_catch, throw. rewrite Hkey.
      eexists. unfold add_events. rewrite app_nil_r. destruct st; reflexivity.
  - destruct (str_truthy (elevenLabsApiKey this)) eqn:Hkey.
    + pose proof (synthesizeElevenLabsTTS_run w this text st Hkey) as Hrun.
      cbn zeta in Hrun.
      apply (speech_fallback w _ st [elevenLabsRequest this _ text]
               (option_map (fun clip => WsAudio clip "mp3")
                  (elevenLabsClip (fetch w (count is_fetch (trace st)))))).
      * reflexivity.
      * cbv beta. rewrite provider_eqb, Hp. cbn [negb].
        destruct (elevenLabsClip _); exact Hrun.
    + apply (speech_fallback w _ st [] None); [reflexivity|].
      cbv beta. rewrite provider_eqb, Hp. cbn [negb].
      unfold synthesizeElevenLabsTTS, try_catch, throw. rewrite Hkey.
      eexists. unfold add_events. rewrite app_nil_r. destruct st; reflexivity.
Qed.

(** On a socket that takes the message, the synthesis returns. *)
Lemma synthesizeAndStreamTTS_accepted w this text st :
  ws_send w (count is_send (trace st)) = Answers tt ->
  synthesizeAndStreamTTS w this text st
  = (Ret tt,
     add_events (speechEvents w this (agentVoiceId (session st)) text
                   (count is_fetch (trace st))) st).
Proof.
  intros Hsend. rewrite synthesizeAndStreamTTS_run. cbn zeta.
  unfold speechOutcome, speechMessages, speechEvents. rewrite Hsend.
  destruct (speechAudio w this _ _); reflexivity.
Qed.

(** X21: every speech synthesis makes at most one HTTP request (a POST) and
    hands the socket one message, an audio clip (mp3 or wav) or the error
    [Failed to generate speech]; a second message, that error, follows only
    when the socket refused the clip.  The synthesis returns when the socket
    took the last of these messages and throws the socket's exception
    otherwise; nothing else escapes it.  In particular the branch for an
    unknown provider is never taken. *)
Theorem synthesizeAndStreamTTS_messages (w : World) (this : Handler)
    (text : string) (st : State) :
  let m := count is_send (trace st) in
  exists reqs msgs,
    synthesizeAndStreamTTS w this text st
    = (outcome (ws_send w (m + length msgs - 1)),
       add_events (reqs ++ map EvSend msgs) st)
    /\ (reqs = [] \/ exists url headers body, reqs = [EvFetch url "POST" headers body])
    /\ (msgs = [speechError]
        \/ exists clip format,
             (format = "mp3" \/ format = "wav")
             /\ (msgs = [WsAudio clip format] /\ ws_send w m = Answers tt
                 \/ msgs = [WsAudio clip format; speechError]
                    /\ exists e, ws_send w m = Raises e)).
Proof.
  intros m. subst m. rewrite synthesizeAndStreamTTS_run. cbn zeta.
  set (m := count is_send (trace st)).
  exists (speechRequests this (agentVoiceId (session st)) text).
  exists (speechMessages w (speechAudio w this (agentVoiceId (session st))
                              (count is_fetch (trace st))) m).
  split; [|split].
  - f_equal. unfold speechOutcome, speechMessages.
    destruct (speechAudio w this _ _) as [msg|].
    + destruct (ws_send w m) as [[]|e] eqn:Hm; cbn [length].
      * replace (m + 1 - 1)%nat with m by lia. rewrite Hm. reflexivity.
      * replace (m + 2 - 1)%nat with (S m) by lia. reflexivity.
    + cbn [length]. replace (m + 1 - 1)%nat with m by lia. reflexivity.
  - unfold speechRequests, sarvamRequest, elevenLabsRequest.
    destruct_ifs; eauto.
  - unfold speechMessages, speechAudio.
    destruct (isSarvam _);
      [destruct (str_truthy (sarvamApiKey this))
      |destruct (str_truthy (elevenLabsApiKey this))];
      try (left; reflexivity).
    + destruct (sarvamClip _) as [clip|]; cbn [option_map]; [|left; reflexivity].
      right. exists clip, "wav". split; [right; reflexivity|].
      destruct (ws_send w m) as [[]|e]; [left|right]; split; try reflexivity.
      exists e. reflexivity.
    + destruct (elevenLabsClip _) as [clip|]; cbn [option_map];
        [|left; reflexivity].
      right. exists clip, "mp3". split; [left; reflexivity|].
      destruct (ws_send w m) as [[]|e]; [left|right]; split; try reflexivity.
      exists e. reflexivity.
Qed.

(** X22: a voice of the Sarvam provider with its key configured and a 2xx
    answer that holds clips hands the socket the first clip as wav, after
    one request to the Sarvam endpoint with the voice as speaker; any other
    voice with the ElevenLabs key configured and a 2xx answer hands it the
    answer's bytes, base64 encoded, as mp3, after one request to the
    endpoint of that voice.  When the socket takes the clip the synthesis
    returns; when it refuses the clip, the speech error follows and the
    synthesis ends as the socket answers that one. *)
Theorem synthesizeAndStreamTTS_clip (w : World) (this : Handler) (text : string)
    (st : State) :
  let voiceId := agentVoiceId (session st) in
  let answer := fetch w (count is_fetch (trace st)) in
  let m := count is_send (trace st) in
  let run := synthesizeAndStreamTTS w this text st in
  (Speech.getVoiceProvider voiceId = "sarvam" ->
   str_truthy (sarvamApiKey this) = true ->
   forall response data base64Audio rest,
     answer = Answers response -> 200 <= status response < 300 ->
     body_json response = Answers data ->
     Speech.audios data = Some (base64Audio :: rest) ->
     (ws_send w m = Answers tt ->
      run = (Ret tt,
             add_events [sarvamRequest this voiceId text;
                         EvSend (WsAudio base64Audio "wav")] st))
     /\ (forall e, ws_send w m = Raises e ->
         run = (outcome (ws_send w (S m)),
                add_events [sarvamRequest this voiceId text;
                            EvSend (WsAudio base64Audio "wav");
                            EvSend (WsError "Failed to generate speech")] st)))
  /\ (Speech.getVoiceProvider voiceId = "elevenlabs" ->
      str_truthy (elevenLabsApiKey this) = true ->
      forall response audioBuffer,
        answer = Answers response -> 200 <= status response < 300 ->
        body_buffer response = Answers audioBuffer ->
        (ws_send w m = Answers tt ->
         run = (Ret tt,
                add_events [elevenLabsRequest this voiceId text;
                            EvSend (WsAudio (Speech.base64 audioBuffer) "mp3")] st))
        /\ (forall e, ws_send w m = Raises e ->
            run = (outcome (ws_send w (S m)),
                   add_events [elevenLabsRequest this voiceId text;
                               EvSend (WsAudio (Speech.base64 audioBuffer) "mp3");
                               EvSend (WsError "Failed to generate speech")] st))).
Proof.
  intros voiceId answer m run. subst voiceId answer m run.
  rewrite synthesizeAndStreamTTS_run. cbv zeta.
  unfold speechOutcome, speechMessages, speechRequests, speechAudio, isSarvam.
  split.
  - intros Hp Hkey response data base64Audio rest Ha Hok Hjson Haudios.
    rewrite Hp, Hkey. cbn [String.eqb Ascii.eqb Bool.eqb andb].
    unfold sarvamClip, ok. rewrite Ha, Hjson, Haudios.
    replace ((200 <=? status response) && (status response <? 300))
      with true by (symmetry; apply andb_true_intro; split; lia).
    cbn [option_map]. split.
    + intros Hsend. rewrite Hsend. reflexivity.
    + intros e Hsend. rewrite Hsend. reflexivity.
  - intros Hp Hkey response audioBuffer Ha Hok Hbuf.
    rewrite Hp, Hkey. cbn [String.eqb Ascii.eqb Bool.eqb andb].
    unfold elevenLabsClip, ok. rewrite Ha, Hbuf.
    replace ((200 <=? status response) && (status response <? 300))
      with true by (symmetry; apply andb_true_intro; split; lia).
    cbn [option_map]. split.
    + intros Hsend. rewrite Hsend. reflexivity.
    + intros e Hsend. rewrite Hsend. reflexivity.
Qed.

Lemma synthesizeAndStreamTTS_clip_witness :
  synthesizeAndStreamTTS world_always with_pool "All done." stateX
  = (Ret tt,
     add_events [sarvamRequest with_pool "meera" "All done.";
                 EvSend (WsAudio "UklGRg==" "wav")] stateX).
Proof.
  refine (proj1 (proj1 (synthesizeAndStreamTTS_clip world_always with_pool
                          "All done." stateX)
                   _ _ (respond 200) {| Speech.audios := Some ["UklGRg=="] |}
                   "UklGRg==" [] _ _ _ _) _).
  - reflexivity.
  - reflexivity.
  - reflexivity.
  - cbn. lia.
  - reflexivity.
  - reflexivity.
  - reflexivity.
Defined.

(** X23: when the key of the provider that the voice belongs to is not
    configured, no HTTP request is made and the socket is handed the speech
    error, and nothing else; the synthesis returns when the socket takes it
    and throws what the socket throws otherwise. *)
Theorem synthesizeAndStreamTTS_without_key (w : World) (this : Handler)
    (text : string) (st : State) :
  str_truthy (if String.eqb (Speech.getVoiceProvider (agentVoiceId (session st))) "sarvam"
              then sarvamApiKey this else elevenLabsApiKey this) = false ->
  synthesizeAndStreamTTS w this text st
  = (outcome (ws_send w (count is_send (trace st))),
     add_events [EvSend (WsError "Failed to generate speech")] st).
Proof.
  intros Hkey. rewrite synthesizeAndStreamTTS_run. cbn zeta.
  unfold speechOutcome, speechMessages, speechRequests, speechAudio, isSarvam.
  destruct (String.eqb _ "sarvam"); rewrite Hkey; reflexivity.
Qed.

Lemma synthesizeAndStreamTTS_without_key_witness :
  synthesizeAndStreamTTS world_always without_keys "All done." stateX
  = (Ret tt, add_events [EvSend (WsError "Failed to generate speech")] stateX).
Proof.
  apply (synthesizeAndStreamTTS_without_key world_always without_keys "All done."
           stateX).
  vm_compute. reflexivity.
Defined.

(** ** From the buffered audio to the dialog turn *)

Lemma extends_refl st : extends st st.
Proof. exists []. rewrite app_nil_r. reflexivity. Qed.

Lemma extends_same st st' : trace st' = trace st -> extends st st'.
Proof. intros H. exists []. rewrite H, app_nil_r. reflexivity. Qed.

Lemma extends_trans a b c : extends a b -> extends b c -> extends a c.
Proof.
  intros [r1 H1] [r2 H2]. exists (r1 ++ r2)%list.
  rewrite H2, H1, <- app_assoc. reflexivity.
Qed.

Lemma extends_event e st : extends st (add_event e st).
Proof. exists [e]. reflexivity. Qed.

Lemma callLLM_trace_extends w this : forall fuel input st,
  exists rest, trace (snd (callLLM w this fuel input st)) = (trace st ++ rest)%list.
Proof.
  induction fuel as [|fuel IH]; intros input st.
  - exists []. rewrite app_nil_r. reflexivity.
  - rewrite callLLM_step.
    assert (Hcalled : forall s,
              trace (with_session s (called input st))
              = (trace st ++ [EvCallLLM input; generateRequest (session st)])%list).
    { intros s. cbn [trace with_session called add_event].
      rewrite <- app_assoc. reflexivity. }
    destruct (generateContent w _) as [response|];
      [|eexists; apply (Hcalled (session (called input st)))].
    destruct (text response) as [t|];
      [|eexists; apply (Hcalled (session (called input st)))].
    cbn zeta.
    destruct (toolCallOf this _ t) as [[[tool tool_v] data_v]|];
      [|eexists; apply Hcalled].
    fold (afterTool w input response tool tool_v data_v st).
    destruct (IH continuation (afterTool w input response tool tool_v data_v st))
      as [rest Hrest].
    rewrite afterTool_trace in Hrest.
    destruct (callLLM w this fuel continuation _) as [[r| |] st5];
      cbn [snd] in *; rewrite Hrest, <- app_assoc; eexists; reflexivity.
Qed.

Lemma callLLM_trace_first w this fuel input st :
  exists rest,
    trace (snd (callLLM w this (S fuel) input st))
    = (trace st ++ EvCallLLM input :: generateRequest (session st) :: rest)%list.
Proof.
  rewrite callLLM_step.
  assert (Hcalled : forall s,
            trace (with_session s (called input st))
            = (trace st ++ [EvCallLLM input; generateRequest (session st)])%list).
  { intros s. cbn [trace with_session called add_event].
    rewrite <- app_assoc. reflexivity. }
  destruct (generateContent w _) as [response|];
    [|exists []; apply (Hcalled (session (called input st)))].
  destruct (text response) as [t|];
    [|exists []; apply (Hcalled (session (called input st)))].
  cbn zeta.
  destruct (toolCallOf this _ t) as [[[tool tool_v] data_v]|];
    [|exists []; apply Hcalled].
  fold (afterTool w input response tool tool_v data_v st).
  destruct (callLLM_trace_extends w this fuel continuation
              (afterTool w input response tool tool_v data_v st)) as [rest Hrest].
  rewrite afterTool_trace in Hrest.
  destruct (callLLM w this fuel continuation _) as [[r| |] st5];
    cbn [snd] in *; rewrite Hrest, <- app_assoc; eexists; reflexivity.
Qed.

(** Every operation of the pipeline only adds to the trace. *)
Lemma send_extends w msg : keeps extends (send w msg).
Proof. intros st. rewrite send_run. apply extends_event. Qed.

Lemma processUserInput_extends w this fuel input st :
  extends st (snd (processUserInput w this fuel input st)).
Proof.
  apply (keeps_processUserInput w this extends extends_refl extends_trans).
  - intros e st' _ _. apply extends_event.
  - intros b st'. apply extends_same. reflexivity.
  - intros content role st'. rewrite appendToContext_run. apply extends_same.
    reflexivity.
  - intros fuel' input' st'. apply callLLM_trace_extends.
Qed.

Lemma processUserInput_trace_first w this fuel input st :
  isProcessing (session st) = false ->
  exists rest,
    trace (snd (processUserInput w this (S fuel) input st))
    = (trace st ++ EvCallLLM input :: generateRequest (session st) :: rest)%list.
Proof.
  intros Hfree.
  destruct (processUserInput_after_callLLM w this extends extends_refl extends_trans
              (fun e st' _ _ => extends_event e st')
              (fun b st' => extends_same _ _ eq_refl)
              (fun content role st' => extends_same _ _ eq_refl)
              (S fuel) input st Hfree)
    as [rest' Hrest'].
  destruct (callLLM_trace_first w this fuel input (busy st)) as [rest Hrest].
  unfold busy in Hrest. rewrite Hrest', Hrest. cbn [trace with_session session].
  rewrite <- app_assoc. eexists. reflexivity.
Qed.

(** A session that is processing a turn drops the input. *)
Lemma processUserInput_busy w this fuel input st :
  isProcessing (session st) = true ->
  processUserInput w this fuel input st = (Ret tt, st).
Proof.
  intros Hbusy. unfold processUserInput, bind, get_session. cbn beta iota.
  rewrite Hbusy. reflexivity.
Qed.

(** The only exceptions that escape [processUserInput] are the socket's. *)
Lemma processUserInput_throws w this fuel input st e :
  fst (processUserInput w this fuel input st) = Throw e ->
  exists n, ws_send w n = Raises e.
Proof.
  unfold processUserInput, bind at 1, get_session at 1. cbn beta iota.
  destruct (isProcessing (session st)); [discriminate|].
  unfold bind at 1, modify_session at 1. cbn beta iota.
  unfold try_finally, try_catch.
  match goal with |- context [bind ?m ?k ?s] => destruct (bind m k s) as [[u|e'|] st2] end;
    cbn [modify_session fst]; try discriminate.
  rewrite send_run. cbn [modify_session fst].
  destruct (ws_send w _) as [[]|e''] eqn:Hsend; cbn [outcome fst];
    [discriminate|].
  intros H. inversion H; subst. eexists. exact Hsend.
Qed.

Lemma processUserInput_no_throw w this fuel input st e :
  accepts w -> fst (processUserInput w this fuel input st) <> Throw e.
Proof.
  intros Hacc H. destruct (processUserInput_throws _ _ _ _ _ _ H) as [n Hn].
  rewrite Hacc in Hn. discriminate.
Qed.

(** On a socket that takes every message: the answer is delivered. *)
Lemma processUserInput_run w this fuel input st :
  accepts w ->
  processUserInput w this fuel input st
  = if isProcessing (session st) then (Ret tt, st)
    else match callLLM w this fuel input (busy st) with
         | (Ret r, st2) => (Ret tt, deliver w this r st2)
         | (Throw _, st2) =>
             (Ret tt,
              with_session (set_isProcessing false (session st2))
                (add_event (EvSend (WsError "Failed to process your message")) st2))
         | (OutOfFuel, st2) => (OutOfFuel, st2)
         end.
Proof.
  intros Hacc. unfold processUserInput, bind at 1, get_session at 1.
  cbn beta iota.
  destruct (isProcessing (session st)); [reflexivity|].
  unfold bind at 1, modify_session at 1. cbn beta iota. fold (busy st).
  unfold try_finally, try_catch, bind at 1.
  destruct (callLLM w this fuel input (busy st)) as [[r| |] st2].
  - unfold deliver. destruct (String.eqb r ""); cbn [negb]; [reflexivity|].
    unfold bind at 1. rewrite appendToContext_run.
    unfold bind at 1. rewrite send_accepted by apply Hacc.
    rewrite synthesizeAndStreamTTS_accepted by apply Hacc.
    cbv beta iota delta [modify_session add_events add_event with_session].
    cbn [snd session trace clock]. rewrite <- app_assoc, count_snoc.
    cbn [is_fetch]. rewrite Nat.add_0_r. reflexivity.
  - rewrite send_accepted by apply Hacc. reflexivity.
  - reflexivity.
Qed.

Lemma trim_empty T : String.eqb T "" = true -> String.eqb (Str.trim T) "" = true.
Proof. intros H. apply String.eqb_eq in H. subst T. reflexivity. Qed.

(** What [processBufferedAudio] does with an utterance of at least 3200
    bytes, for every answer of the transcription and of the socket. *)
Lemma processBufferedAudio_run w this fuel st :
  (3200 <= length (utterance st))%nat ->
  36 + Z.of_nat (length (utterance st)) < 2 ^ 32 ->
  processBufferedAudio w this fuel st
  = match transcribe w (count is_transcribe (trace st)) with
    | Raises _ =>
        (outcome (ws_send w (count is_send (trace st))),
         add_events [EvTranscribe (utteranceWav st);
                     EvSend (WsError "Speech recognition failed")] (cleared st))
    | Answers T =>
        if String.eqb (Str.trim T) ""
        then (Ret tt, add_events [EvTranscribe (utteranceWav st)] (cleared st))
        else
          match ws_send w (count is_send (trace st)) with
          | Answers _ =>
              try_catch (processUserInput w this fuel T)
                (fun _ => send w (WsError "Speech recognition failed"))
                (heard w T st)
          | Raises _ =>
              (outcome (ws_send w (S (count is_send (trace st)))),
               add_events [EvTranscribe (utteranceWav st);
                           EvSend (WsTranscript T true);
                           EvSend (WsError "Speech recognition failed")]
                 (cleared st))
          end
    end.
Proof.
  intros Hlong Hfit. unfold processBufferedAudio, bind at 1, get_session at 1.
  cbn beta iota. fold (utterance st).
  assert (Hbuf : (length (audioBuffer (session st)) =? 0)%nat = false).
  { apply Nat.eqb_neq. intros H0. unfold utterance, Buffer_concat in Hlong.
    destruct (audioBuffer (session st)); [cbn in Hlong; lia|discriminate]. }
  rewrite Hbuf. unfold bind at 1, modify_session at 1. cbn beta iota.
  unfold bind at 1, modify_session at 1. cbn beta iota.
  replace (length (utterance st) <? 3200)%nat with false
    by (symmetry; apply Nat.ltb_ge; exact Hlong).
  change (with_session (set_audioBuffer [] (session (with_session (set_silenceTimer None (session st)) st)))
            (with_session (set_silenceTimer None (session st)) st))
    with (cleared st).
  unfold try_catch at 1, bind at 1, of_answer. rewrite (createWavHeader_run _ Hfit).
  fold (utteranceWav st). unfold ret at 1. cbn beta iota.
  unfold bind at 1, call at 1. cbn [session trace clock].
  change (trace (cleared st)) with (trace st).
  destruct (transcribe w _) as [T|e]; cbn beta iota.
  - destruct (String.eqb (Str.trim T) "") eqn:Htrim.
    + rewrite andb_false_r. reflexivity.
    + assert (HT : String.eqb T "" = false).
      { destruct (String.eqb T "") eqn:HT; [|reflexivity].
        rewrite (trim_empty T HT) in Htrim. discriminate. }
      rewrite HT. cbn [negb andb]. unfold bind at 1. rewrite send_run.
      cbn [trace add_event]. rewrite count_snoc. cbn [is_send].
      rewrite Nat.add_0_r.
      destruct (ws_send w (count is_send (trace st))) as [[]|e'];
        cbn [outcome].
      * unfold bind at 1. rewrite appendToContext_run. unfold heard.
        rewrite appendToContext_run. unfold try_catch.
        cbn [snd add_events add_event cleared with_session session trace clock].
        rewrite <- app_assoc. cbn [app]. reflexivity.
      * rewrite send_run. unfold add_events, add_event, cleared.
        cbn [with_session session trace clock].
        rewrite !count_snoc. cbn [is_send is_transcribe].
        rewrite Nat.add_0_r, Nat.add_1_r, <- !app_assoc. reflexivity.
  - rewrite send_run. unfold add_events, add_event, cleared.
    cbn [with_session session trace clock].
    rewrite count_snoc. cbn [is_send]. rewrite Nat.add_0_r, <- app_assoc.
    reflexivity.
Qed.

(** The only exceptions that escape [processBufferedAudio] are the
    socket's. *)
Lemma processBufferedAudio_throws w this fuel st e :
  fst (processBufferedAudio w this fuel st) = Throw e ->
  exists n, ws_send w n = Raises e.
Proof.
  unfold processBufferedAudio, bind at 1, get_session at 1. cbn beta iota.
  destruct (length (audioBuffer (session st)) =? 0)%nat; [discriminate|].
  unfold bind at 1, modify_session at 1. cbn beta iota.
  unfold bind at 1, modify_session at 1. cbn beta iota.
  destruct (length _ <? 3200)%nat; [discriminate|].
  unfold try_catch.
  match goal with |- context [bind ?m ?k ?s] => destruct (bind m k s) as [[u|e'|] st2] end;
    cbn [fst]; try discriminate.
  rewrite send_run. cbn [fst].
  destruct (ws_send w _) as [[]|e''] eqn:Hsend; cbn [outcome];
    [discriminate|].
  intros H. inversion H; subst. eexists. exact Hsend.
Qed.

(** X4: when the transcription of an utterance of at least 3200 bytes
    fails, the socket is handed exactly one message, the error
    [Speech recognition failed]; no dialog turn is started, the history is
    unchanged, the buffer is empty and the timer cleared.  The operation
    returns when the socket takes the message; when the socket refuses it,
    the socket's exception escapes [processBufferedAudio]. *)
Theorem processBufferedAudio_transcription_failure (w : World) (this : Handler)
    (fuel : nat) (st : State) (e : exn) :
  (3200 <= length (utterance st))%nat ->
  36 + Z.of_nat (length (utterance st)) < 2 ^ 32 ->
  transcribe w (count is_transcribe (trace st)) = Raises e ->
  processBufferedAudio w this fuel st
  = (match ws_send w (count is_send (trace st)) with
     | Answers _ => Ret tt
     | Raises refusal => Throw refusal
     end,
     add_events [EvTranscribe (utteranceWav st);
                 EvSend (WsError "Speech recognition failed")] (cleared st)).
Proof.
  intros Hlong Hfit Hraise.
  rewrite (processBufferedAudio_run w this fuel st Hlong Hfit), Hraise.
  reflexivity.
Qed.

Lemma processBufferedAudio_transcription_failure_witness :
  processBufferedAudio (world_deaf (Error "timeout") (Error "socket closed"))
    with_pool 0 stateLong
  = (Throw (Error "socket closed"),
     add_events [EvTranscribe (utteranceWav stateLong);
                 EvSend (WsError "Speech recognition failed")] (cleared stateLong)).
Proof.
  apply (processBufferedAudio_transcription_failure
           (world_deaf (Error "timeout") (Error "socket closed")) with_pool 0
           stateLong (Error "timeout")).
  - apply Nat.leb_le. vm_compute. reflexivity.
  - vm_compute. reflexivity.
  - reflexivity.
Defined.

(** X5: when the transcript of an utterance is empty or white
    space only, the utterance is dropped after the transcription: nothing is
    sent to the browser, nothing is recorded in the history and no dialog
    turn is started. *)
Theorem processBufferedAudio_blank_transcript (w : World) (this : Handler)
    (fuel : nat) (st : State) (T : string) :
  (3200 <= length (utterance st))%nat ->
  36 + Z.of_nat (length (utterance st)) < 2 ^ 32 ->
  transcribe w (count is_transcribe (trace st)) = Answers T ->
  Str.trim T = "" ->
  processBufferedAudio w this fuel st
  = (Ret tt, add_events [EvTranscribe (utteranceWav st)] (cleared st)).
Proof.
  intros Hlong Hfit HT Hblank.
  rewrite (processBufferedAudio_run w this fuel st Hlong Hfit), HT, Hblank.
  reflexivity.
Qed.

Lemma processBufferedAudio_blank_transcript_witness :
  processBufferedAudio (world_hears (Answers "   ")) with_pool 0 stateLong
  = (Ret tt, add_events [EvTranscribe (utteranceWav stateLong)] (cleared stateLong)).
Proof.
  apply (processBufferedAudio_blank_transcript
           (world_hears (Answers "   ")) with_pool 0 stateLong "   ").
  - apply Nat.leb_le. vm_compute. reflexivity.
  - vm_compute. reflexivity.
  - reflexivity.
  - vm_compute. reflexivity.
Defined.

Lemma history_heard w T st :
  history (heard w T st)
  = slice_last 20
      (history st
       ++ [ {| role := user; content := T; timestamp := Date_now w (clock st) |} ]).
Proof. unfold heard. rewrite appendToContext_history. reflexivity. Qed.

Lemma utteranceRequest_heard w T st :
  generateRequest (session (heard w T st)) = utteranceRequest T st.
Proof.
  unfold generateRequest, utteranceRequest.
  change (conversationHistory (session (heard w T st))) with (history (heard w T st)).
  rewrite history_heard. unfold heard. rewrite appendToContext_run.
  rewrite slice_last_app by (cbn [length]; lia). cbn [length Nat.sub].
  rewrite map_app. reflexivity.
Qed.

(** Nothing after the transcription touches the audio buffer. *)
Lemma turn_keeps_audio w this fuel T st :
  same_audio (session st)
    (session (snd (try_catch (processUserInput w this fuel T)
                     (fun _ => send w (WsError "Speech recognition failed")) st))).
Proof.
  apply (keeps_try_catch (kept same_audio)).
  - intros a b c. apply same_audio_trans.
  - intros st'. apply processUserInput_audio.
  - intros e st'. rewrite send_run. split; reflexivity.
Qed.

(** X6: an utterance with a transcript [T] that is not blank, in a
    session that is not processing a turn, on a socket that takes the
    transcript: the transcription request is followed by the transcript
    handed to the socket as final, then by the dialog turn, whose request to
    the provider carries the last 19 turns of the history and then [T] as the
    user's turn.  The buffer is empty afterwards.  The only exceptions that
    can escape are those the socket throws at a later message: on a socket
    that takes every message none escapes. *)
Theorem processBufferedAudio_utterance (w : World) (this : Handler) (fuel : nat)
    (st : State) (T : string) :
  (3200 <= length (utterance st))%nat ->
  36 + Z.of_nat (length (utterance st)) < 2 ^ 32 ->
  transcribe w (count is_transcribe (trace st)) = Answers T ->
  Str.trim T <> "" ->
  isProcessing (session st) = false ->
  ws_send w (count is_send (trace st)) = Answers tt ->
  (exists rest,
     trace (snd (processBufferedAudio w this (S fuel) st))
     = (trace st
        ++ [EvTranscribe (utteranceWav st); EvSend (WsTranscript T true);
            EvCallLLM T; utteranceRequest T st] ++ rest)%list)
  /\ audioBuffer (session (snd (processBufferedAudio w this (S fuel) st))) = []
  /\ (forall e, fst (processBufferedAudio w this (S fuel) st) = Throw e ->
        exists n, ws_send w n = Raises e)
  /\ (accepts w -> forall e, fst (processBufferedAudio w this (S fuel) st) <> Throw e).
Proof.
  intros Hlong Hfit HT Hblank Hfree Hsend.
  assert (Hthrows : forall e,
            fst (processBufferedAudio w this (S fuel) st) = Throw e ->
            exists n, ws_send w n = Raises e)
    by (intros e; apply processBufferedAudio_throws).
  rewrite (processBufferedAudio_run w this (S fuel) st Hlong Hfit), HT in *.
  apply String.eqb_neq in Hblank. rewrite Hblank, Hsend in *.
  split; [|split; [|split]].
  - assert (Hfree' : isProcessing (session (heard w T st)) = false)
      by (unfold heard; rewrite appendToContext_run; exact Hfree).
    destruct (processUserInput_trace_first w this fuel T (heard w T st) Hfree')
      as [rest Hrest].
    destruct (after_try_catch extends extends_refl
                (processUserInput w this (S fuel) T)
                (fun _ => send w (WsError "Speech recognition failed"))
                (heard w T st)) as [rest' Hrest'].
    { intros e. apply send_extends. }
    rewrite Hrest', Hrest, utteranceRequest_heard. unfold heard.
    rewrite appendToContext_run.
    cbn [snd trace add_events cleared with_session].
    rewrite <- !app_assoc. exists (rest ++ rest')%list. reflexivity.
  - destruct (turn_keeps_audio w this (S fuel) T (heard w T st)) as [Hbuf _].
    rewrite Hbuf. unfold heard. rewrite appendToContext_run. reflexivity.
  - exact Hthrows.
  - intros Hacc e He. destruct (Hthrows e He) as [n Hn].
    rewrite Hacc in Hn. discriminate.
Qed.

Lemma processBufferedAudio_utterance_witness :
  let run := processBufferedAudio (world_hears (Answers "hello")) with_pool 1 stateLong in
  (exists rest,
     trace (snd run)
     = (trace stateLong
        ++ [EvTranscribe (utteranceWav stateLong); EvSend (WsTranscript "hello" true);
            EvCallLLM "hello"; utteranceRequest "hello" stateLong] ++ rest)%list)
  /\ audioBuffer (session (snd run)) = []
  /\ (forall e, fst run = Throw e ->
        exists n, ws_send (world_hears (Answers "hello")) n = Raises e)
  /\ (accepts (world_hears (Answers "hello")) -> forall e, fst run <> Throw e).
Proof.
  apply (processBufferedAudio_utterance
           (world_hears (Answers "hello")) with_pool 0 stateLong "hello").
  - apply Nat.leb_le. vm_compute. reflexivity.
  - vm_compute. reflexivity.
  - reflexivity.
  - vm_compute. discriminate.
  - reflexivity.
  - reflexivity.
Defined.

(** X7: an utterance that arrives while a turn is being processed is
    transcribed, handed to the socket and, when the socket takes it,
    recorded in the history as the user's turn, but it gets no answer: no
    dialog turn is started for it and it is not queued.  When the socket
    refuses the transcript, the utterance is not recorded either: the error
    [Speech recognition failed] is handed to the socket, and the operation
    ends as the socket answers that one. *)
Theorem processBufferedAudio_while_processing (w : World) (this : Handler)
    (fuel : nat) (st : State) (T : string) :
  (3200 <= length (utterance st))%nat ->
  36 + Z.of_nat (length (utterance st)) < 2 ^ 32 ->
  transcribe w (count is_transcribe (trace st)) = Answers T ->
  Str.trim T <> "" ->
  isProcessing (session st) = true ->
  (ws_send w (count is_send (trace st)) = Answers tt ->
   processBufferedAudio w this fuel st = (Ret tt, heard w T st))
  /\ (forall e, ws_send w (count is_send (trace st)) = Raises e ->
      processBufferedAudio w this fuel st
      = (outcome (ws_send w (S (count is_send (trace st)))),
         add_events [EvTranscribe (utteranceWav st);
                     EvSend (WsTranscript T true);
                     EvSend (WsError "Speech recognition failed")] (cleared st)))
  /\ trace (heard w T st)
     = (trace st ++ [EvTranscribe (utteranceWav st); EvSend (WsTranscript T true)])%list
  /\ history (heard w T st)
     = slice_last 20
         (history st
          ++ [ {| role := user; content := T; timestamp := Date_now w (clock st) |} ]).
Proof.
  intros Hlong Hfit HT Hblank Hbusy.
  rewrite (processBufferedAudio_run w this fuel st Hlong Hfit), HT.
  apply String.eqb_neq in Hblank. rewrite Hblank.
  split; [|split; [|split]].
  - intros Hsend. rewrite Hsend.
    unfold try_catch. rewrite processUserInput_busy; [reflexivity|].
    unfold heard. rewrite appendToContext_run. exact Hbusy.
  - intros e Hsend. rewrite Hsend. reflexivity.
  - unfold heard. rewrite appendToContext_run. reflexivity.
  - apply history_heard.
Qed.

Lemma processBufferedAudio_while_processing_witness :
  processBufferedAudio (world_hears (Answers "hello")) with_pool 1 (busy stateLong)
  = (Ret tt, heard (world_hears (Answers "hello")) "hello" (busy stateLong)).
Proof.
  refine (proj1 (processBufferedAudio_while_processing
                   (world_hears (Answers "hello")) with_pool 1 (busy stateLong)
                   "hello" _ _ _ _ _) _).
  - apply Nat.leb_le. vm_compute. reflexivity.
  - vm_compute. reflexivity.
  - reflexivity.
  - vm_compute. discriminate.
  - reflexivity.
  - reflexivity.
Defined.

Lemma handleIncomingAudio_buffer w audioChunk st :
  exists st',
    handleIncomingAudio w audioChunk st = (Ret tt, st')
    /\ audioBuffer (session st') = (audioBuffer (session st) ++ [audioChunk])%list
    /\ history st' = history st
    /\ exists rest, trace st' = (trace st ++ rest)%list
                    /\ Forall (fun e => is_transcribe e = false) rest.
Proof.
  unfold handleIncomingAudio, try_catch, bind, modify_session,
    of_answer, get_session, now, emit, ret, throw.
  cbn [session with_session trace clock].
  assert (Hnil : forall tr : list event,
            exists rest, tr = (tr ++ rest)%list
                         /\ Forall (fun e => is_transcribe e = false) rest)
    by (intros tr; exists []; rewrite app_nil_r; split; [reflexivity|constructor]).
  destruct (sumSquares audioChunk) as [sum|e]; cbn beta iota.
  - destruct (isSpeech sum _); cbn [session with_session trace clock].
    + destruct (silenceTimer (session st)) as [id|] eqn:Htimer;
        cbn [silenceTimer set_lastSpeechTime set_audioBuffer];
        rewrite ?Htimer; cbn [session with_session trace clock];
        eexists; (split; [reflexivity|]); (split; [reflexivity|]);
        (split; [reflexivity|]); cbn [trace]; [|apply Hnil].
      eexists. split; [reflexivity|]. repeat constructor.
    + destruct (silenceTimer (session st)) as [id|] eqn:Htimer;
        cbn [silenceTimer set_audioBuffer]; rewrite ?Htimer;
        cbn [audioBuffer set_audioBuffer].
      * eexists. split; [reflexivity|]. split; [reflexivity|].
        split; [reflexivity|apply Hnil].
      * destruct (0 <? length (audioBuffer (session st) ++ [audioChunk]))%nat;
          cbn [session with_session trace clock];
          eexists; (split; [reflexivity|]); (split; [reflexivity|]);
          (split; [reflexivity|]); cbn [trace]; [|apply Hnil].
        eexists. split; [reflexivity|]. repeat constructor.
  - eexists. split; [reflexivity|]. split; [reflexivity|].
    split; [reflexivity|apply Hnil].
Qed.

Lemma feed_buffer w chunks : forall st,
  exists st',
    feed w chunks st = (Ret tt, st')
    /\ audioBuffer (session st') = (audioBuffer (session st) ++ chunks)%list
    /\ history st' = history st
    /\ count is_transcribe (trace st') = count is_transcribe (trace st).
Proof.
  induction chunks as [|chunk chunks IH]; intros st.
  - exists st. rewrite app_nil_r. repeat split.
  - destruct (handleIncomingAudio_buffer w chunk st)
      as (st1 & Hrun & Hbuf & Hh & rest & Htr & Hrest).
    destruct (IH st1) as (st2 & Hrun2 & Hbuf2 & Hh2 & Hc2).
    exists st2. unfold feed in *. cbn [for_each]. unfold bind. rewrite Hrun.
    split; [exact Hrun2|]. split; [rewrite Hbuf2, Hbuf, <- app_assoc; reflexivity|].
    split; [congruence|]. rewrite Hc2, Htr, count_app.
    assert (H0 : count is_transcribe rest = 0%nat).
    { clear -Hrest. unfold count. induction Hrest as [|e rest He _ IH];
        [reflexivity|]. cbn [List.filter]. rewrite He. exact IH. }
    lia.
Qed.

(** X8: the chunks that arrive while the buffer fills are kept
    whole and in their order, whatever the detection made of each of them;
    when the utterance has at least 3200 bytes, what the transcription
    service receives is the WAV header for their total length followed by
    their concatenation. *)
Theorem buffered_audio_is_transcribed_whole (w : World) (this : Handler)
    (fuel : nat) (chunks : list (list byte)) (st : State) :
  audioBuffer (session st) = [] ->
  (3200 <= length (concat chunks))%nat ->
  36 + Z.of_nat (length (concat chunks)) < 2 ^ 32 ->
  exists st1,
    feed w chunks st = (Ret tt, st1)
    /\ audioBuffer (session st1) = chunks
    /\ exists rest,
         trace (snd (processBufferedAudio w this fuel st1))
         = (trace st1
            ++ EvTranscribe
                 (wavHeader (Z.of_nat (length (concat chunks))) ++ concat chunks)
            :: rest)%list.
Proof.
  intros Hempty Hlong Hfit.
  destruct (feed_buffer w chunks st) as (st1 & Hrun & Hbuf & _ & _).
  rewrite Hempty in Hbuf. cbn [app] in Hbuf.
  exists st1. split; [exact Hrun|]. split; [exact Hbuf|].
  assert (Hutt : utterance st1 = concat chunks)
    by (unfold utterance, Buffer_concat; rewrite Hbuf; reflexivity).
  rewrite (processBufferedAudio_run w this fuel st1)
    by (rewrite Hutt; assumption).
  unfold utteranceWav. rewrite Hutt.
  destruct (transcribe w _) as [T|e]; [|eexists; reflexivity].
  destruct (String.eqb (Str.trim T) ""); [eexists; reflexivity|].
  destruct (ws_send w _) as [[]|e]; [|eexists; reflexivity].
  destruct (keeps_try_catch extends extends_trans
              (processUserInput w this fuel T)
              (fun _ => send w (WsError "Speech recognition failed"))
              (processUserInput_extends w this fuel T)
              (fun e => send_extends w _)
              (heard w T st1)) as [rest Hrest].
  rewrite Hrest. unfold heard. rewrite appendToContext_run.
  cbn [snd trace add_events cleared with_session]. unfold utteranceWav.
  rewrite Hutt. exists (EvSend (WsTranscript T true) :: rest).
  rewrite <- app_assoc. reflexivity.
Qed.

Lemma buffered_audio_is_transcribed_whole_witness :
  exists st1,
    feed world_always [repeat x00 3199; [x01]] stateX = (Ret tt, st1)
    /\ audioBuffer (session st1) = [repeat x00 3199; [x01]]
    /\ exists rest,
         trace (snd (processBufferedAudio world_always with_pool 1 st1))
         = (trace st1
            ++ EvTranscribe
                 (wavHeader (Z.of_nat (length (concat [repeat x00 3199; [x01]])))
                  ++ concat [repeat x00 3199; [x01]])
            :: rest)%list.
Proof.
  apply (buffered_audio_is_transcribed_whole world_always with_pool 1
           [repeat x00 3199; [x01]] stateX).
  - reflexivity.
  - apply Nat.leb_le. vm_compute. reflexivity.
  - vm_compute. reflexivity.
Defined.

(** ** The answer of a turn *)

Lemma callLLM_voice w this : forall fuel input st,
  agentVoiceId (session (snd (callLLM w this fuel input st)))
  = agentVoiceId (session st).
Proof.
  induction fuel as [|fuel IH]; intros input st; [reflexivity|].
  rewrite callLLM_step.
  assert (Hadd : forall response s,
            agentVoiceId (addTokens response s) = agentVoiceId s).
  { intros response s. unfold addTokens.
    destruct (inputTokens response), (outputTokens response);
      destruct_ifs; reflexivity. }
  destruct (generateContent w _) as [response|]; [|reflexivity].
  destruct (text response) as [t|]; [|reflexivity].
  cbn zeta.
  destruct (toolCallOf this _ t) as [[[tool tool_v] data_v]|];
    [|cbn [snd session with_session]; apply Hadd].
  fold (afterTool w input response tool tool_v data_v st).
  pose proof (IH continuation (afterTool w input response tool tool_v data_v st))
    as Hrec.
  assert (Hst : agentVoiceId (session (afterTool w input response tool tool_v data_v st))
                = agentVoiceId (session st)).
  { unfold afterTool. rewrite executeTool_state. cbn [snd].
    rewrite appendToContext_run. cbn [snd session with_session].
    apply Hadd. }
  destruct (callLLM w this fuel continuation _) as [[r| |] st5];
    cbn [snd] in *; congruence.
Qed.

(** X9: on a socket that takes every message, when the dialog turn of an
    idle session returns the text [r], [processUserInput] returns with the
    processing flag cleared; a non-empty [r] is recorded as the assistant's
    turn, handed to the socket as the agent's response and then spoken: one
    request to the provider of the session's voice (none when the handler has
    no key for it), then the clip of the answer, as wav from Sarvam and as
    mp3 from ElevenLabs, or the speech error.  An empty [r] is neither
    recorded nor sent. *)
Theorem processUserInput_reply (w : World) (this : Handler) (fuel : nat)
    (input : string) (st : State) (r : string) (st2 : State) :
  accepts w ->
  isProcessing (session st) = false ->
  callLLM w this fuel input (busy st) = (Ret r, st2) ->
  exists st',
    processUserInput w this fuel input st = (Ret tt, st')
    /\ isProcessing (session st') = false
    /\ if String.eqb r "" then
         trace st' = trace st2 /\ history st' = history st2
       else
         let voiceId := agentVoiceId (session st) in
         trace st'
         = (trace st2
            ++ EvSend (WsAgentResponse r)
            :: speechRequests this voiceId r
            ++ [EvSend (default (WsError "Failed to generate speech")
                          (speechAudio w this voiceId (count is_fetch (trace st2))))])%list
         /\ history st'
            = slice_last 20
                (history st2
                 ++ [ {| role := assistant; content := r;
                         timestamp := Date_now w (clock st2) |} ]).
Proof.
  intros Hacc Hfree Hllm. rewrite (processUserInput_run _ _ _ _ _ Hacc), Hfree, Hllm.
  exists (deliver w this r st2). split; [reflexivity|].
  pose proof (callLLM_voice w this fuel input (busy st)) as Hvoice.
  rewrite Hllm in Hvoice. cbn [snd] in Hvoice.
  change (agentVoiceId (session (busy st))) with (agentVoiceId (session st))
    in Hvoice.
  unfold deliver. destruct (String.eqb r "").
  - split; [reflexivity|]. split; reflexivity.
  - split; [reflexivity|]. cbn zeta. split.
    + rewrite appendToContext_run.
      cbn [snd session with_session add_events trace].
      unfold speechEvents. cbn [agentVoiceId set_conversationHistory].
      rewrite Hvoice. reflexivity.
    + change (history (with_session ?s ?x)) with (conversationHistory s).
      cbn [conversationHistory set_isProcessing].
      apply (appendToContext_history w r assistant st2).
Qed.

Lemma processUserInput_reply_witness :
  exists st',
    processUserInput (world_after 0) with_pool 1 "hi" stateX = (Ret tt, st')
    /\ isProcessing (session st') = false
    /\ trace st'
       = [ EvCallLLM "hi"; generateRequest sessionX;
           EvSend (WsAgentResponse "All done.");
           sarvamRequest with_pool "meera" "All done.";
           EvSend (WsAudio "UklGRg==" "wav") ]
    /\ map content (history st') = ["All done."].
Proof.
  destruct (processUserInput_reply (world_after 0) with_pool 1 "hi" stateX
              "All done."
              (snd (callLLM (world_after 0) with_pool 1 "hi" (busy stateX))))
    as (st' & Hrun & Hflag & Htrace & Hhistory).
  - intros n. reflexivity.
  - reflexivity.
  - vm_compute. reflexivity.
  - exists st'. split; [exact Hrun|]. split; [exact Hflag|].
    cbn iota zeta in Htrace, Hhistory. rewrite Htrace, Hhistory.
    split; vm_compute; reflexivity.
Defined.

(** X10: when the call to the LLM provider fails, the user still gets an
    answer on a socket that takes every message: the apology is handed to
    the socket as the agent's response, is spoken (the request to the
    provider of the voice, then its clip or the speech error), and becomes
    the assistant's turn in the history; the processing flag is cleared. *)
Theorem processUserInput_provider_failure (w : World) (this : Handler)
    (fuel : nat) (input : string) (st : State) (e : exn) :
  accepts w ->
  isProcessing (session st) = false ->
  generateContent w (count is_generateContent (trace st)) = Raises e ->
  let voiceId := agentVoiceId (session st) in
  let text := "I apologize, but I'm having trouble processing your request right now." in
  exists st',
    processUserInput w this (S fuel) input st = (Ret tt, st')
    /\ trace st'
       = (trace st
          ++ [EvCallLLM input; generateRequest (session st);
              EvSend (WsAgentResponse text)]
          ++ speechRequests this voiceId text
          ++ [EvSend (default (WsError "Failed to generate speech")
                        (speechAudio w this voiceId (count is_fetch (trace st))))])%list
    /\ history st'
       = slice_last 20
           (history st
            ++ [ {| role := assistant; content := text;
                    timestamp := Date_now w (clock st) |} ])
    /\ isProcessing (session st') = false.
Proof.
  intros Hacc Hfree Hdown voiceId text. subst voiceId text.
  assert (Hllm : callLLM w this (S fuel) input (busy st)
                 = (Ret apology, called input (busy st))).
  { rewrite callLLM_step. change (trace (busy st)) with (trace st).
    rewrite Hdown. reflexivity. }
  rewrite (processUserInput_run _ _ _ _ _ Hacc), Hfree, Hllm.
  exists (deliver w this apology (called input (busy st))).
  split; [reflexivity|]. unfold deliver.
  change (String.eqb apology "") with false. cbn iota.
  split; [|split].
  - rewrite appendToContext_run.
    cbn [snd session with_session add_events trace called add_event busy].
    rewrite !count_snoc. cbn [is_fetch generateRequest].
    rewrite !Nat.add_0_r, <- !app_assoc. reflexivity.
  - change (history (with_session ?s ?x)) with (conversationHistory s).
    cbn [conversationHistory set_isProcessing].
    apply (appendToContext_history w apology assistant (called input (busy st))).
  - reflexivity.
Qed.

Lemma processUserInput_provider_failure_witness :
  exists st',
    processUserInput world_down with_pool 1 "hi" stateX = (Ret tt, st')
    /\ trace st'
       = [ EvCallLLM "hi"; generateRequest sessionX;
           EvSend (WsAgentResponse apology);
           sarvamRequest with_pool "meera" apology;
           EvSend (WsAudio "UklGRg==" "wav") ]
    /\ history st'
       = [ {| role := assistant; content := apology; timestamp := 1000 |} ]
    /\ isProcessing (session st') = false.
Proof.
  apply (processUserInput_provider_failure world_down with_pool 0 "hi" stateX
           (Error "503 Service Unavailable")).
  - intros n. reflexivity.
  - reflexivity.
  - reflexivity.
Defined.

(** What follows the dialog turn executes no tool. *)
Lemma processUserInput_executions w this fuel input st :
  isProcessing (session st) = false ->
  count is_executeTool (trace (snd (processUserInput w this fuel input st)))
  = count is_executeTool (trace (snd (callLLM w this fuel input (busy st)))).
Proof.
  intros Hfree. symmetry.
  apply (processUserInput_after_callLLM w this
           (fun st1 st2 => count is_executeTool (trace st1)
                           = count is_executeTool (trace st2))).
  - reflexivity.
  - intros a b c H1 H2. congruence.
  - intros e st' _ He. cbn [add_event trace]. rewrite count_snoc, He. lia.
  - reflexivity.
  - intros content role st'. rewrite appendToContext_run. reflexivity.
  - exact Hfree.
Qed.

(** *** Operations that end *)

Lemma ends_ret {A} (a : A) : ends (ret a).
Proof. intros st. discriminate. Qed.

Lemma ends_throw {A} e : ends (@throw A e).
Proof. intros st. discriminate. Qed.

Lemma ends_call {A} p (script : nat -> answer A) e : ends (call p script e).
Proof. intros st. unfold call. destruct (script _); discriminate. Qed.

Lemma ends_of_answer {A} (a : answer A) : ends (of_answer a).
Proof. destruct a; [apply ends_ret|apply ends_throw]. Qed.

Lemma ends_bind {A B} (m : M A) (k : A -> M B) :
  ends m -> (forall a, ends (k a)) -> ends (bind m k).
Proof.
  intros Hm Hk st. unfold bind. specialize (Hm st).
  destruct (m st) as [[a|e|] st1]; cbn [fst] in *;
    [apply Hk|discriminate|contradiction].
Qed.

Lemma ends_try_catch {A} (m : M A) (h : exn -> M A) :
  ends m -> (forall e, ends (h e)) -> ends (try_catch m h).
Proof.
  intros Hm Hh st. unfold try_catch. specialize (Hm st).
  destruct (m st) as [[a|e|] st1]; cbn [fst] in *;
    [discriminate|apply Hh|contradiction].
Qed.

Ltac ends_structure :=
  repeat (intros; cbv beta zeta;
    lazymatch goal with
    | |- ends (bind _ _) => apply ends_bind
    | |- ends (try_catch _ _) => apply ends_try_catch
    | |- ends (ret _) => apply ends_ret
    | |- ends (throw _) => apply ends_throw
    | |- ends (of_answer _) => apply ends_of_answer
    | |- ends (call _ _ _) => apply ends_call
    | |- ends (send _ _) => apply ends_call
    | |- ends get_session => intros ?; discriminate
    | |- ends (modify_session _) => intros ?; discriminate
    | |- ends (appendToContext _ _ _) => intros ?; discriminate
    | |- ends (if ?c then _ else _) => destruct c
    | |- ends (match ?x with _ => _ end) => destruct x
    end).

Lemma ends_synthesizeAndStreamTTS w this text :
  ends (synthesizeAndStreamTTS w this text).
Proof.
  unfold synthesizeAndStreamTTS, synthesizeElevenLabsTTS, synthesizeSarvamTTS.
  ends_structure.
Qed.

(** Once the dialog turn has returned, [processUserInput] ends, and it
    clears the processing flag however it ends. *)
Lemma processUserInput_ends w this fuel input st r st2 :
  isProcessing (session st) = false ->
  callLLM w this fuel input (busy st) = (Ret r, st2) ->
  fst (processUserInput w this fuel input st) <> OutOfFuel
  /\ isProcessing (session (snd (processUserInput w this fuel input st))) = false.
Proof.
  intros Hfree Hllm.
  assert (Hrun : processUserInput w this fuel input st
                 = try_finally
                     (try_catch
                        (response <- callLLM w this fuel input ;;
                         if negb (String.eqb response "") then
                           appendToContext w response assistant ;;
                           send w (WsAgentResponse response) ;;
                           synthesizeAndStreamTTS w this response
                         else ret tt)
                        (fun _ => send w (WsError "Failed to process your message")))
                     (modify_session (set_isProcessing false)) (busy st)).
  { unfold processUserInput, bind at 1, get_session at 1. cbn beta iota.
    rewrite Hfree. reflexivity. }
  rewrite Hrun. unfold try_finally.
  match goal with
  | |- context [try_catch ?m ?h ?s] =>
      assert (Hends : fst (try_catch m h s) <> OutOfFuel);
      [|destruct (try_catch m h s) as [[u|e|] st3]]
  end.
  - unfold try_catch, bind at 1. rewrite Hllm.
    match goal with
    | |- context [(if ?c then ?a else ?b) st2] =>
        assert (Hk : ends (if c then a else b))
          by (ends_structure; intros; apply ends_synthesizeAndStreamTTS);
        specialize (Hk st2); destruct ((if c then a else b) st2) as [[u|e|] st3]
    end; cbn [fst] in *; [discriminate| |contradiction].
    apply ends_call.
  - split; [discriminate|reflexivity].
  - split; [discriminate|reflexivity].
  - contradiction.
Qed.

(** X11: a session that is already processing is left exactly as it is
    (the input is dropped).  The only exceptions that escape
    [processUserInput] are those the socket throws.  An idle session whose
    turn makes [k] tool calls ends, with those [k] executions done and the
    processing flag cleared again, also when an exception escapes; on a
    socket that takes every message it returns. *)
Theorem processUserInput_flag (w : World) (this : Handler) (input : string)
    (st : State) :
  (isProcessing (session st) = true ->
   forall fuel, processUserInput w this fuel input st = (Ret tt, st))
  /\ (forall fuel e,
        fst (processUserInput w this fuel input st) = Throw e ->
        exists n, ws_send w n = Raises e)
  /\ (isProcessing (session st) = false ->
      forall k,
        (forall i, (i < k)%nat ->
           replyToolCall w this (tools (session st))
             (count is_generateContent (trace st) + i) <> None) ->
        replyToolCall w this (tools (session st))
          (count is_generateContent (trace st) + k) = None ->
        forall fuel, (k < fuel)%nat ->
          exists result st',
            processUserInput w this fuel input st = (result, st')
            /\ result <> OutOfFuel
            /\ isProcessing (session st') = false
            /\ count is_executeTool (trace st')
               = (count is_executeTool (trace st) + k)%nat
            /\ (accepts w -> result = Ret tt)).
Proof.
  split; [|split].
  - intros Hbusy fuel. apply processUserInput_busy. exact Hbusy.
  - intros fuel e. apply processUserInput_throws.
  - intros Hfree k Htools Hfinal fuel Hfuel.
    destruct (callLLM_chain w this k fuel input (busy st) Htools Hfinal Hfuel)
      as (st2 & Hllm & Hex & _).
    change (trace (busy st)) with (trace st) in Hex.
    destruct (processUserInput_ends w this fuel input st _ st2 Hfree Hllm)
      as [Hends Hflag].
    pose proof (processUserInput_executions w this fuel input st Hfree) as Hcount.
    rewrite Hllm in Hcount. cbn [snd] in Hcount.
    pose proof (processUserInput_throws w this fuel input st) as Hthrows.
    destruct (processUserInput w this fuel input st) as [result st'].
    cbn [fst snd] in *. exists result, st'.
    split; [reflexivity|]. split; [exact Hends|]. split; [exact Hflag|].
    split; [rewrite Hcount; exact Hex|].
    intros Hacc. destruct result as [[]|e|]; [reflexivity| |contradiction].
    destruct (Hthrows e eq_refl) as [n Hn]. rewrite Hacc in Hn. discriminate.
Qed.

(** ** What a dialog turn uses and keeps *)

Lemma requests_app tr1 tr2 :
  requests (tr1 ++ tr2) = (requests tr1 ++ requests tr2)%list.
Proof. apply List.filter_app. Qed.

Lemma count_requests p tr :
  (forall i, p (EvCallLLM i) = false) ->
  count p (requests tr) = count p tr.
Proof.
  intros Hp. unfold count, requests.
  induction tr as [|e tr IH]; [reflexivity|].
  cbn [List.filter]. destruct e; cbn [is_callLLM negb List.filter];
    try (destruct (p _); cbn [length]; rewrite IH; reflexivity).
  rewrite Hp. exact IH.
Qed.

Lemma same_run_count p st1 st2 :
  (forall i, p (EvCallLLM i) = false) ->
  same_run st1 st2 -> count p (trace st1) = count p (trace st2).
Proof.
  intros Hp (_ & _ & Htr).
  rewrite <- (count_requests p (trace st1) Hp), <- (count_requests p (trace st2) Hp).
  rewrite Htr. reflexivity.
Qed.

Lemma same_run_called i1 i2 st1 st2 s :
  same_run st1 st2 ->
  same_run (with_session s (called i1 st1)) (with_session s (called i2 st2)).
Proof.
  intros (Hs & Hc & Htr). split; [reflexivity|]. split; [exact Hc|].
  cbn [trace with_session called add_event]. rewrite !requests_app, Htr, Hs.
  reflexivity.
Qed.

Lemma same_run_called_only i1 i2 st1 st2 :
  same_run st1 st2 -> same_run (called i1 st1) (called i2 st2).
Proof.
  intros (Hs & Hc & Htr). split; [exact Hs|]. split; [exact Hc|].
  cbn [trace called add_event]. rewrite !requests_app, Htr, Hs.
  reflexivity.
Qed.

Lemma same_run_afterTool w i1 i2 response tool tool_v data_v st1 st2 :
  same_run st1 st2 ->
  same_run (afterTool w i1 response tool tool_v data_v st1)
           (afterTool w i2 response tool tool_v data_v st2).
Proof.
  intros (Hs & Hc & Htr). split; [|split].
  - unfold afterTool. rewrite !executeTool_state. cbn [snd].
    rewrite !appendToContext_run. unfold pushed, history.
    cbn [snd session clock with_session called add_event]. rewrite Hs, Hc.
    reflexivity.
  - unfold afterTool. rewrite !executeTool_state. cbn [snd].
    rewrite !appendToContext_run.
    cbn [snd session clock with_session called add_event]. rewrite Hc.
    reflexivity.
  - rewrite !afterTool_trace, !requests_app, Htr, Hs. reflexivity.
Qed.

Lemma callLLM_same_run w this : forall fuel i1 i2 st1 st2,
  same_run st1 st2 ->
  fst (callLLM w this fuel i1 st1) = fst (callLLM w this fuel i2 st2)
  /\ same_run (snd (callLLM w this fuel i1 st1)) (snd (callLLM w this fuel i2 st2)).
Proof.
  induction fuel as [|fuel IH]; intros i1 i2 st1 st2 Hsame.
  - split; [reflexivity|exact Hsame].
  - rewrite !callLLM_step.
    rewrite (same_run_count is_generateContent st1 st2 (fun _ => eq_refl) Hsame).
    pose proof Hsame as (Hs & Hc & Htr).
    destruct (generateContent w _) as [response|].
    2:{ split; [reflexivity|]. apply same_run_called_only. exact Hsame. }
    destruct (text response) as [t|].
    2:{ split; [reflexivity|]. apply same_run_called_only. exact Hsame. }
    cbn zeta. cbn [session with_session]. rewrite !tools_addTokens.
    replace (tools (session st1)) with (tools (session st2))
      by (rewrite Hs; reflexivity).
    destruct (toolCallOf this _ t) as [[[tool tool_v] data_v]|].
    + fold (afterTool w i1 response tool tool_v data_v st1).
      fold (afterTool w i2 response tool tool_v data_v st2).
      destruct (IH continuation continuation _ _
                  (same_run_afterTool w i1 i2 response tool tool_v data_v
                     st1 st2 Hsame)) as [Hfst Hsnd].
      destruct (callLLM w this fuel continuation
                  (afterTool w i1 response tool tool_v data_v st1))
        as [[r1| |] st5];
        destruct (callLLM w this fuel continuation
                    (afterTool w i2 response tool tool_v data_v st2))
        as [[r2| |] st6];
        cbn [fst snd] in *; try discriminate;
        (split; [first [exact Hfst | reflexivity]|exact Hsnd]).
    + split; [reflexivity|]. rewrite Hs. apply same_run_called. exact Hsame.
Qed.

(** X12: the input text of [callLLM] is never used: two runs from the same
    state with different inputs return the same result, leave the same
    session, and make the same requests to the provider and the tools.  What
    the user said reaches the provider through the history only. *)
Theorem callLLM_input_unused (w : World) (this : Handler) (fuel : nat)
    (input1 input2 : string) (st : State) :
  let run1 := callLLM w this fuel input1 st in
  let run2 := callLLM w this fuel input2 st in
  fst run1 = fst run2
  /\ session (snd run1) = session (snd run2)
  /\ requests (trace (snd run1)) = requests (trace (snd run2)).
Proof.
  intros run1 run2.
  destruct (callLLM_same_run w this fuel input1 input2 st st) as [Hfst Hsnd].
  { repeat split. }
  split; [exact Hfst|]. destruct Hsnd as (Hs & _ & Htr). split; assumption.
Qed.

Lemma findTool_none tools tool_v :
  (forall name, tool_v = JString name ->
     forall tool, In tool tools -> tool_name tool <> name) ->
  findTool tools tool_v = None.
Proof.
  intros Hno. unfold findTool.
  induction tools as [|tool tools IH]; [reflexivity|].
  cbn [find].
  destruct tool_v as [| | |name| |];
    try (apply IH; intros name' Hn; discriminate).
  destruct (String.eqb (tool_name tool) name) eqn:Heq.
  - apply String.eqb_eq in Heq. exfalso.
    apply (Hno name eq_refl tool); [left; reflexivity|exact Heq].
  - apply IH. intros name' Hn tool' Hin. apply (Hno name' Hn). right. exact Hin.
Qed.



Lemma tokens_addTokens response s :
  totalInputTokens (addTokens response s)
  = totalInputTokens s + default 0 (inputTokens response)
  /\ totalOutputTokens (addTokens response s)
     = totalOutputTokens s + default 0 (outputTokens response).
Proof.
  unfold addTokens.
  destruct (inputTokens response) as [n|], (outputTokens response) as [m|];
    cbv [default from_option id];
    repeat match goal with
           | |- context [?x =? 0] => destruct (Z.eqb_spec x 0)
           end;
    cbn [totalInputTokens totalOutputTokens set_totalInputTokens
           set_totalOutputTokens]; split; lia.
Qed.

Lemma tokens_afterTool w input response tool tool_v data_v st :
  totalInputTokens (session (afterTool w input response tool tool_v data_v st))
  = totalInputTokens (session st) + default 0 (inputTokens response)
  /\ totalOutputTokens (session (afterTool w input response tool tool_v data_v st))
     = totalOutputTokens (session st) + default 0 (outputTokens response).
Proof.
  unfold afterTool. rewrite executeTool_state. cbn [snd].
  rewrite appendToContext_run. cbn [snd session with_session].
  cbn [totalInputTokens totalOutputTokens set_conversationHistory].
  apply tokens_addTokens.
Qed.

Lemma callLLM_tokens w this : forall k fuel input st,
  (forall i, (i < k)%nat ->
     replyToolCall w this (tools (session st))
       (count is_generateContent (trace st) + i) <> None) ->
  replyToolCall w this (tools (session st))
    (count is_generateContent (trace st) + k) = None ->
  (k < fuel)%nat ->
  let n := count is_generateContent (trace st) in
  let s' := session (snd (callLLM w this fuel input st)) in
  totalInputTokens s'
  = totalInputTokens (session st) + reportedSum inputTokens w n (S k)
  /\ totalOutputTokens s'
     = totalOutputTokens (session st) + reportedSum outputTokens w n (S k).
Proof.
  induction k as [|k IH]; intros fuel input st Htools Hfinal Hfuel n s';
    subst n s'; (destruct fuel as [|fuel]; [lia|]).
  - rewrite Nat.add_0_r in Hfinal. cbn [reportedSum]. unfold reported.
    rewrite callLLM_step. unfold replyToolCall in Hfinal.
    destruct (generateContent w _) as [response|]; [|cbn; split; lia].
    destruct (text response) as [t|]; [|cbn; split; lia].
    cbn zeta. cbn [session with_session]. rewrite tools_addTokens, Hfinal.
    cbn [snd session with_session].
    destruct (tokens_addTokens response (session st)) as [Hi Ho].
    rewrite Hi, Ho. split; lia.
  - destruct (callLLM_step_tool w this fuel input st)
      as (response & t & tool & tool_v & data_v & Hg & Ht & Hc & Hrun).
    { specialize (Htools 0%nat). rewrite Nat.add_0_r in Htools.
      apply Htools. lia. }
    destruct (afterTool_counts w input response tool tool_v data_v st)
      as (Hgen & _ & _).
    destruct (tokens_afterTool w input response tool tool_v data_v st) as [Hi Ho].
    destruct (IH fuel continuation
                (afterTool w input response tool tool_v data_v st))
      as [Hin Hout].
    + intros i Hi'. rewrite afterTool_tools, Hgen.
      replace (S (count is_generateContent (trace st)) + i)%nat
        with (count is_generateContent (trace st) + S i)%nat by lia.
      apply Htools. lia.
    + rewrite afterTool_tools, Hgen.
      replace (S (count is_generateContent (trace st)) + k)%nat
        with (count is_generateContent (trace st) + S k)%nat by lia.
      exact Hfinal.
    + lia.
    + destruct (callLLM_chain w this k fuel continuation
                  (afterTool w input response tool tool_v data_v st))
        as (st' & Hrun' & _).
      * intros i Hi'. rewrite afterTool_tools, Hgen.
        replace (S (count is_generateContent (trace st)) + i)%nat
          with (count is_generateContent (trace st) + S i)%nat by lia.
        apply Htools. lia.
      * rewrite afterTool_tools, Hgen.
        replace (S (count is_generateContent (trace st)) + k)%nat
          with (count is_generateContent (trace st) + S k)%nat by lia.
        exact Hfinal.
      * lia.
      * rewrite Hrun. rewrite Hrun' in *. cbn [snd] in *.
        rewrite Hin, Hout, Hi, Ho, Hgen.
        change (reportedSum ?f w ?n (S (S k)))
          with (reported f w n + reportedSum f w (S n) (S k)).
        assert (Hrep : forall f, reported f w (count is_generateContent (trace st))
                                 = default 0 (f response))
          by (intros f; unfold reported; rewrite Hg, Ht; reflexivity).
        rewrite !Hrep. split; lia.
Qed.

(** X14: over a dialog turn that makes [k] tool calls, the token totals of
    the session grow by exactly the input and output tokens that the [k + 1]
    answers of the provider report. *)
Theorem callLLM_token_totals (w : World) (this : Handler) (input : string)
    (st : State) (k : nat) :
  (forall i, (i < k)%nat ->
     replyToolCall w this (tools (session st))
       (count is_generateContent (trace st) + i) <> None) ->
  replyToolCall w this (tools (session st))
    (count is_generateContent (trace st) + k) = None ->
  forall fuel, (k < fuel)%nat ->
    exists r st',
      callLLM w this fuel input st = (Ret r, st')
      /\ totalInputTokens (session st')
         = totalInputTokens (session st)
           + reportedSum inputTokens w (count is_generateContent (trace st)) (S k)
      /\ totalOutputTokens (session st')
         = totalOutputTokens (session st)
           + reportedSum outputTokens w (count is_generateContent (trace st)) (S k).
Proof.
  intros Htools Hfinal fuel Hfuel.
  destruct (callLLM_chain w this k fuel input st Htools Hfinal Hfuel)
    as (st' & Hrun & _).
  destruct (callLLM_tokens w this k fuel input st Htools Hfinal Hfuel) as [Hi Ho].
  rewrite Hrun in Hi, Ho. cbn [snd] in Hi, Ho.
  eexists. exists st'. split; [exact Hrun|]. split; assumption.
Qed.

Lemma callLLM_token_totals_witness :
  exists r st',
    callLLM (world_after 1) with_pool 2 "hi" stateX = (Ret r, st')
    /\ totalInputTokens (session st') = 14
    /\ totalOutputTokens (session st') = 6.
Proof.
  apply (callLLM_token_totals (world_after 1) with_pool "hi" stateX 1).
  - intros i Hi. replace i with 0%nat by lia. vm_compute. discriminate.
  - vm_compute. reflexivity.
  - lia.
Defined.

Lemma history_bounded_events es st :
  Forall small_request es -> history_bounded st -> history_bounded (add_events es st).
Proof.
  intros Hes [Hh Htr]. split; [exact Hh|].
  cbn [trace add_events]. apply Forall_app. split; assumption.
Qed.

Lemma history_bounded_session s st :
  conversationHistory s = history st ->
  history_bounded st -> history_bounded (with_session s st).
Proof. intros Hs [Hh Htr]. split; [unfold history; cbn; rewrite Hs; exact Hh|exact Htr]. Qed.

Lemma history_bounded_append w content role st :
  Forall small_request (trace st) ->
  history_bounded (snd (appendToContext w content role st)).
Proof.
  intros Htr. split.
  - rewrite appendToContext_history. apply slice_last_length.
  - rewrite appendToContext_run. exact Htr.
Qed.

Lemma small_toolRequests w tool data : Forall small_request (toolRequests w tool data).
Proof.
  unfold toolRequests, sheetsRequest, webhookRequest.
  destruct data; destruct_ifs; repeat constructor.
Qed.

Lemma small_generateRequest s :
  (length (conversationHistory s) <= 20)%nat -> small_request (generateRequest s).
Proof. intros Hh. cbn. rewrite length_map. exact Hh. Qed.

Lemma history_bounded_called input st s :
  conversationHistory s = history st ->
  history_bounded st -> history_bounded (with_session s (called input st)).
Proof.
  intros Hs [Hh Htr]. split; [unfold history; cbn; rewrite Hs; exact Hh|].
  cbn [trace with_session called add_event].
  repeat (apply Forall_app; split); try exact Htr.
  - constructor; [exact I|constructor].
  - constructor; [apply small_generateRequest; exact Hh|constructor].
Qed.

Lemma history_bounded_afterTool w input response tool tool_v data_v st :
  history_bounded st ->
  history_bounded (afterTool w input response tool tool_v data_v st).
Proof.
  intros [Hh Htr]. split.
  - rewrite afterTool_history. apply slice_last_length.
  - rewrite afterTool_trace.
    repeat (apply Forall_app; split); try exact Htr;
      try apply small_toolRequests.
    constructor; [exact I|].
    constructor; [apply small_generateRequest; exact Hh|].
    constructor; [exact I|constructor].
Qed.

Lemma history_bounded_callLLM w this : forall fuel input st,
  history_bounded st -> history_bounded (snd (callLLM w this fuel input st)).
Proof.
  induction fuel as [|fuel IH]; intros input st Hb; [exact Hb|].
  rewrite callLLM_step.
  destruct (generateContent w _) as [response|];
    [|apply (history_bounded_called input st (session st) eq_refl Hb)].
  destruct (text response) as [t|];
    [|apply (history_bounded_called input st (session st) eq_refl Hb)].
  cbn zeta.
  destruct (toolCallOf this _ t) as [[[tool tool_v] data_v]|].
  - fold (afterTool w input response tool tool_v data_v st).
    pose proof (IH continuation _
                  (history_bounded_afterTool w input response tool tool_v data_v
                     st Hb)) as Hrec.
    destruct (callLLM w this fuel continuation _) as [[r| |] st5]; exact Hrec.
  - cbn [snd]. apply history_bounded_called; [apply history_addTokens|exact Hb].
Qed.

(** The events of the pipeline itself carry no request to the provider. *)
Lemma history_bounded_event e st :
  is_generateContent e = false ->
  history_bounded st -> history_bounded (add_event e st).
Proof.
  intros He Hb. apply (history_bounded_events [e]); [|exact Hb].
  constructor; [|constructor]. destruct e; try exact I. discriminate.
Qed.

Lemma history_bounded_processUserInput w this fuel input st :
  history_bounded st ->
  history_bounded (snd (processUserInput w this fuel input st)).
Proof.
  apply (keeps_processUserInput w this
           (fun a b => history_bounded a -> history_bounded b)).
  - auto.
  - auto.
  - intros e st' He _. apply history_bounded_event. exact He.
  - intros b st' Hb. apply history_bounded_session; [reflexivity|exact Hb].
  - intros content role st' Hb. apply history_bounded_append. apply Hb.
  - intros fuel' input' st'. apply history_bounded_callLLM.
Qed.

Lemma history_bounded_processBufferedAudio w this fuel st :
  history_bounded st ->
  history_bounded (snd (processBufferedAudio w this fuel st)).
Proof.
  intros Hb. unfold processBufferedAudio, bind at 1, get_session at 1.
  cbn beta iota.
  destruct (length (audioBuffer (session st)) =? 0)%nat; [exact Hb|].
  unfold bind at 1, modify_session at 1. cbn beta iota.
  unfold bind at 1, modify_session at 1. cbn beta iota.
  set (st1 := with_session _ _).
  assert (Hb1 : history_bounded st1) by exact Hb.
  clearbody st1.
  destruct (length _ <? 3200)%nat; [exact Hb1|].
  revert Hb1.
  apply (keeps_transcription w this
           (fun a b => history_bounded a -> history_bounded b)).
  - auto.
  - auto.
  - intros e st' He _. apply history_bounded_event. exact He.
  - intros b st' Hb'. apply history_bounded_session; [reflexivity|exact Hb'].
  - intros content role st' Hb'. apply history_bounded_append. apply Hb'.
  - intros fuel' input' st'. apply history_bounded_callLLM.
Qed.

Lemma history_bounded_handleInterruption w st :
  history_bounded st -> history_bounded (snd (handleInterruption w st)).
Proof.
  intros Hb. unfold handleInterruption, bind, modify_session.
  rewrite send_run.
  assert (Hb' : history_bounded
                  (with_session (set_isProcessing false
                                   (set_isInterrupted true (session st)))
                     (add_event (EvSend WsStopAudio) st))).
  { apply history_bounded_session; [reflexivity|].
    apply history_bounded_event; [reflexivity|exact Hb]. }
  destruct (ws_send w _) as [[]|e]; cbn [outcome snd]; [exact Hb'|].
  apply history_bounded_event; [reflexivity|].
  apply history_bounded_session; [reflexivity|exact Hb].
Qed.

Lemma history_bounded_handleIncomingAudio w chunk st :
  history_bounded st ->
  history_bounded (snd (handleIncomingAudio w chunk st)).
Proof.
  intros Hb. unfold handleIncomingAudio, try_catch, bind, modify_session,
    of_answer, get_session, now, emit, ret, throw.
  cbn [session with_session trace clock].
  destruct (sumSquares chunk) as [sum|e]; cbn beta iota; [|exact Hb].
  destruct (isSpeech sum _); cbn [session with_session trace clock].
  - destruct (silenceTimer (session st)) as [id|] eqn:Htimer;
      cbn [silenceTimer set_lastSpeechTime set_audioBuffer];
      rewrite ?Htimer; cbn [session with_session trace clock snd].
    + split; [apply Hb|]. cbn [trace]. apply Forall_app.
      split; [apply Hb|repeat constructor].
    + exact Hb.
  - destruct (silenceTimer (session st)) as [id|] eqn:Htimer;
      cbn [silenceTimer set_audioBuffer]; rewrite ?Htimer;
      cbn [audioBuffer set_audioBuffer]; [exact Hb|].
    destruct (0 <? length (audioBuffer (session st) ++ [chunk]))%nat;
      cbn [session with_session trace clock snd]; [|exact Hb].
    split; [apply Hb|]. cbn [trace]. apply Forall_app.
    split; [apply Hb|repeat constructor].
Qed.

Lemma reachable_bounded w this st : reachable w this st -> history_bounded st.
Proof.
  induction 1 as [connectionId agentPrompt agentVoiceId agentModel tools t n
                 |st chunk _ IH|st fuel _ IH _|st _ IH|st fuel input _ IH].
  - split; [cbn; lia|constructor].
  - apply history_bounded_handleIncomingAudio. exact IH.
  - apply history_bounded_processBufferedAudio. exact IH.
  - apply history_bounded_handleInterruption. exact IH.
  - apply history_bounded_processUserInput. exact IH.
Qed.

(** X15: in every state that a session reaches, the history holds at
    most 20 turns and no request made to the provider carried more than 20
    turns. *)
Theorem reachable_requests_bounded (w : World) (this : Handler) (st : State) :
  reachable w this st ->
  (length (history st) <= 20)%nat
  /\ forall req, In (EvGenerateContent req) (trace st) ->
       (length (req_contents req) <= 20)%nat.
Proof.
  intros Hreach. destruct (reachable_bounded w this st Hreach) as [Hh Htr].
  split; [exact Hh|]. intros req Hin.
  apply (proj1 (List.Forall_forall small_request (trace st)) Htr _ Hin).
Qed.

Lemma reachable_requests_bounded_witness :
  let st := snd (processUserInput (world_after 1) with_pool 2 "hi" stateX) in
  (length (history st) <= 20)%nat
  /\ forall req, In (EvGenerateContent req) (trace st) ->
       (length (req_contents req) <= 20)%nat.
Proof.
  apply (reachable_requests_bounded (world_after 1) with_pool).
  apply reach_input.
  exact (reach_created (world_after 1) with_pool "browser-1"
           "You are a helpful AI assistant." "meera" None [toolX] 1000 0).
Defined.

Lemma toolRequests_same_provider w1 w2 tool data :
  same_provider w1 w2 -> toolRequests w1 tool data = toolRequests w2 tool data.
Proof.
  intros (_ & Hid & _). unfold toolRequests, sheetsRequest. rewrite !Hid.
  reflexivity.
Qed.

Lemma afterTool_same_provider w1 w2 input response tool tool_v data_v st :
  same_provider w1 w2 ->
  afterTool w1 input response tool tool_v data_v st
  = afterTool w2 input response tool tool_v data_v st.
Proof.
  intros Hsame. pose proof Hsame as (_ & _ & Hnow). unfold afterTool.
  rewrite !executeTool_state. cbn [snd]. rewrite !appendToContext_run.
  unfold pushed. cbn [snd session trace clock with_session called add_event history].
  rewrite (toolRequests_same_provider w1 w2 tool data_v Hsame), Hnow.
  reflexivity.
Qed.

Lemma callLLM_same_provider w1 w2 this : same_provider w1 w2 ->
  forall fuel input st, callLLM w1 this fuel input st = callLLM w2 this fuel input st.
Proof.
  intros Hsame. pose proof Hsame as (Hgen & _ & _).
  induction fuel as [|fuel IH]; intros input st; [reflexivity|].
  rewrite !callLLM_step, Hgen.
  destruct (generateContent w2 _) as [response|]; [|reflexivity].
  destruct (text response) as [t|]; [|reflexivity].
  cbn zeta.
  destruct (toolCallOf this _ t) as [[[tool tool_v] data_v]|]; [|reflexivity].
  fold (afterTool w1 input response tool tool_v data_v st).
  fold (afterTool w2 input response tool tool_v data_v st).
  rewrite (afterTool_same_provider w1 w2 input response tool tool_v data_v st Hsame).
  rewrite IH. reflexivity.
Qed.

(** X16: a dialog turn runs the same whatever the endpoints of
    the tools answer: for two worlds with the same provider, clock and URL
    helper, the result, the session (the history with its status turns
    included) and the whole trace coincide.  The outcome of a tool execution
    is never looked at: a tool that failed is reported to the LLM as a
    success like any other. *)
Theorem callLLM_ignores_tool_outcome (w1 w2 : World) (this : Handler) (fuel : nat)
    (input : string) (st : State) :
  same_provider w1 w2 ->
  callLLM w1 this fuel input st = callLLM w2 this fuel input st.
Proof. intros Hsame. apply callLLM_same_provider. exact Hsame. Qed.

Lemma callLLM_ignores_tool_outcome_witness :
  callLLM (world_after 1) with_pool 2 "hi" stateX
  = callLLM (world_refusing 1) with_pool 2 "hi" stateX.
Proof.
  apply (callLLM_ignores_tool_outcome (world_after 1) (world_refusing 1) with_pool 2
           "hi" stateX).
  repeat split.
Defined.

Lemma same_config_refl s : same_config s s.
Proof. repeat split. Qed.

Lemma same_config_trans s1 s2 s3 :
  same_config s1 s2 -> same_config s2 s3 -> same_config s1 s3.
Proof.
  intros (H1 & H2 & H3 & H4 & H5) (K1 & K2 & K3 & K4 & K5).
  repeat split; congruence.
Qed.

Lemma addTokens_config response s : same_config s (addTokens response s).
Proof.
  unfold addTokens, same_config.
  destruct (inputTokens response) as [n|], (outputTokens response) as [m|];
    destruct_ifs; repeat split; reflexivity.
Qed.

Lemma afterTool_config w input response tool tool_v data_v st :
  same_config (session st)
    (session (afterTool w input response tool tool_v data_v st)).
Proof.
  unfold afterTool. rewrite executeTool_state. cbn [snd].
  rewrite appendToContext_run. cbn [snd session with_session].
  eapply same_config_trans; [apply (addTokens_config response)|].
  repeat split.
Qed.

Lemma callLLM_config w this : forall fuel input st,
  same_config (session st) (session (snd (callLLM w this fuel input st))).
Proof.
  induction fuel as [|fuel IH]; intros input st; [apply same_config_refl|].
  rewrite callLLM_step.
  destruct (generateContent w _) as [response|]; [|apply same_config_refl].
  destruct (text response) as [t|]; [|apply same_config_refl].
  cbn zeta.
  destruct (toolCallOf this _ t) as [[[tool tool_v] data_v]|].
  - fold (afterTool w input response tool tool_v data_v st).
    pose proof (IH continuation (afterTool w input response tool tool_v data_v st))
      as Hrec.
    pose proof (afterTool_config w input response tool tool_v data_v st) as Hst.
    destruct (callLLM w this fuel continuation _) as [[r| |] st5];
      cbn [snd] in *; eapply same_config_trans; eassumption.
  - cbn [snd session with_session]. apply addTokens_config.
Qed.

Lemma processUserInput_config w this fuel input st :
  same_config (session st) (session (snd (processUserInput w this fuel input st))).
Proof.
  apply (keeps_processUserInput w this (kept same_config)).
  - intros st'. apply same_config_refl.
  - intros a b c. apply same_config_trans.
  - intros e st' _ _. repeat split.
  - intros b st'. repeat split.
  - intros content role st'. rewrite appendToContext_run. repeat split.
  - intros fuel' input' st'. apply callLLM_config.
Qed.

Lemma processBufferedAudio_config w this fuel st :
  same_config (session st) (session (snd (processBufferedAudio w this fuel st))).
Proof.
  unfold processBufferedAudio, bind at 1, get_session at 1. cbn beta iota.
  destruct (length (audioBuffer (session st)) =? 0)%nat; [apply same_config_refl|].
  unfold bind at 1, modify_session at 1. cbn beta iota.
  unfold bind at 1, modify_session at 1. cbn beta iota.
  set (st1 := with_session _ _).
  assert (H1 : same_config (session st) (session st1)) by (repeat split).
  clearbody st1.
  destruct (length _ <? 3200)%nat; [exact H1|].
  eapply same_config_trans; [exact H1|].
  apply (keeps_transcription w this (kept same_config)).
  - intros st'. apply same_config_refl.
  - intros a b c. apply same_config_trans.
  - intros e st' _ _. repeat split.
  - intros b st'. repeat split.
  - intros content role st'. rewrite appendToContext_run. repeat split.
  - intros fuel' input' st'. apply callLLM_config.
Qed.

Lemma handleInterruption_config w st :
  same_config (session st) (session (snd (handleInterruption w st))).
Proof.
  unfold handleInterruption, bind, modify_session. rewrite send_run.
  destruct (ws_send w _) as [[]|e]; repeat split.
Qed.

Lemma handleIncomingAudio_config w chunk st :
  same_config (session st) (session (snd (handleIncomingAudio w chunk st))).
Proof.
  unfold handleIncomingAudio, try_catch, bind, modify_session,
    of_answer, get_session, now, emit, ret, throw.
  cbn [session with_session trace clock].
  destruct (sumSquares chunk) as [sum|e]; cbn beta iota; [|repeat split].
  destruct (isSpeech sum _); cbn [session with_session trace clock].
  - destruct (silenceTimer (session st)) as [id|] eqn:Htimer;
      cbn [silenceTimer set_lastSpeechTime set_audioBuffer];
      rewrite ?Htimer; cbn [session with_session trace clock snd]; repeat split.
  - destruct (silenceTimer (session st)) as [id|] eqn:Htimer;
      cbn [silenceTimer set_audioBuffer]; rewrite ?Htimer;
      cbn [audioBuffer set_audioBuffer]; [repeat split|].
    destruct (0 <? length (audioBuffer (session st) ++ [chunk]))%nat;
      cbn [session with_session trace clock snd]; repeat split.
Qed.

(** X17: no operation changes the configuration of a session:
    its connection id, prompt, voice, model and tool list are the same after
    an audio chunk, an expiry of the silence timer, a user input, a dialog
    turn and an interruption, whatever the collaborators answer. *)
Theorem operations_keep_configuration (w : World) (this : Handler) (fuel : nat)
    (input : string) (chunk : list byte) (st : State) :
  same_config (session st) (session (snd (handleIncomingAudio w chunk st)))
  /\ same_config (session st) (session (snd (processBufferedAudio w this fuel st)))
  /\ same_config (session st) (session (snd (processUserInput w this fuel input st)))
  /\ same_config (session st) (session (snd (callLLM w this fuel input st)))
  /\ same_config (session st) (session (snd (handleInterruption w st))).
Proof.
  split; [apply handleIncomingAudio_config|].
  split; [apply processBufferedAudio_config|].
  split; [apply processUserInput_config|].
  split; [apply callLLM_config|]. apply handleInterruption_config.
Qed.


(** ** The tools of a call *)

Lemma phases_length tools :
  (length (duringCall tools) + length (afterCall tools) = length tools)%nat.
Proof.
  unfold duringCall, afterCall.
  induction tools as [|tool tools IH]; [reflexivity|].
  cbn [List.filter]. destruct (tool_runAfterCall tool); cbn [negb length]; lia.
Qed.

Lemma for_each_processTool_chat w context tools : forall st,
  count is_chat (trace (snd (for_each tools (processTool w (withContext context)) st)))
  = (count is_chat (trace st) + length tools)%nat.
Proof.
  induction tools as [|tool tools IH]; intros st.
  - cbn. lia.
  - cbn [for_each]. unfold bind. rewrite processTool_run. rewrite IH.
    cbn [trace length]. rewrite count_app, processToolEvents_chat. lia.
Qed.

Lemma processTools_run w context tools st :
  exists st',
    try_catch (for_each tools (processTool w (withContext context))) (fun _ => ret tt) st
    = (Ret tt, st')
    /\ session st' = session st
    /\ count is_chat (trace st') = (count is_chat (trace st) + length tools)%nat
    /\ List.filter is_executeTool (trace st')
       = (List.filter is_executeTool (trace st)
          ++ executions w (count is_chat (trace st)) tools)%list.
Proof.
  destruct (for_each_processTool w context tools st) as (st' & Hrun & Hs & Hex).
  pose proof (for_each_processTool_chat w context tools st) as Hchat.
  unfold try_catch. rewrite Hrun in *. exists st'. repeat split; assumption.
Qed.

(** Without a context the extraction fails before any request is made. *)
Lemma extractDataFromConversation_undefined w tool st :
  extractDataFromConversation w None tool st
  = (Ret (extractionFailure
            (TypeError "Cannot read properties of undefined (reading 'map')")),
     st).
Proof. reflexivity. Qed.

Lemma for_each_processTool_undefined w session tools : forall st,
  context session = None ->
  for_each tools (processTool w session) st = (Ret tt, st).
Proof.
  intros st Hnone. induction tools as [|tool tools IH]; [reflexivity|].
  cbn [for_each]. unfold bind at 1, processTool at 1, bind at 1.
  rewrite Hnone, extractDataFromConversation_undefined. exact IH.
Qed.



(** X19: a spreadsheet tool whose URL resolves to a spreadsheet id
    appends exactly one row: to that spreadsheet, with the data unchanged, on
    the sheet named after the tool (or [Data Collection] when the tool has no
    name); it returns the success flag of the answer, and false when the
    append fails.  Without a URL, or when no id is found in it, nothing is
    sent and the result is false. *)
Theorem executeGoogleSheetsTool_request (w : World) (tool : Tool) (data : json)
    (st : State) :
  (forall url spreadsheetId,
     tool_webhookUrl tool = Some url -> url <> "" ->
     extractSpreadsheetId w url = Some spreadsheetId -> spreadsheetId <> "" ->
     executeGoogleSheetsTool w tool data st
     = (Ret match appendGenericRow w (count is_appendGenericRow (trace st)) with
            | Answers result => success result
            | Raises _ => false
            end,
        add_event
          (EvAppendGenericRow spreadsheetId data
             (if String.eqb (tool_name tool) "" then "Data Collection"
              else tool_name tool)) st))
  /\ (str_truthy (tool_webhookUrl tool) = false
      \/ str_truthy (extractSpreadsheetId w (default "" (tool_webhookUrl tool)))
         = false ->
      executeGoogleSheetsTool w tool data st = (Ret false, st)).
Proof.
  split.
  - intros url spreadsheetId Hurl Hne Hid Hidne. rewrite executeGoogleSheetsTool_run.
    unfold sheetsRequest. rewrite Hurl. cbn [default from_option id str_truthy].
    rewrite Hid. cbn [default from_option id str_truthy str_or].
    apply String.eqb_neq in Hne, Hidne. rewrite Hne, Hidne. reflexivity.
  - intros Hno. rewrite executeGoogleSheetsTool_run.
    destruct Hno as [Hno|Hno]; rewrite Hno; [reflexivity|].
    rewrite andb_false_r. reflexivity.
Qed.

Lemma missingFieldsOf_empty parameters :
  (forall p, In p parameters -> param_required p = true ->
     inherited (param_name p) = true) ->
  missingFieldsOf (JObject []) parameters = [].
Proof.
  intros Hall. unfold missingFieldsOf.
  induction parameters as [|p ps IH]; [reflexivity|].
  cbn [List.filter]. unfold isMissing at 1, property_truthy. cbn [obj_get].
  destruct (param_required p) eqn:Hreq.
  - rewrite (Hall p (or_introl eq_refl) Hreq). cbn [negb andb].
    apply IH. intros q Hq. apply Hall. right. exact Hq.
  - cbn [andb]. apply IH. intros q Hq. apply Hall. right. exact Hq.
Qed.

(** X20: when the answer of the LLM holds no JSON
    object at all, the extraction still succeeds, with empty data, for every
    tool that has no required parameter, and also for one whose required
    parameters are all named like a member of [Object.prototype] (such as
    [constructor] or [toString]): the check reads them as present. *)
Theorem extractDataFromConversation_nothing_extracted (w : World)
    (context : list Turn) (tool : Tool) (st : State) (response : string) :
  chat w (count is_chat (trace st)) = Answers response ->
  Str.match_braces response = None ->
  (forall p, In p (default [] (tool_parameters tool)) -> param_required p = true ->
     inherited (param_name p) = true) ->
  extractDataFromConversation w (Some context) tool st
  = (Ret {| ex_success := true; ex_data := JObject [];
            ex_missingFields := Some []; ex_error := None |},
     add_event (extractionRequest context tool) st).
Proof.
  intros Hchat Hnone Hall. rewrite extractDataFromConversation_run.
  unfold extractionResult. rewrite Hchat. unfold extractionOf, parseExtracted.
  rewrite Hnone, (missingFieldsOf_empty _ Hall). reflexivity.
Qed.

Lemma extractDataFromConversation_nothing_extracted_witness :
  extractDataFromConversation (world_hears (Answers "hello")) (Some contextA)
    toolInherited stateX
  = (Ret {| ex_success := true; ex_data := JObject [];
            ex_missingFields := Some []; ex_error := None |},
     add_event (extractionRequest contextA toolInherited) stateX).
Proof.
  apply (extractDataFromConversation_nothing_extracted
           (world_hears (Answers "hello")) contextA toolInherited stateX
           "I could not find anything.").
  - reflexivity.
  - vm_compute. reflexivity.
  - intros p [<-|[]] _. reflexivity.
Defined.

(** ** The greeting *)

Lemma greetingCallback_run w this greetingText st :
  accepts w ->
  greetingCallback w this greetingText st
  = (Ret tt,
     add_events
       (replyEvents w this (agentVoiceId (session st)) greetingText
          (count is_fetch (trace st)))
       (snd (appendToContext w greetingText assistant st))).
Proof.
  intros Hacc. unfold greetingCallback, bind at 1.
  rewrite send_accepted by apply Hacc. unfold bind at 1.
  rewrite !appendToContext_run. cbn beta iota.
  rewrite synthesizeAndStreamTTS_accepted by apply Hacc.
  cbn [snd session trace clock add_event]. rewrite count_snoc.
  cbn [is_fetch]. rewrite Nat.add_0_r.
  unfold add_events, replyEvents. cbn [snd session trace clock].
  rewrite <- app_assoc. reflexivity.
Qed.

(** X24: the greeting (the configured one, or the default when none
    or an empty one is configured) is never empty, and on a socket that
    takes every message it opens the dialog: once its callback ran on a new
    session, the request for the first utterance [T] carries exactly two
    turns, the greeting as the model's and [T] as the user's.  When the
    socket refuses the greeting, the callback throws what the socket threw:
    the greeting is neither recorded nor spoken. *)
Theorem greeting_opens_the_dialog (w : World) (this : Handler) (fuel : nat)
    (customGreeting : option string) (T : string) (st st2 : State) :
  let greetingText := str_or customGreeting defaultGreeting in
  let st1 := snd (greetingCallback w this greetingText st) in
  history st = [] ->
  history st2 = history st1 ->
  agentModel (session st2) = agentModel (session st1) ->
  agentPrompt (session st2) = agentPrompt (session st1) ->
  isProcessing (session st2) = false ->
  (3200 <= length (utterance st2))%nat ->
  36 + Z.of_nat (length (utterance st2)) < 2 ^ 32 ->
  transcribe w (count is_transcribe (trace st2)) = Answers T ->
  Str.trim T <> "" ->
  greetingText <> ""
  /\ (accepts w ->
      fst (greetingCallback w this greetingText st) = Ret tt
      /\ In (EvGenerateContent
               {| req_model := str_or (Some (agentModel (session st))) "gemini-2.0-flash";
                  req_contents :=
                    [ {| content_role := "model"; content_text := greetingText |};
                      {| content_role := "user"; content_text := T |} ];
                  req_systemInstruction := agentPrompt (session st) |})
            (trace (snd (processBufferedAudio w this (S fuel) st2))))
  /\ (forall e, ws_send w (count is_send (trace st)) = Raises e ->
      greetingCallback w this greetingText st
      = (Throw e, add_event (EvSend (WsAgentResponse greetingText)) st)).
Proof.
  intros greetingText st1 Hnew Hh Hmodel Hprompt Hfree Hlong Hfit HT Hblank.
  split; [|split].
  - subst greetingText. unfold str_or, defaultGreeting.
    destruct customGreeting as [g|]; [|discriminate].
    destruct (String.eqb g "") eqn:Hg; [discriminate|].
    apply String.eqb_neq. exact Hg.
  - intros Hacc. subst st1. rewrite (greetingCallback_run _ _ _ _ Hacc) in *.
    split; [reflexivity|].
    rewrite (processBufferedAudio_run w this (S fuel) st2 Hlong Hfit), HT, Hacc.
    apply String.eqb_neq in Hblank. rewrite Hblank.
    assert (Hfree' : isProcessing (session (heard w T st2)) = false)
      by (unfold heard; rewrite appendToContext_run; exact Hfree).
    destruct (processUserInput_trace_first w this fuel T (heard w T st2) Hfree')
      as [rest Hrest].
    destruct (after_try_catch extends extends_refl
                (processUserInput w this (S fuel) T)
                (fun _ => send w (WsError "Speech recognition failed"))
                (heard w T st2) (fun e => send_extends w _)) as [rest' Hrest'].
    rewrite Hrest', Hrest, utteranceRequest_heard.
    apply in_or_app. left. apply in_or_app. right. right. left.
    unfold utteranceRequest. rewrite Hh, Hmodel, Hprompt. cbn [snd].
    change (history (add_events ?es ?s)) with (history s).
    rewrite appendToContext_history. unfold pushed. rewrite Hnew.
    rewrite appendToContext_run. reflexivity.
  - intros e Hsend. unfold greetingCallback, bind at 1.
    rewrite send_run, Hsend. reflexivity.
Qed.

Lemma greeting_opens_the_dialog_witness :
  In (EvGenerateContent
        {| req_model := "gemini-2.0-flash";
           req_contents :=
             [ {| content_role := "model"; content_text := defaultGreeting |};
               {| content_role := "user"; content_text := "hello" |} ];
           req_systemInstruction := "You are a helpful AI assistant." |})
     (trace (snd (processBufferedAudio world_always with_pool 1 stateGreeted))).
Proof.
  refine (proj2 (proj1 (proj2 (greeting_opens_the_dialog world_always with_pool 0
                                 None "hello" stateX stateGreeted
                                 _ _ _ _ _ _ _ _ _)) _)).
  - reflexivity.
  - vm_compute. reflexivity.
  - reflexivity.
  - reflexivity.
  - reflexivity.
  - apply Nat.leb_le. vm_compute. reflexivity.
  - vm_compute. reflexivity.
  - reflexivity.
  - vm_compute. discriminate.
  - intros n. reflexivity.
Defined.

(** ** The registry and the call records *)

Lemma logCallStart_run db this ref r session :
  Calls.heap r !! ref = Some session ->
  Calls.logCallStart db this ref r
  = if logged this session then
      let callId := Calls.uuidv4 db (Calls.uuids r) in
      let r1 := with_effects [insertOf session callId] 0 1 r in
      match Calls.execute db (Calls.effect_count Calls.is_execute (Calls.effects r)) with
      | Answers _ =>
          (Answers tt,
           with_heap (alter (Calls.set_callLogId (Some callId)) ref (Calls.heap r)) r1)
      | Raises _ => (Answers tt, r1)
      end
    else (Answers tt, r).
Proof.
  intros Href. unfold Calls.logCallStart, Calls.rbind at 1, Calls.deref, logged.
  rewrite Href. destruct (Calls.hasPool this); cbn [negb orb andb]; [|reflexivity].
  destruct (str_truthy (Calls.userId session)); cbn [negb]; [|reflexivity].
  unfold Calls.rtry, Calls.rbind, Calls.newId, Calls.run, Calls.assign, Calls.rret,
    with_effects, with_heap, insertOf.
  cbn [Calls.heap Calls.sessions Calls.effects Calls.ticks Calls.uuids].
  destruct (Calls.execute db _); reflexivity.
Qed.

Lemma logCallEnd_run db this ref r session :
  Calls.heap r !! ref = Some session ->
  Calls.logCallEnd db this ref r
  = if Calls.hasPool this && str_truthy (Calls.callLogId session)
    then (Answers tt, with_effects (endEffects db session r) 1 0 r)
    else (Answers tt, r).
Proof.
  intros Href. unfold Calls.logCallEnd, Calls.rbind at 1, Calls.deref.
  rewrite Href. destruct (Calls.hasPool this) eqn:Hpool; cbn [negb orb andb];
    [|reflexivity].
  destruct (str_truthy (Calls.callLogId session)); cbn [negb]; [|reflexivity].
  unfold Calls.rtry, Calls.rbind, Calls.now, Calls.run, Calls.charge, Calls.rret,
    with_effects, endEffects, secondsUntil.
  cbn [Calls.heap Calls.sessions Calls.effects Calls.ticks Calls.uuids].
  rewrite andb_true_r.
  destruct (Calls.execute db _); [|reflexivity].
  destruct (str_truthy (Calls.userId session)); [|reflexivity].
  cbn [Calls.heap Calls.sessions Calls.effects Calls.ticks Calls.uuids].
  rewrite <- app_assoc.
  destruct (Calls.recordAndCharge db _) as [[]|]; reflexivity.
Qed.

Lemma with_effects_nil r : with_effects [] 0 0 r = r.
Proof.
  destruct r. unfold with_effects. cbn. rewrite app_nil_r. reflexivity.
Qed.

Lemma endSession_run db this id r ref session :
  Calls.sessions r !! id = Some ref ->
  Calls.heap r !! ref = Some session ->
  Calls.endSession db this id r
  = let r1 := with_effects (cleanupEffects session) 0 0 r in
    let r2 := if Calls.hasPool this && str_truthy (Calls.callLogId session)
              then with_effects (endEffects db session r1) 1 0 r1 else r1 in
    (Answers tt, with_sessions (delete id (Calls.sessions r)) r2).
Proof.
  intros Hid Href. unfold Calls.endSession. rewrite Hid.
  unfold Calls.rbind, Calls.deref. rewrite Href.
  unfold cleanupEffects, Calls.rtry, Calls.record, Calls.rret.
  destruct (Calls.elevenLabsConnection session) as [[[]|e]|];
    destruct (silenceTimer (Calls.base session)) as [timer|];
    cbn [Calls.heap Calls.sessions Calls.effects Calls.ticks Calls.uuids app].
  all: rewrite <- ?app_assoc; cbn [app];
    erewrite (logCallEnd_run db this ref _ session) by exact Href;
    cbn [Calls.effects Calls.ticks];
    destruct (Calls.hasPool this && str_truthy (Calls.callLogId session));
    try reflexivity.
  all: unfold with_sessions, with_effects; cbn; rewrite ?app_nil_r;
    try reflexivity.
  all: destruct r; reflexivity.
Qed.

Lemma effect_count_app p es1 es2 :
  Calls.effect_count p (es1 ++ es2)
  = (Calls.effect_count p es1 + Calls.effect_count p es2)%nat.
Proof. unfold Calls.effect_count. rewrite List.filter_app, length_app. reflexivity. Qed.

Lemma cleanupEffects_count p session :
  p Calls.CloseConnection = false -> (forall id, p (Calls.ClearTimeout id) = false) ->
  Calls.effect_count p (cleanupEffects session) = 0%nat.
Proof.
  intros Hc Ht. unfold cleanupEffects, Calls.effect_count.
  destruct (Calls.elevenLabsConnection session), (silenceTimer (Calls.base session));
    cbn [app List.filter]; rewrite ?Hc, ?Ht; reflexivity.
Qed.

Lemma endEffects_charges db session r :
  (Calls.effect_count Calls.is_charge (endEffects db session r) <= 1)%nat.
Proof.
  unfold endEffects, Calls.effect_count. cbn [List.filter Calls.is_charge].
  destruct (Calls.execute db _); [|cbn; lia].
  destruct (str_truthy (Calls.userId session)); cbn; lia.
Qed.

(** X25: ending a session removes it from the registry, and ending it again
    does nothing at all: one connection is charged at most once.  Ending a
    connection that has no session does nothing either. *)
Theorem endSession_twice (db : Calls.Services) (this : Handler) (id : string)
    (r : Calls.Registry) :
  (forall ref, Calls.sessions r !! id = Some ref -> is_Some (Calls.heap r !! ref)) ->
  exists r1,
    Calls.endSession db this id r = (Answers tt, r1)
    /\ Calls.sessions r1 !! id = None
    /\ Calls.endSession db this id r1 = (Answers tt, r1)
    /\ (Calls.effect_count Calls.is_charge (Calls.effects r1)
        <= S (Calls.effect_count Calls.is_charge (Calls.effects r)))%nat.
Proof.
  intros Hwf. destruct (Calls.sessions r !! id) as [ref|] eqn:Hid.
  - destruct (Hwf ref eq_refl) as [session Href].
    rewrite (endSession_run db this id r ref session Hid Href). cbn zeta.
    eexists. split; [reflexivity|].
    assert (Hgone : forall r2, Calls.sessions
                      (with_sessions (delete id (Calls.sessions r)) r2) !! id = None).
    { intros r2. cbn [Calls.sessions with_sessions]. apply lookup_delete_eq. }
    split; [apply Hgone|]. split.
    + unfold Calls.endSession. rewrite Hgone. reflexivity.
    + destruct (Calls.hasPool this && str_truthy (Calls.callLogId session));
        cbn [Calls.effects with_sessions with_effects];
        rewrite !effect_count_app, cleanupEffects_count by reflexivity.
      * pose proof (endEffects_charges db session
                      (with_effects (cleanupEffects session) 0 0 r)). lia.
      * lia.
  - exists r. unfold Calls.endSession. rewrite ?Hid.
    split; [reflexivity|]. split; [first [exact Hid|reflexivity]|].
    split; [reflexivity|lia].
Qed.

Lemma endSession_twice_witness :
  exists r1,
    Calls.endSession servicesUp with_pool "browser-1" registryOne = (Answers tt, r1)
    /\ Calls.sessions r1 !! "browser-1" = None
    /\ Calls.endSession servicesUp with_pool "browser-1" r1 = (Answers tt, r1)
    /\ (Calls.effect_count Calls.is_charge (Calls.effects r1)
        <= S (Calls.effect_count Calls.is_charge (Calls.effects registryOne)))%nat.
Proof.
  apply (endSession_twice servicesUp with_pool "browser-1" registryOne).
  intros ref Href. vm_compute in Href. injection Href as <-.
  eexists. vm_compute. reflexivity.
Defined.

Lemma createSession_run db connectionId agentPrompt agentVoiceId userId agentId
    agentModel tools r :
  Calls.createSession db connectionId agentPrompt agentVoiceId userId agentId
    agentModel tools r
  = (Answers (length (Calls.heap r)),
     {| Calls.heap :=
          Calls.heap r
          ++ [newCall db r connectionId agentPrompt agentVoiceId userId agentId
                agentModel tools];
        Calls.sessions := <[connectionId := length (Calls.heap r)]> (Calls.sessions r);
        Calls.effects := Calls.effects r;
        Calls.ticks := S (S (Calls.ticks r));
        Calls.uuids := Calls.uuids r |}).
Proof. reflexivity. Qed.

Lemma callLifecycle_run db this connectionId agentPrompt agentVoiceId userId agentId
    agentModel tools r :
  let session := newCall db r connectionId agentPrompt agentVoiceId userId agentId
                   agentModel tools in
  let callId := Calls.uuidv4 db (Calls.uuids r) in
  let n := Calls.effect_count Calls.is_execute (Calls.effects r) in
  let t2 := Calls.clockAt db (S (S (Calls.ticks r))) in
  exists r',
    callLifecycle db this connectionId agentPrompt agentVoiceId userId agentId
      agentModel tools r = (Answers tt, r')
    /\ Calls.sessions r' !! connectionId = None
    /\ Calls.effects r'
       = (Calls.effects r
          ++ if logged this session then
              insertOf session callId
              :: match Calls.execute db n with
                 | Answers _ =>
                     if String.eqb callId "" then []
                     else
                       Calls.UpdateCall t2 (secondsUntil t2 session) callId
                       :: match Calls.execute db (S n) with
                          | Answers _ =>
                              [Calls.RecordAndCharge (default "" userId) callId 0
                                 (secondsUntil t2 session)]
                          | Raises _ => []
                          end
                 | Raises _ => []
                 end
             else [])%list.
Proof.
  intros session callId n t2. unfold callLifecycle, Calls.rbind at 1.
  rewrite createSession_run. fold session.
  set (ref := length (Calls.heap r)).
  set (r1 := {| Calls.heap := Calls.heap r ++ [session] |}).
  assert (Href : Calls.heap r1 !! ref = Some session)
    by (apply list_lookup_middle; reflexivity).
  assert (Hid : Calls.sessions r1 !! connectionId = Some ref)
    by apply lookup_insert_eq.
  unfold Calls.rbind. rewrite (logCallStart_run db this ref r1 session Href).
  assert (Hclean : cleanupEffects session = []) by reflexivity.
  destruct (logged this session) eqn:Hlogged.
  - cbn zeta. change (Calls.uuids r1) with (Calls.uuids r).
    change (Calls.effects r1) with (Calls.effects r). fold callId n.
    apply andb_prop in Hlogged. destruct Hlogged as [Hpool Huser].
    destruct (Calls.execute db n) as [rows1|e1] eqn:Hinsert.
    + set (session' := Calls.set_callLogId (Some callId) session).
      set (r2 := with_heap _ _).
      assert (Href2 : Calls.heap r2 !! ref = Some session').
      { cbn [Calls.heap r2 with_heap]. rewrite list_lookup_alter, Href.
        rewrite decide_True by reflexivity. reflexivity. }
      rewrite (endSession_run db this connectionId r2 ref session' Hid Href2).
      cbn zeta. change (cleanupEffects session') with (@nil Calls.effect).
      rewrite with_effects_nil, Hpool.
      cbn [andb Calls.callLogId session' Calls.set_callLogId str_truthy].
      eexists. split; [reflexivity|].
      split; [cbn [Calls.sessions with_sessions]; apply lookup_delete_eq|].
      destruct (String.eqb callId ""); cbn [negb].
      * cbn [Calls.effects with_sessions r2 with_heap with_effects]. reflexivity.
      * cbn [Calls.effects with_sessions with_effects]. unfold endEffects.
        cbn [Calls.effects Calls.ticks r2 with_heap with_effects].
        rewrite effect_count_app. fold n.
        change (Calls.effect_count Calls.is_execute [insertOf session callId])
          with 1%nat.
        rewrite Nat.add_1_r. change (Calls.ticks r1) with (S (S (Calls.ticks r))).
        fold t2. rewrite <- app_assoc. cbn [app].
        change (secondsUntil t2 session') with (secondsUntil t2 session).
        cbn [Calls.userId session' Calls.set_callLogId session newCall
               Calls.callLogId default from_option].
        cbn [Calls.userId session newCall] in Huser. rewrite Huser.
        change (Calls.effects r1) with (Calls.effects r). fold n.
        destruct (Calls.execute db (S n)); reflexivity.
    + set (r2 := with_effects _ 0 1 r1).
      rewrite (endSession_run db this connectionId r2 ref session Hid Href).
      cbn zeta. rewrite Hclean, with_effects_nil.
      cbn [Calls.callLogId session newCall str_truthy]. rewrite andb_false_r.
      eexists. split; [reflexivity|].
      split; [cbn [Calls.sessions with_sessions]; apply lookup_delete_eq|].
      reflexivity.
  - rewrite (endSession_run db this connectionId r1 ref session Hid Href).
    cbn zeta. rewrite Hclean, with_effects_nil.
    cbn [Calls.callLogId session newCall str_truthy]. rewrite andb_false_r.
    eexists. split; [reflexivity|].
    split; [cbn [Calls.sessions with_sessions]; apply lookup_delete_eq|].
    cbn [Calls.effects with_sessions r1]. rewrite app_nil_r. reflexivity.
Qed.

(** X26: a call of a known user whose start was logged is, when
    it ends, updated and charged once each, under the id drawn at its start;
    the duration written to the call record and the Sarvam usage charged are
    both the whole seconds from the creation of the session to its end. *)
Theorem call_charged_for_its_seconds (db : Calls.Services) (this : Handler)
    (connectionId agentPrompt agentVoiceId user : string)
    (agentId agentModel : option string) (tools : list Tool) (r : Calls.Registry)
    (inserted updated : list Calls.Row) :
  let n := Calls.effect_count Calls.is_execute (Calls.effects r) in
  let callId := Calls.uuidv4 db (Calls.uuids r) in
  let t0 := Calls.clockAt db (Calls.ticks r) in
  let t2 := Calls.clockAt db (S (S (Calls.ticks r))) in
  is_Some (mysqlPool this) ->
  user <> "" ->
  callId <> "" ->
  Calls.execute db n = Answers inserted ->
  Calls.execute db (S n) = Answers updated ->
  exists r',
    callLifecycle db this connectionId agentPrompt agentVoiceId (Some user) agentId
      agentModel tools r = (Answers tt, r')
    /\ Calls.effects r'
       = (Calls.effects r
          ++ [ Calls.InsertCall callId user
                 (if str_truthy agentId then agentId else None) connectionId t0;
               Calls.UpdateCall t2 ((t2 - t0) / 1000) callId;
               Calls.RecordAndCharge user callId 0 ((t2 - t0) / 1000) ])%list
    /\ Calls.sessions r' !! connectionId = None.
Proof.
  intros n callId t0 t2 Hpool Huser Hid Hinsert Hupdate.
  destruct (callLifecycle_run db this connectionId agentPrompt agentVoiceId
              (Some user) agentId agentModel tools r) as (r' & Hrun & Hgone & Heff).
  exists r'. split; [exact Hrun|]. split; [|exact Hgone].
  rewrite Heff. fold n callId t2. rewrite Hinsert, Hupdate.
  apply String.eqb_neq in Huser, Hid. rewrite Hid.
  unfold logged, Calls.hasPool. rewrite (bool_decide_eq_true_2 _ Hpool).
  cbn [andb Calls.userId newCall str_truthy]. rewrite Huser. reflexivity.
Qed.

Lemma call_charged_for_its_seconds_witness :
  exists r',
    callLifecycle servicesUp with_pool "browser-1" "You are a helpful AI assistant."
      "meera" (Some "user-7") None None [] registryEmpty = (Answers tt, r')
    /\ Calls.effects r'
       = [ Calls.InsertCall "c0ffee" "user-7" None "browser-1" 1000;
           Calls.UpdateCall 6000 5 "c0ffee";
           Calls.RecordAndCharge "user-7" "c0ffee" 0 5 ]
    /\ Calls.sessions r' !! "browser-1" = None.
Proof.
  apply (call_charged_for_its_seconds servicesUp with_pool "browser-1"
           "You are a helpful AI assistant." "meera" "user-7" None None []
           registryEmpty [] []).
  - eexists. reflexivity.
  - discriminate.
  - discriminate.
  - reflexivity.
  - reflexivity.
Defined.

(** X27: a call whose start was not logged (no database pool, no
    user, a failed insert, or an empty id) is never charged: at its end no
    statement is sent to the database and no charge is made. *)
Theorem call_without_record_is_free (db : Calls.Services) (this : Handler)
    (connectionId agentPrompt agentVoiceId : string)
    (userId agentId agentModel : option string) (tools : list Tool)
    (r : Calls.Registry) :
  let n := Calls.effect_count Calls.is_execute (Calls.effects r) in
  let callId := Calls.uuidv4 db (Calls.uuids r) in
  let session := newCall db r connectionId agentPrompt agentVoiceId userId agentId
                   agentModel tools in
  mysqlPool this = None \/ str_truthy userId = false
  \/ (exists e, Calls.execute db n = Raises e) \/ callId = "" ->
  exists r',
    callLifecycle db this connectionId agentPrompt agentVoiceId userId agentId
      agentModel tools r = (Answers tt, r')
    /\ Calls.effects r'
       = (Calls.effects r
          ++ if Calls.hasPool this && str_truthy userId
             then [insertOf session callId] else [])%list
    /\ Calls.sessions r' !! connectionId = None.
Proof.
  intros n callId session Hfree.
  destruct (callLifecycle_run db this connectionId agentPrompt agentVoiceId
              userId agentId agentModel tools r) as (r' & Hrun & Hgone & Heff).
  exists r'. split; [exact Hrun|]. split; [|exact Hgone].
  rewrite Heff. fold n callId session. unfold logged.
  cbn [Calls.userId session newCall].
  destruct Hfree as [Hpool|[Huser|[[e He]|Hid]]].
  - unfold Calls.hasPool. rewrite Hpool. reflexivity.
  - rewrite Huser, andb_false_r. reflexivity.
  - rewrite He. reflexivity.
  - rewrite Hid. cbn [String.eqb].
    destruct (Calls.hasPool this && str_truthy userId); [|reflexivity].
    destruct (Calls.execute db n); reflexivity.
Qed.

Lemma call_without_record_is_free_witness :
  exists r',
    callLifecycle servicesUp with_pool "browser-1" "You are a helpful AI assistant."
      "meera" None None None [] registryEmpty = (Answers tt, r')
    /\ Calls.effects r' = []
    /\ Calls.sessions r' !! "browser-1" = None.
Proof.
  apply (call_without_record_is_free servicesUp with_pool "browser-1"
           "You are a helpful AI assistant." "meera" None None None []
           registryEmpty).
  right. left. reflexivity.
Defined.

Lemma loadAgentTools_run db this agentId r :
  Calls.loadAgentTools db this agentId r
  = if Calls.hasPool this
    then (Answers (toolsOfRows
                     (Calls.execute db
                        (Calls.effect_count Calls.is_execute (Calls.effects r)))),
          with_effects [Calls.SelectTools agentId] 0 0 r)
    else (Answers [], r).
Proof.
  unfold Calls.loadAgentTools, Calls.rtry, Calls.rbind, Calls.run, Calls.rret,
    Calls.rthrow, toolsOfRows, with_effects.
  destruct (Calls.hasPool this); cbn [negb]; [|reflexivity].
  destruct (Calls.execute db _) as [[|row rows]|e]; try reflexivity.
  destruct (Calls.row_tools row) as [[| | |text| |]|]; try reflexivity.
  - cbn [truthy_opt truthy]. destruct b; reflexivity.
  - cbn [truthy_opt truthy]. destruct (number_is_zero m e); reflexivity.
  - cbn [truthy_opt truthy]. destruct (String.eqb text ""); cbn [negb];
      [reflexivity|].
    destruct (JSON_parse text) as [[| | | | |]|]; reflexivity.
Qed.

(** X28: [loadAgentTools] never fails and always yields a list: without a
    pool the empty list, with no statement sent; otherwise after exactly one
    query, the items of the first row's [tools] column when it is an array or
    a text that parses to one, and the empty list in every other case (no
    row, an empty column, a text that does not parse, [null], any value that
    is not an array, a failed query). *)
Theorem loadAgentTools_total (db : Calls.Services) (this : Handler)
    (agentId : string) (r : Calls.Registry) :
  exists items r',
    Calls.loadAgentTools db this agentId r = (Answers items, r')
    /\ (mysqlPool this = None -> items = [] /\ r' = r)
    /\ (is_Some (mysqlPool this) ->
        r' = with_effects [Calls.SelectTools agentId] 0 0 r
        /\ items
           = toolsOfRows
               (Calls.execute db
                  (Calls.effect_count Calls.is_execute (Calls.effects r))))
    /\ Calls.heap r' = Calls.heap r /\ Calls.sessions r' = Calls.sessions r.
Proof.
  rewrite loadAgentTools_run. unfold Calls.hasPool.
  destruct (mysqlPool this) as [pool|] eqn:Hpool.
  - rewrite bool_decide_eq_true_2 by (eexists; reflexivity).
    eexists _, _. split; [reflexivity|].
    split; [discriminate|]. split; [intros _; split; reflexivity|].
    split; reflexivity.
  - rewrite bool_decide_eq_false_2 by (intros [x Hx]; discriminate).
    exists [], r. split; [reflexivity|].
    split; [intros _; split; reflexivity|].
    split; [intros [x Hx]; discriminate|]. split; reflexivity.
Qed.
